(** * HRF wellness planner: meal preferences and meal plans

    A shallow embedding of the meal-preference and meal-plan routes of
    [routes.py], of the [MealPreference] and [MealPlan] models of
    [models.py] and of [MealPreferenceForm] ([forms.py], repeated in
    [routes.py]), together with the properties of the specification
    that concern them.

    Conventions.
    - A Python [str] is a [string]; a character stands for a code point
      below 256.
    - A Python exception is a value of [exn]; code that may raise returns
      a [result].
    - Route handlers run in the monad [M]: a reader over the request, a
      state over the database, the ORM session and the flashed messages,
      and exceptions.
    - [json], [utils.meal_planner], the clock and the database engine
      are collaborators outside the modelled files: [json] is the class
      [Py.Json]; the others are fields of [flask.Request], so that each
      request meets its own behaviour of them. *)

From Stdlib Require Import ZArith List String Ascii Bool Lia DecimalString.
From Stdlib Require Import Permutation Sorted.
Import ListNotations.
Open Scope string_scope.

(* ===================================================================== *)
(** * Python values *)
(* ===================================================================== *)

Module Py.

(** ** Exceptions *)

Inductive exn : Type :=
| KeyError (key_repr : string)
| IndexError (msg : string)
| TypeError (msg : string)
| ValueError (msg : string)
| Exception (msg : string)      (* raised by a collaborator *)
| NotFound.                      (* werkzeug's 404, raised by abort *)

(** [str(e)] *)
Definition str_exn (e : exn) : string :=
  match e with
  | KeyError k => k
  | IndexError m | TypeError m | ValueError m | Exception m => m
  | NotFound => "404 Not Found: The requested URL was not found on the server. If you entered the URL manually please check your spelling and try again."
  end.

Inductive result (A : Type) : Type :=
| Ok (a : A)
| Raise (e : exn).
Arguments Ok {A} a.
Arguments Raise {A} e.

Definition rbind {A B} (r : result A) (k : A -> result B) : result B :=
  match r with
  | Ok a => k a
  | Raise e => Raise e
  end.

(** ** Strings *)

Definition code (c : ascii) : N := N_of_ascii c.

(** [c.isspace()] on code points below 256. *)
Definition isspace (c : ascii) : bool :=
  let n := code c in
  ((9 <=? n) && (n <=? 13) || (28 <=? n) && (n <=? 32)
   || (n =? 133) || (n =? 160))%N.

Fixpoint lstrip (s : string) : string :=
  match s with
  | EmptyString => EmptyString
  | String c s' => if isspace c then lstrip s' else s
  end.

Fixpoint rstrip (s : string) : string :=
  match s with
  | EmptyString => EmptyString
  | String c s' =>
      match rstrip s' with
      | EmptyString => if isspace c then EmptyString else String c EmptyString
      | r => String c r
      end
  end.

(** [s.strip()] *)
Definition strip (s : string) : string := rstrip (lstrip s).

(** [s.split(sep)] for a one-character separator. *)
Fixpoint split (sep : ascii) (s : string) : list string :=
  match s with
  | EmptyString => [EmptyString]
  | String c s' =>
      if Ascii.eqb c sep then EmptyString :: split sep s'
      else match split sep s' with
           | [] => [String c EmptyString]
           | w :: ws => String c w :: ws
           end
  end.

(** Truth value of a [str]. *)
Definition nonempty (s : string) : bool :=
  match s with EmptyString => false | _ => true end.

Definition first_char (s : string) : option ascii :=
  match s with EmptyString => None | String c _ => Some c end.

Fixpoint last_char (s : string) : option ascii :=
  match s with
  | EmptyString => None
  | String c EmptyString => Some c
  | String _ s' => last_char s'
  end.

(** ** Structured values: what [json.loads] returns and [json.dumps]
    accepts.  A [dict] keeps its items in insertion order.  The routes
    never inspect a number, so integers stand for all numbers. *)

#[local] Unset Elimination Schemes.
Inductive value : Type :=
| VNone
| VBool (b : bool)
| VInt (n : Z)
| VStr (s : string)
| VList (items : list value)
| VDict (items : list (string * value)).
#[local] Set Elimination Schemes.

Definition type_name (v : value) : string :=
  match v with
  | VNone => "NoneType"
  | VBool _ => "bool"
  | VInt _ => "int"
  | VStr _ => "str"
  | VList _ => "list"
  | VDict _ => "dict"
  end.

Fixpoint lookup (k : string) (d : list (string * value)) : option value :=
  match d with
  | [] => None
  | (k', v) :: d' => if String.eqb k' k then Some v else lookup k d'
  end.

Definition not_subscriptable (v : value) : exn :=
  TypeError ("'" ++ type_name v ++ "' object is not subscriptable").

(** [v[k]] for a [str] key. *)
Definition getitem_key (v : value) (k : string) : result value :=
  match v with
  | VDict d =>
      match lookup k d with
      | Some x => Ok x
      | None => Raise (KeyError ("'" ++ k ++ "'"))
      end
  | VList _ => Raise (TypeError "list indices must be integers or slices, not str")
  | VStr _ => Raise (TypeError "string indices must be integers, not 'str'")
  | _ => Raise (not_subscriptable v)
  end.

(** [v[0]]: the first item of a sequence. *)
Definition getitem_first (v : value) : result value :=
  match v with
  | VList l =>
      match l with
      | x :: _ => Ok x
      | [] => Raise (IndexError "list index out of range")
      end
  | VStr s =>
      match first_char s with
      | Some c => Ok (VStr (String c EmptyString))
      | None => Raise (IndexError "string index out of range")
      end
  | VDict _ => Raise (KeyError "0")
  | _ => Raise (not_subscriptable v)
  end.

(** [v[-1]]: the last item of a sequence. *)
Definition getitem_last (v : value) : result value :=
  match v with
  | VList l =>
      match rev l with
      | x :: _ => Ok x
      | [] => Raise (IndexError "list index out of range")
      end
  | VStr s =>
      match last_char s with
      | Some c => Ok (VStr (String c EmptyString))
      | None => Raise (IndexError "string index out of range")
      end
  | VDict _ => Raise (KeyError "-1")
  | _ => Raise (not_subscriptable v)
  end.

(** ** Dates *)

Record date : Type := mkdate { year : Z; month : Z; day : Z }.

Open Scope Z_scope.

(** [a <= b] on [datetime.date]: by year, then month, then day. *)
Definition date_leb (a b : date) : bool :=
  (year a <? year b)
  || (year a =? year b)
     && ((month a <? month b)
         || (month a =? month b) && (day a <=? day b)).

Definition date_le (a b : date) : Prop := date_leb a b = true.

Definition is_leap (y : Z) : bool :=
  (y mod 4 =? 0) && (negb (y mod 100 =? 0) || (y mod 400 =? 0)).

Definition days_in_month (y m : Z) : Z :=
  if m =? 2 then (if is_leap y then 29 else 28)
  else if (m =? 4) || (m =? 6) || (m =? 9) || (m =? 11) then 30
  else 31.

Definition digit (c : ascii) : option Z :=
  let n := code c in
  if ((48 <=? n) && (n <=? 57))%N then Some (Z.of_N n - 48) else None.

Definition digit_in (lo hi : Z) (c : ascii) : option Z :=
  match digit c with
  | Some d => if (lo <=? d) && (d <=? hi) then Some d else None
  | None => None
  end.

(** The directive [%Y]: the pattern [\d\d\d\d]. *)
Definition match_Y (s : string) : option (Z * string) :=
  match s with
  | String a (String b (String c (String d r))) =>
      match digit a, digit b, digit c, digit d with
      | Some a, Some b, Some c, Some d =>
          Some (1000 * a + 100 * b + 10 * c + d, r)
      | _, _, _, _ => None
      end
  | _ => None
  end.

(** One alternative of a directive made of a fixed first character class
    and a second one: both are tried on the head of [s]. *)
Definition two_chars (first second : ascii -> option Z) (s : string)
  : list (Z * string) :=
  match s with
  | String a (String b r) =>
      match first a, second b with
      | Some x, Some y => [(10 * x + y, r)]
      | _, _ => []
      end
  | _ => []
  end.

Definition one_char (cls : ascii -> option Z) (s : string)
  : list (Z * string) :=
  match s with
  | String a r => match cls a with Some x => [(x, r)] | None => [] end
  | _ => []
  end.

Definition blank (c : ascii) : option Z :=
  if Ascii.eqb c " " then Some 0 else None.

(** The directive [%m]: [1[0-2]|0[1-9]|[1-9]], alternatives in order. *)
Definition alts_m (s : string) : list (Z * string) :=
  two_chars (digit_in 1 1) (digit_in 0 2) s
  ++ two_chars (digit_in 0 0) (digit_in 1 9) s
  ++ one_char (digit_in 1 9) s.

(** The directive [%d]: [3[0-1]|[1-2]\d|0[1-9]|[1-9]| [1-9]]. *)
Definition alts_d (s : string) : list (Z * string) :=
  two_chars (digit_in 3 3) (digit_in 0 1) s
  ++ two_chars (digit_in 1 2) digit s
  ++ two_chars (digit_in 0 0) (digit_in 1 9) s
  ++ two_chars blank (digit_in 1 9) s
  ++ one_char (digit_in 1 9) s.

Definition expect_dash (s : string) : option string :=
  match s with
  | String c r => if Ascii.eqb c "-" then Some r else None
  | EmptyString => None
  end.

(** The first alternative after which the rest of the pattern, a dash,
    matches. *)
Fixpoint first_then_dash (alts : list (Z * string)) : option (Z * string) :=
  match alts with
  | [] => None
  | (x, r) :: alts' =>
      match expect_dash r with
      | Some r' => Some (x, r')
      | None => first_then_dash alts'
      end
  end.

(** The messages quote [s] as it is, where Python writes [repr(s)]. *)
Definition no_match (s : string) : exn :=
  ValueError ("time data '" ++ s ++ "' does not match format '%Y-%m-%d'").

(** [datetime.strptime(s, '%Y-%m-%d').date()] *)
Definition strptime_date (s : string) : result date :=
  match match_Y s with
  | None => Raise (no_match s)
  | Some (y, r1) =>
      match expect_dash r1 with
      | None => Raise (no_match s)
      | Some r2 =>
          match first_then_dash (alts_m r2) with
          | None => Raise (no_match s)
          | Some (m, r3) =>
              match alts_d r3 with
              | [] => Raise (no_match s)
              | (d, rest) :: _ =>
                  if nonempty rest
                  then Raise (ValueError ("unconverted data remains: " ++ rest))
                  else if y =? 0
                  then Raise (ValueError "year 0 is out of range")
                  else if d <=? days_in_month y m
                  then Ok (mkdate y m d)
                  else Raise (ValueError "day is out of range for month")
              end
          end
      end
  end.

(** [datetime.strptime(v, '%Y-%m-%d').date()] for an arbitrary value. *)
Definition strptime_value (v : value) : result date :=
  match v with
  | VStr s => strptime_date s
  | _ => Raise (TypeError ("strptime() argument 1 must be str, not "
                           ++ type_name v))
  end.

(** ** Times of day *)

Record time : Type := mktime { hour : Z; minute : Z }.

Definition two_digits (n : Z) : string :=
  String (ascii_of_N (Z.to_N (48 + n / 10)))
    (String (ascii_of_N (Z.to_N (48 + n mod 10))) EmptyString).

(** [t.strftime('%H:%M')] *)
Definition strftime_HM (t : time) : string :=
  two_digits (hour t) ++ ":" ++ two_digits (minute t).

Close Scope Z_scope.

(** ** The [json] module *)

Class Json : Type := {
  dumps : value -> result string;
  loads : string -> result value
}.

End Py.

(* ===================================================================== *)
(** * models.py *)
(* ===================================================================== *)

Module models.

(** A column is an [option] where an object can hold [None] in it; [id]
    is [None] until the row is flushed.  A [DateTime] column holds a
    timestamp. *)

Module MealPreference.

Record t : Type := mk {
  id : option Z;
  user_id : Z;
  meal_type : option string;
  preferred_time : option string;
  calories_target : option Z;
  protein_target : option Z;
  carbs_target : option Z;
  fat_target : option Z;
  excluded_ingredients : option string;
  available_ingredients : option string;
  preferred_cuisine : option string;
  created_at : option Z;
  updated_at : option Z
}.

(** [MealPreference(user_id=u)] *)
Definition new (u : Z) : t :=
  mk None u None None None None None None None None None None None.

End MealPreference.

Module MealPlan.

Record t : Type := mk {
  id : option Z;
  user_id : Z;
  start_date : Py.date;
  end_date : Py.date;
  meal_plan_data : option string;
  shopping_list : option string;
  created_at : option Z
}.

Section Accessors.
Context {json : Py.Json}.

Definition get_meal_plan (self : t) : Py.result Py.value :=
  match meal_plan_data self with
  | Some s => if Py.nonempty s then Py.loads s else Py.Ok (Py.VDict [])
  | None => Py.Ok (Py.VDict [])
  end.

Definition get_shopping_list (self : t) : Py.result Py.value :=
  match shopping_list self with
  | Some s => if Py.nonempty s then Py.loads s else Py.Ok (Py.VDict [])
  | None => Py.Ok (Py.VDict [])
  end.

End Accessors.

End MealPlan.

End models.

(* ===================================================================== *)
(** * forms.py *)
(* ===================================================================== *)

Module forms.

Module MealPreferenceForm.

(** The [data] of each field once the submitted form has been processed:
    [None] where the field is missing or could not be coerced. *)
Record t : Type := mk {
  meal_type : option string;
  preferred_time : option Py.time;
  calories_target : option Z;
  protein_target : option Z;
  carbs_target : option Z;
  fat_target : option Z;
  excluded_ingredients : option string;
  available_ingredients : option string;
  preferred_cuisine : option string;
  csrf_valid : bool
}.

Definition meal_type_choices : list string :=
  ["breakfast"; "lunch"; "dinner"; "snack"].

Definition preferred_cuisine_choices : list string :=
  ["any"; "mediterranean"; "asian"; "mexican"; "indian"; "italian";
   "american"; "vegetarian"; "vegan"].

Definition mem (s : string) (l : list string) : bool :=
  existsb (String.eqb s) l.

(** [SelectField.pre_validate]: the data must be one of the choices. *)
Definition valid_choice (choices : list string) (data : option string) : bool :=
  match data with
  | Some s => mem s choices
  | None => false
  end.

(** [DataRequired] on a string field. *)
Definition DataRequired_str (data : option string) : bool :=
  match data with
  | Some s => Py.nonempty (Py.strip s)
  | None => false
  end.

(** [DataRequired] on a [TimeField]. *)
Definition DataRequired_time (data : option Py.time) : bool :=
  match data with
  | Some _ => true
  | None => false
  end.

(** [NumberRange(min=lo, max=hi)] *)
Definition NumberRange (lo hi : Z) (data : option Z) : bool :=
  match data with
  | Some n => ((lo <=? n) && (n <=? hi))%Z
  | None => false
  end.

Definition validate (f : t) : bool :=
  csrf_valid f
  && (valid_choice meal_type_choices (meal_type f)
      && DataRequired_str (meal_type f))
  && DataRequired_time (preferred_time f)
  && NumberRange 0 2000 (calories_target f)
  && NumberRange 0 200 (protein_target f)
  && NumberRange 0 300 (carbs_target f)
  && NumberRange 0 100 (fat_target f)
  && valid_choice preferred_cuisine_choices (preferred_cuisine f).

End MealPreferenceForm.

End forms.

(* ===================================================================== *)
(** * The database and the ORM session *)
(* ===================================================================== *)

Module db.

Import models.

(** The tables.  Rows are kept in the order in which an unordered query
    returns them.  The tables of the models that the meal routes never
    name are gathered in [other_tables]. *)
Record DB : Type := mkDB {
  meal_preference : list MealPreference.t;
  meal_plan : list MealPlan.t;
  other_tables : list (string * Py.value)
}.

Inductive entity : Type :=
| Preference (p : MealPreference.t)
| Plan (p : MealPlan.t).

(** The unit of work: objects added and not yet inserted, and loaded
    objects whose attributes were assigned. *)
Record Session : Type := mkSession {
  new : list entity;
  dirty : list MealPreference.t
}.

Definition empty_session : Session := mkSession [] [].

Definition opt_Z_eqb (a b : option Z) : bool :=
  match a, b with
  | Some x, Some y => Z.eqb x y
  | None, None => true
  | _, _ => false
  end.

Definition opt_str_eqb (a b : option string) : bool :=
  match a, b with
  | Some x, Some y => String.eqb x y
  | None, None => true
  | _, _ => false
  end.

(** Primary keys are handed out in increasing order. *)
Definition next_id {A} (id : A -> option Z) (rows : list A) : Z :=
  (1 + fold_right Z.max 0
         (map (fun r => match id r with Some i => i | None => 0 end) rows))%Z.

Definition same_columns (a b : MealPreference.t) : bool :=
  opt_str_eqb (MealPreference.meal_type a) (MealPreference.meal_type b)
  && opt_str_eqb (MealPreference.preferred_time a) (MealPreference.preferred_time b)
  && opt_Z_eqb (MealPreference.calories_target a) (MealPreference.calories_target b)
  && opt_Z_eqb (MealPreference.protein_target a) (MealPreference.protein_target b)
  && opt_Z_eqb (MealPreference.carbs_target a) (MealPreference.carbs_target b)
  && opt_Z_eqb (MealPreference.fat_target a) (MealPreference.fat_target b)
  && opt_str_eqb (MealPreference.excluded_ingredients a)
                 (MealPreference.excluded_ingredients b)
  && opt_str_eqb (MealPreference.available_ingredients a)
                 (MealPreference.available_ingredients b)
  && opt_str_eqb (MealPreference.preferred_cuisine a)
                 (MealPreference.preferred_cuisine b).

Definition touch (now : Z) (p : MealPreference.t) : MealPreference.t :=
  MealPreference.mk
    (MealPreference.id p) (MealPreference.user_id p)
    (MealPreference.meal_type p) (MealPreference.preferred_time p)
    (MealPreference.calories_target p) (MealPreference.protein_target p)
    (MealPreference.carbs_target p) (MealPreference.fat_target p)
    (MealPreference.excluded_ingredients p)
    (MealPreference.available_ingredients p)
    (MealPreference.preferred_cuisine p)
    (MealPreference.created_at p) (Some now).

(** UPDATE ... WHERE id = [id p]: emitted only when a column changed;
    [updated_at] then takes its [onupdate] value. *)
Definition update_row (now : Z) (p r : MealPreference.t) : MealPreference.t :=
  if opt_Z_eqb (MealPreference.id r) (MealPreference.id p)
  then (if same_columns p r then r else touch now p)
  else r.

Definition flush_dirty (now : Z) (ps : list MealPreference.t)
    (rows : list MealPreference.t) : list MealPreference.t :=
  fold_left (fun rows p => map (update_row now p) rows) ps rows.

Definition or_default (now : Z) (c : option Z) : option Z :=
  match c with Some _ => c | None => Some now end.

(** INSERT: the key is assigned and the column defaults are filled in. *)
Definition insert_preference (now : Z) (p : MealPreference.t)
    (rows : list MealPreference.t) : MealPreference.t :=
  MealPreference.mk
    (Some (next_id MealPreference.id rows)) (MealPreference.user_id p)
    (MealPreference.meal_type p) (MealPreference.preferred_time p)
    (MealPreference.calories_target p) (MealPreference.protein_target p)
    (MealPreference.carbs_target p) (MealPreference.fat_target p)
    (MealPreference.excluded_ingredients p)
    (MealPreference.available_ingredients p)
    (MealPreference.preferred_cuisine p)
    (or_default now (MealPreference.created_at p))
    (or_default now (MealPreference.updated_at p)).

Definition insert_plan (now : Z) (p : MealPlan.t) (rows : list MealPlan.t)
  : MealPlan.t :=
  MealPlan.mk
    (Some (next_id MealPlan.id rows)) (MealPlan.user_id p)
    (MealPlan.start_date p) (MealPlan.end_date p)
    (MealPlan.meal_plan_data p) (MealPlan.shopping_list p)
    (or_default now (MealPlan.created_at p)).

(** The inserts of a flush, in the order of the [add]s; returns the
    objects as they are once flushed. *)
Fixpoint flush_new (now : Z) (es : list entity) (d : DB) : DB * list entity :=
  match es with
  | [] => (d, [])
  | Preference p :: es' =>
      let p' := insert_preference now p (meal_preference d) in
      let '(d', out) :=
        flush_new now es'
          (mkDB (meal_preference d ++ [p']) (meal_plan d) (other_tables d)) in
      (d', Preference p' :: out)
  | Plan p :: es' =>
      let p' := insert_plan now p (meal_plan d) in
      let '(d', out) :=
        flush_new now es'
          (mkDB (meal_preference d) (meal_plan d ++ [p']) (other_tables d)) in
      (d', Plan p' :: out)
  end.

Definition flush (now : Z) (s : Session) (d : DB) : DB * list entity :=
  flush_new now (new s)
    (mkDB (flush_dirty now (dirty s) (meal_preference d))
          (meal_plan d) (other_tables d)).

End db.

(* ===================================================================== *)
(** * Requests, responses and the handler monad *)
(* ===================================================================== *)

Module flask.

Import models forms.

(** What a handler reads: the authenticated user, the submitted form,
    and the behaviour of its collaborators while the request runs. *)
Record Request : Type := mkRequest {
  current_user : option Z;
  method : string;
  form : MealPreferenceForm.t;
  utcnow : Z;
  (** the error the engine answers a COMMIT with, if any *)
  db_fault : option Py.exn;
  (** [utils.meal_planner] *)
  generate_meal_plan : MealPreference.t -> Py.result Py.value;
  generate_shopping_list : Py.value -> Py.result Py.value;
  (** what a route that names no meal model does to the other tables *)
  elsewhere : list (string * Py.value) -> list (string * Py.value)
}.

Inductive context_value : Type :=
| CForm (f : MealPreferenceForm.t)
| CPreferences (l : list MealPreference.t)
| CPlan (p : MealPlan.t)
| CPlans (l : list MealPlan.t).

Inductive response : Type :=
| Render (template : string) (context : list (string * context_value))
| Redirect (endpoint : string) (plan_id : option Z)
| Unauthorized
| Abort (status : Z)
| Automatic                  (* Flask's own answer to OPTIONS *)
| Elsewhere.                 (* the response of a route not modelled *)

Record St : Type := mkSt {
  store : db.DB;
  session : db.Session;
  flashes : list (string * string);     (* message, category *)
  log : list string;
  commits : nat
}.

Definition M (A : Type) : Type := Request -> St -> Py.result A * St.

Definition ret {A} (a : A) : M A := fun _ st => (Py.Ok a, st).

Definition bind {A B} (m : M A) (k : A -> M B) : M B :=
  fun rq st =>
    match m rq st with
    | (Py.Ok a, st') => k a rq st'
    | (Py.Raise e, st') => (Py.Raise e, st')
    end.

(** [try: body except Exception as e: handler(e)] *)
Definition try_except {A} (body : M A) (handler : Py.exn -> M A) : M A :=
  fun rq st =>
    match body rq st with
    | (Py.Ok a, st') => (Py.Ok a, st')
    | (Py.Raise e, st') => handler e rq st'
    end.

Definition lift {A} (r : Py.result A) : M A := fun _ st => (r, st).

Definition ask : M Request := fun rq st => (Py.Ok rq, st).

Declare Scope handler_scope.
Delimit Scope handler_scope with handler.
Notation "x <- c ;; k" := (bind c (fun x => k))
  (at level 61, c at next level, right associativity) : handler_scope.
Notation "c ;;; k" := (bind c (fun _ => k))
  (at level 61, right associativity) : handler_scope.

Definition flash (message category : string) : M unit :=
  fun _ st =>
    (Py.Ok tt,
     mkSt (store st) (session st) (flashes st ++ [(message, category)])
          (log st) (commits st)).

Definition logger_error (message : string) : M unit :=
  fun _ st =>
    (Py.Ok tt,
     mkSt (store st) (session st) (flashes st) (log st ++ [message])
          (commits st)).

(** [db.session.add(obj)]: an object that already has a row is in the
    session already. *)
Definition session_add (e : db.entity) : M unit :=
  fun _ st =>
    let pending :=
      match e with
      | db.Preference p =>
          match MealPreference.id p with None => true | Some _ => false end
      | db.Plan p =>
          match MealPlan.id p with None => true | Some _ => false end
      end in
    (Py.Ok tt,
     if pending
     then mkSt (store st)
               (db.mkSession (db.new (session st) ++ [e])
                             (db.dirty (session st)))
               (flashes st) (log st) (commits st)
     else st).

(** Assigning the attributes of a loaded object: the session records the
    object, as it now is, for the next flush. *)
Definition session_modified (p : MealPreference.t) : M unit :=
  fun _ st =>
    (Py.Ok tt,
     mkSt (store st)
          (db.mkSession
             (db.new (session st))
             (filter (fun q => negb (db.opt_Z_eqb (MealPreference.id q)
                                                  (MealPreference.id p)))
                     (db.dirty (session st)) ++ [p]))
          (flashes st) (log st) (commits st)).

(** [db.session.commit()]: the flush and the COMMIT are one transaction;
    when the engine fails nothing of it is stored.  Returns the inserted
    objects, keys filled in. *)
Definition session_commit : M (list db.entity) :=
  fun rq st =>
    match db_fault rq with
    | Some e =>
        (Py.Raise e,
         mkSt (store st) (session st) (flashes st) (log st) (S (commits st)))
    | None =>
        let '(d, flushed) := db.flush (utcnow rq) (session st) (store st) in
        (Py.Ok flushed,
         mkSt d db.empty_session (flashes st) (log st) (S (commits st)))
    end.

(** [db.session.rollback()] *)
Definition session_rollback : M unit :=
  fun _ st =>
    (Py.Ok tt,
     mkSt (store st) db.empty_session (flashes st) (log st) (commits st)).

(** [Model.query.filter_by(...).first()] and [.all()] *)
Definition query_first {A} (table : db.DB -> list A) (p : A -> bool)
  : M (option A) :=
  fun _ st => (Py.Ok (hd_error (filter p (table (store st)))), st).

Definition query_all {A} (table : db.DB -> list A) (p : A -> bool)
  : M (list A) :=
  fun _ st => (Py.Ok (filter p (table (store st))), st).

Definition first_or_404 {A} (table : db.DB -> list A) (p : A -> bool) : M A :=
  fun _ st =>
    match filter p (table (store st)) with
    | x :: _ => (Py.Ok x, st)
    | [] => (Py.Raise Py.NotFound, st)
    end.

(** [@login_required] *)
Definition login_required (view : Z -> M response) : M response :=
  fun rq st =>
    match current_user rq with
    | Some uid => view uid rq st
    | None => (Py.Ok Unauthorized, st)
    end.

(** One request: a fresh session, the view, then the teardown that
    discards whatever the session still holds. *)
Definition initial (d : db.DB) : St := mkSt d db.empty_session [] [] 0.

Definition serve (view : M response) (rq : Request) (d : db.DB)
  : response * list (string * string) * db.DB :=
  let '(r, st) := view rq (initial d) in
  (match r with
   | Py.Ok resp => resp
   | Py.Raise Py.NotFound => Abort 404
   | Py.Raise _ => Abort 500
   end,
   flashes st, store st).

End flask.

(* ===================================================================== *)
(** * routes.py *)
(* ===================================================================== *)

Module routes.

Import models forms flask.
Local Open Scope handler_scope.

(** [x or ''] *)
Definition or_empty (data : option string) : string :=
  match data with
  | Some s => s
  | None => EmptyString
  end.

(** [[i.strip() for i in field.split(',') if i.strip()]] *)
Definition ingredients_list (field : string) : list string :=
  map Py.strip
      (filter (fun i => Py.nonempty (Py.strip i)) (Py.split "," field)).

(** Truth value of a primary key: [None] and [0] are false. *)
Definition truthy_id (i : option Z) : bool :=
  match i with
  | Some n => negb (Z.eqb n 0)
  | None => false
  end.

(** [form.validate_on_submit()] *)
Definition validate_on_submit (rq : Request) : bool :=
  (String.eqb (method rq) "POST" || String.eqb (method rq) "PUT"
   || String.eqb (method rq) "PATCH" || String.eqb (method rq) "DELETE")
  && MealPreferenceForm.validate (form rq).

(** The attribute assignments of [meal_preferences]. *)
Definition assign (f : MealPreferenceForm.t) (excluded available : string)
    (preference : MealPreference.t) : MealPreference.t :=
  MealPreference.mk
    (MealPreference.id preference)
    (MealPreference.user_id preference)
    (MealPreferenceForm.meal_type f)
    (match MealPreferenceForm.preferred_time f with
     | Some t => Some (Py.strftime_HM t)
     | None => None
     end)
    (MealPreferenceForm.calories_target f)
    (MealPreferenceForm.protein_target f)
    (MealPreferenceForm.carbs_target f)
    (MealPreferenceForm.fat_target f)
    (Some excluded)
    (Some available)
    (MealPreferenceForm.preferred_cuisine f)
    (MealPreference.created_at preference)
    (MealPreference.updated_at preference).

Definition owned_by (uid : Z) (p : MealPreference.t) : bool :=
  Z.eqb (MealPreference.user_id p) uid.

Definition for_meal (uid : Z) (mt : option string) (p : MealPreference.t)
  : bool :=
  owned_by uid p && db.opt_str_eqb (MealPreference.meal_type p) mt.

Definition plan_of (uid : Z) (p : MealPlan.t) : bool :=
  Z.eqb (MealPlan.user_id p) uid.

Definition plan_with_id (plan_id uid : Z) (p : MealPlan.t) : bool :=
  db.opt_Z_eqb (MealPlan.id p) (Some plan_id) && plan_of uid p.

(** [ORDER BY created_at DESC], as a stable insertion sort. *)
Fixpoint insert_desc (p : MealPlan.t) (l : list MealPlan.t) : list MealPlan.t :=
  match l with
  | [] => [p]
  | q :: l' =>
      match MealPlan.created_at p, MealPlan.created_at q with
      | Some a, Some b => if (a <? b)%Z then q :: insert_desc p l' else p :: l
      | _, _ => p :: l
      end
  end.

Definition order_by_created_desc (l : list MealPlan.t) : list MealPlan.t :=
  fold_right insert_desc [] l.

Definition flushed_plan_id (flushed : list db.entity) : option Z :=
  match flushed with
  | db.Plan p :: _ => MealPlan.id p
  | _ => None
  end.

Section Views.
Context {json : Py.Json}.

(** The [try] block of [meal_preferences]; [Some] is a [return]. *)
Definition meal_preferences_submit (uid : Z) : M (option response) :=
  try_except
    (rq <- ask ;;
     let f := form rq in
     found <- query_first db.meal_preference
                (for_meal uid (MealPreferenceForm.meal_type f)) ;;
     let preference :=
       match found with
       | Some p => p
       | None => MealPreference.new uid
       end in
     let excluded := or_empty (MealPreferenceForm.excluded_ingredients f) in
     let available := or_empty (MealPreferenceForm.available_ingredients f) in
     let excluded_list := ingredients_list excluded in
     let available_list := ingredients_list available in
     excluded_json <- lift (Py.dumps (Py.VList (map Py.VStr excluded_list))) ;;
     available_json <- lift (Py.dumps (Py.VList (map Py.VStr available_list))) ;;
     let preference := assign f excluded_json available_json preference in
     match found with
     | Some _ => session_modified preference
     | None => ret tt
     end ;;;
     (if truthy_id (MealPreference.id preference) then ret tt
      else session_add (db.Preference preference)) ;;;
     session_commit ;;;
     flash "Meal preferences updated successfully!" "success" ;;;
     ret (Some (Redirect "meal_preferences" None)))
    (fun e =>
       session_rollback ;;;
       logger_error ("Error updating meal preferences: " ++ Py.str_exn e) ;;;
       flash "Error updating meal preferences. Please try again." "error" ;;;
       ret None).

Definition meal_preferences : M response :=
  login_required (fun uid =>
    rq <- ask ;;
    returned <- (if validate_on_submit rq then meal_preferences_submit uid
                 else ret None) ;;
    match returned with
    | Some resp => ret resp
    | None =>
        preferences <- query_all db.meal_preference (owned_by uid) ;;
        ret (Render "meal_preferences.html"
               [("form", CForm (form rq));
                ("preferences", CPreferences preferences)])
    end).

(** [datetime.strptime(meal_plan_data['meal_plan'][0]['date'], '%Y-%m-%d').date()] *)
Definition first_date (meal_plan_data : Py.value) : Py.result Py.date :=
  Py.rbind (Py.getitem_key meal_plan_data "meal_plan") (fun days =>
  Py.rbind (Py.getitem_first days) (fun entry =>
  Py.rbind (Py.getitem_key entry "date") Py.strptime_value)).

(** [datetime.strptime(meal_plan_data['meal_plan'][-1]['date'], '%Y-%m-%d').date()] *)
Definition last_date (meal_plan_data : Py.value) : Py.result Py.date :=
  Py.rbind (Py.getitem_key meal_plan_data "meal_plan") (fun days =>
  Py.rbind (Py.getitem_last days) (fun entry =>
  Py.rbind (Py.getitem_key entry "date") Py.strptime_value)).

Definition generate_new_meal_plan : M response :=
  login_required (fun uid =>
    try_except
      (rq <- ask ;;
       preferences <- query_first db.meal_preference (owned_by uid) ;;
       match preferences with
       | None =>
           flash "Please set your meal preferences first" "warning" ;;;
           ret (Redirect "meal_preferences" None)
       | Some preferences =>
           meal_plan_data <- lift (generate_meal_plan rq preferences) ;;
           shopping_list_data <-
             lift (generate_shopping_list rq meal_plan_data) ;;
           start_date <- lift (first_date meal_plan_data) ;;
           end_date <- lift (last_date meal_plan_data) ;;
           plan_json <- lift (Py.dumps meal_plan_data) ;;
           list_json <- lift (Py.dumps shopping_list_data) ;;
           let meal_plan :=
             MealPlan.mk None uid start_date end_date
                         (Some plan_json) (Some list_json) None in
           session_add (db.Plan meal_plan) ;;;
           flushed <- session_commit ;;
           flash "Your personalized meal plan has been generated!" "success" ;;;
           ret (Redirect "view_meal_plan" (flushed_plan_id flushed))
       end)
      (fun e =>
         flash ("Error generating meal plan: " ++ Py.str_exn e) "error" ;;;
         ret (Redirect "meal_preferences" None))).

Definition view_meal_plan (plan_id : Z) : M response :=
  login_required (fun uid =>
    plan <- first_or_404 db.meal_plan (plan_with_id plan_id uid) ;;
    ret (Render "meal_plan/view.html" [("plan", CPlan plan)])).

Definition list_meal_plans : M response :=
  login_required (fun uid =>
    plans <- query_all db.meal_plan (plan_of uid) ;;
    ret (Render "meal_plan/list.html"
           [("plans", CPlans (order_by_created_desc plans))])).

(** A route that names neither [MealPreference] nor [MealPlan]: whatever
    it does, it does to the other tables. *)
Definition other_route : M response :=
  fun rq st =>
    (Py.Ok Elsewhere,
     mkSt (db.mkDB (db.meal_preference (store st)) (db.meal_plan (store st))
                   (elsewhere rq (db.other_tables (store st))))
          (session st) (flashes st) (log st) (commits st)).

(** The URL map of [routes.py]. *)
Inductive endpoint : Type :=
| ep_index | ep_register | ep_login | ep_logout | ep_questionnaire
| ep_dashboard | ep_generate_plan | ep_plan | ep_checkout | ep_log_workout
| ep_workout_progress
| ep_meal_preferences
| ep_generate_new_meal_plan
| ep_view_meal_plan (plan_id : Z)
| ep_list_meal_plans
| ep_ingredient_recipes | ep_wellness_tip | ep_trial_signup.

Definition view_of (e : endpoint) : M response :=
  match e with
  | ep_meal_preferences => meal_preferences
  | ep_generate_new_meal_plan => generate_new_meal_plan
  | ep_view_meal_plan plan_id => view_meal_plan plan_id
  | ep_list_meal_plans => list_meal_plans
  | _ => other_route
  end.

(** The [methods] of each rule; GET brings HEAD with it. *)
Definition methods (e : endpoint) : list string :=
  match e with
  | ep_generate_new_meal_plan => ["POST"]
  | ep_register | ep_login | ep_questionnaire | ep_log_workout
  | ep_meal_preferences | ep_ingredient_recipes | ep_trial_signup =>
      ["GET"; "HEAD"; "POST"]
  | _ => ["GET"; "HEAD"]
  end.

(** Dispatch: a method the rule does not list never reaches the view. *)
Definition handle (e : endpoint) (rq : Request) (d : db.DB)
  : response * list (string * string) * db.DB :=
  if MealPreferenceForm.mem (method rq) (methods e) then serve (view_of e) rq d
  else if String.eqb (method rq) "OPTIONS" then (Automatic, [], d)
  else (Abort 405, [], d).

(** The database after a sequence of requests. *)
Fixpoint run (reqs : list (endpoint * Request)) (d : db.DB) : db.DB :=
  match reqs with
  | [] => d
  | (e, rq) :: reqs' => run reqs' (snd (handle e rq d))
  end.

End Views.

End routes.

(* ===================================================================== *)
(** * Notions used to state the properties *)
(* ===================================================================== *)

Module notions.

Import models forms flask routes.

(** The primary-key constraint: every row has a key, no key twice. *)
Definition well_keyed {A} (id : A -> option Z) (rows : list A) : Prop :=
  NoDup (map id rows) /\ ~ In None (map id rows).

(** The pair a preference set is meant to be unique for. *)
Definition pref_key (p : MealPreference.t) : Z * option string :=
  (MealPreference.user_id p, MealPreference.meal_type p).

Definition one_per_pair (rows : list MealPreference.t) : Prop :=
  NoDup (map pref_key rows).

(** The bounds of the four targets. *)
Definition within (lo hi : Z) (c : option Z) : Prop :=
  exists n, c = Some n /\ (lo <= n <= hi)%Z.

Definition targets_within (p : MealPreference.t) : Prop :=
  within 0 2000 (MealPreference.calories_target p)
  /\ within 0 200 (MealPreference.protein_target p)
  /\ within 0 300 (MealPreference.carbs_target p)
  /\ within 0 100 (MealPreference.fat_target p).

(** The day-entries of a plan and the date of one of them. *)
Definition day_entries (meal_plan_data : Py.value) : list Py.value :=
  match Py.getitem_key meal_plan_data "meal_plan" with
  | Py.Ok (Py.VList l) => l
  | _ => []
  end.

Definition entry_date (entry : Py.value) : Py.result Py.date :=
  Py.rbind (Py.getitem_key entry "date") Py.strptime_value.

Fixpoint ascending (ds : list Py.date) : bool :=
  match ds with
  | a :: (b :: _) as tl => Py.date_leb a b && ascending tl
  | _ => true
  end.

Definition is_min (d : Py.date) (ds : list Py.date) : Prop :=
  In d ds /\ forall x, In x ds -> Py.date_le d x.

Definition is_max (d : Py.date) (ds : list Py.date) : Prop :=
  In d ds /\ forall x, In x ds -> Py.date_le x d.

(** What the schema and the preference route maintain. *)
Definition consistent (d : db.DB) : Prop :=
  well_keyed MealPreference.id (db.meal_preference d)
  /\ well_keyed MealPlan.id (db.meal_plan d)
  /\ one_per_pair (db.meal_preference d).

Definition add_plan (d : db.DB) (row : MealPlan.t) : db.DB :=
  db.mkDB (db.meal_preference d) (db.meal_plan d ++ [row]) (db.other_tables d).

Section Staged.
Context {json : Py.Json}.

(** The two serialised ingredient lists of a submission. *)
Definition ingredient_columns (f : MealPreferenceForm.t)
  : Py.result (string * string) :=
  Py.rbind
    (Py.dumps (Py.VList (map Py.VStr
       (ingredients_list (or_empty (MealPreferenceForm.excluded_ingredients f))))))
    (fun excluded_json =>
  Py.rbind
    (Py.dumps (Py.VList (map Py.VStr
       (ingredients_list (or_empty (MealPreferenceForm.available_ingredients f))))))
    (fun available_json => Py.Ok (excluded_json, available_json))).

(** What the session of [meal_preferences] holds when it commits. *)
Definition unit_of_work (found : option MealPreference.t)
    (preference : MealPreference.t) : db.Session :=
  db.mkSession
    (match MealPreference.id preference with
     | None => [db.Preference preference]
     | Some _ => []
     end)
    (match found with
     | Some _ => [preference]
     | None => []
     end).

(** The database after a committed submission. *)
Definition submitted (rq : Request) (uid : Z) (columns : string * string)
    (d : db.DB) : db.DB :=
  let found :=
    hd_error (filter (for_meal uid (MealPreferenceForm.meal_type (form rq)))
                     (db.meal_preference d)) in
  let preference :=
    assign (form rq) (fst columns) (snd columns)
           (match found with
            | Some p => p
            | None => MealPreference.new uid
            end) in
  fst (db.flush (utcnow rq) (unit_of_work found preference) d).

(** The columns of [row] are those submitted with [f] by user [uid]. *)
Definition stores (row : MealPreference.t) (uid : Z)
    (f : MealPreferenceForm.t) (columns : string * string) : Prop :=
  MealPreference.user_id row = uid
  /\ MealPreference.meal_type row = MealPreferenceForm.meal_type f
  /\ MealPreference.preferred_time row
     = option_map Py.strftime_HM (MealPreferenceForm.preferred_time f)
  /\ MealPreference.calories_target row = MealPreferenceForm.calories_target f
  /\ MealPreference.protein_target row = MealPreferenceForm.protein_target f
  /\ MealPreference.carbs_target row = MealPreferenceForm.carbs_target f
  /\ MealPreference.fat_target row = MealPreferenceForm.fat_target f
  /\ MealPreference.excluded_ingredients row = Some (fst columns)
  /\ MealPreference.available_ingredients row = Some (snd columns)
  /\ MealPreference.preferred_cuisine row
     = MealPreferenceForm.preferred_cuisine f.

(** No empty item, no white space at either end of an item. *)
Definition trimmed (item : string) : Prop :=
  item <> EmptyString
  /\ (forall c, Py.first_char item = Some c -> Py.isspace c = false)
  /\ (forall c, Py.last_char item = Some c -> Py.isspace c = false).

(** One of the four targets of the form is outside its range. *)
Definition out_of_range (f : MealPreferenceForm.t) : Prop :=
  MealPreferenceForm.NumberRange 0 2000 (MealPreferenceForm.calories_target f)
  = false
  \/ MealPreferenceForm.NumberRange 0 200 (MealPreferenceForm.protein_target f)
     = false
  \/ MealPreferenceForm.NumberRange 0 300 (MealPreferenceForm.carbs_target f)
     = false
  \/ MealPreferenceForm.NumberRange 0 100 (MealPreferenceForm.fat_target f)
     = false.

Definition preferences_page (rq : Request) (uid : Z) (d : db.DB) : response :=
  Render "meal_preferences.html"
    [("form", CForm (form rq));
     ("preferences",
      CPreferences (filter (owned_by uid) (db.meal_preference d)))].

(** The stages of [generate_new_meal_plan] between the preference query
    and the [add]: generation, list derivation, the two dates, the two
    serialisations. *)
Definition staged (rq : Request) (uid : Z) (preferences : MealPreference.t)
  : Py.result MealPlan.t :=
  Py.rbind (generate_meal_plan rq preferences) (fun meal_plan_data =>
  Py.rbind (generate_shopping_list rq meal_plan_data) (fun shopping_list_data =>
  Py.rbind (first_date meal_plan_data) (fun start_date =>
  Py.rbind (last_date meal_plan_data) (fun end_date =>
  Py.rbind (Py.dumps meal_plan_data) (fun plan_json =>
  Py.rbind (Py.dumps shopping_list_data) (fun list_json =>
  Py.Ok (MealPlan.mk None uid start_date end_date
                     (Some plan_json) (Some list_json) None))))))).

(** The ways a generation request can fail once a preference row has
    been found. *)
Inductive stage_fails (rq : Request) (preferences : MealPreference.t)
  : Prop :=
| generation_fails e :
    generate_meal_plan rq preferences = Py.Raise e ->
    stage_fails rq preferences
| derivation_fails data e :
    generate_meal_plan rq preferences = Py.Ok data ->
    generate_shopping_list rq data = Py.Raise e ->
    stage_fails rq preferences
| date_parsing_fails data e :
    generate_meal_plan rq preferences = Py.Ok data ->
    first_date data = Py.Raise e \/ last_date data = Py.Raise e ->
    stage_fails rq preferences
| serialisation_fails data list e :
    generate_meal_plan rq preferences = Py.Ok data ->
    generate_shopping_list rq data = Py.Ok list ->
    Py.dumps data = Py.Raise e \/ Py.dumps list = Py.Raise e ->
    stage_fails rq preferences
| storage_fails e :
    db_fault rq = Some e ->
    stage_fails rq preferences.

End Staged.

End notions.

(* ===================================================================== *)
(** * Sample data *)
(* ===================================================================== *)

Module samples.

Import models forms flask routes notions.

Definition quote (s : string) : string :=
  String (ascii_of_nat 34) (s ++ String (ascii_of_nat 34) EmptyString).

Definition decimal (n : Z) : string :=
  NilZero.string_of_int (Z.to_int n).

(** [json.dumps] on values whose strings need no escaping. *)
Fixpoint sample_dumps (v : Py.value) : string :=
  match v with
  | Py.VNone => "null"
  | Py.VBool true => "true"
  | Py.VBool false => "false"
  | Py.VInt n => decimal n
  | Py.VStr s => quote s
  | Py.VList l =>
      "[" ++ (fix items (l : list Py.value) : string :=
                match l with
                | [] => ""
                | [x] => sample_dumps x
                | x :: r => sample_dumps x ++ ", " ++ items r
                end) l ++ "]"
  | Py.VDict d =>
      "{" ++ (fix items (d : list (string * Py.value)) : string :=
                match d with
                | [] => ""
                | [(k, x)] => quote k ++ ": " ++ sample_dumps x
                | (k, x) :: r => quote k ++ ": " ++ sample_dumps x ++ ", " ++ items r
                end) d ++ "}"
  end.

(** [json.loads] on the few texts the examples decode. *)
Definition sample_loads (s : string) : Py.result Py.value :=
  if String.eqb s "{}" then Py.Ok (Py.VDict [])
  else if String.eqb s "[]" then Py.Ok (Py.VList [])
  else if String.eqb s "null" then Py.Ok Py.VNone
  else Py.Raise (Py.ValueError "Expecting value: line 1 column 1 (char 0)").

Definition sample_json : Py.Json :=
  {| Py.dumps := fun v => Py.Ok (sample_dumps v); Py.loads := sample_loads |}.

Definition day (date : string) : Py.value :=
  Py.VDict [("date", Py.VStr date); ("meals", Py.VDict [])].

Definition plan_of_days (dates : list string) : Py.value :=
  Py.VDict [("meal_plan", Py.VList (map day dates))].

Definition dinner_form (calories : Z) : MealPreferenceForm.t :=
  MealPreferenceForm.mk (Some "dinner") (Some (Py.mktime 19 0))
    (Some calories) (Some 50%Z) (Some 100%Z) (Some 30%Z)
    (Some " nuts, ,shellfish ") None (Some "any") true.

(** A request of user [uid] in a world where the planner answers every
    preference with [planned]. *)
Definition request (uid : Z) (method : string) (f : MealPreferenceForm.t)
    (planned : Py.result Py.value) (fault : option Py.exn) : Request :=
  mkRequest (Some uid) method f 1700000000%Z fault
            (fun _ => planned) (fun _ => Py.Ok (Py.VDict []))
            (fun others => others).

Definition dinner_row (id uid : Z) : MealPreference.t :=
  MealPreference.mk (Some id) uid (Some "dinner") (Some "19:00")
    (Some 600%Z) (Some 40%Z) (Some 60%Z) (Some 20%Z)
    (Some "[]") (Some "[]") (Some "any") (Some 1600000000%Z)
    (Some 1600000000%Z).

Definition plan_row (id uid : Z) : MealPlan.t :=
  MealPlan.mk (Some id) uid (Py.mkdate 2024 1 1) (Py.mkdate 2024 1 7)
    (Some "{}") (Some "{}") (Some 1600000000%Z).

Definition empty_db : db.DB := db.mkDB [] [] [].

(** User 1 has a dinner preference and one plan. *)
Definition one_user_db : db.DB :=
  db.mkDB [dinner_row 1 1] [plan_row 1 1] [].

(** Requests of user 1. *)
Definition submit (calories : Z) : Request :=
  request 1 "POST" (dinner_form calories) (Py.Ok Py.VNone) None.

Definition generate (dates : list string) : Request :=
  request 1 "POST" (dinner_form 600) (Py.Ok (plan_of_days dates)) None.

Definition generate_failing (message : string) : Request :=
  request 1 "POST" (dinner_form 600) (Py.Raise (Py.Exception message)) None.

(** User 2 asks for a plan. *)
Definition get_as_other : Request :=
  request 2 "GET" (dinner_form 600) (Py.Ok Py.VNone) None.

End samples.

(* ===================================================================== *)
(** * routes.py: the template filter *)
(* ===================================================================== *)

Module templates.

Section Filters.
Context {json : Py.Json}.

(** [from_json_filter(value)]: the value the template gets, and what the
    call writes to the error log. *)
Definition from_json_filter (value : Py.value) : Py.value * list string :=
  match value with
  | Py.VNone => (Py.VDict [], [])
  | Py.VDict _ => (value, [])
  | Py.VStr s =>
      match Py.loads s with
      | Py.Ok v => (v, [])
      | Py.Raise e => (Py.VDict [], ["JSON parsing error: " ++ Py.str_exn e])
      end
  | _ =>
      (Py.VDict [],
       ["JSON parsing error: the JSON object must be str, bytes or bytearray, not "
        ++ Py.type_name value])
  end.

End Filters.

End templates.

(* ===================================================================== *)
(** * Further notions *)
(* ===================================================================== *)

Module more_notions.

Import models forms flask routes notions.

(** A [Text] column as the value a template is handed. *)
Definition column_value (column : option string) : Py.value :=
  match column with
  | Some s => Py.VStr s
  | None => Py.VNone
  end.

(** A date of the calendar. *)
Definition calendar_date (d : Py.date) : Prop :=
  (1 <= Py.year d <= 9999
   /\ 1 <= Py.month d <= 12
   /\ 1 <= Py.day d <= Py.days_in_month (Py.year d) (Py.month d))%Z.

(** [a] was created no earlier than [b]. *)
Definition not_older (a b : MealPlan.t) : Prop :=
  match MealPlan.created_at a, MealPlan.created_at b with
  | Some x, Some y => (y <= x)%Z
  | _, _ => False
  end.

Definition timestamped (rows : list MealPlan.t) : Prop :=
  Forall (fun p => MealPlan.created_at p <> None) rows.

(** The rows of everybody but [uid]. *)
Definition of_others (uid : Z) (rows : list MealPreference.t)
  : list MealPreference.t :=
  filter (fun r => negb (owned_by uid r)) rows.

(** The widths of the [String] columns of [MealPreference]. *)
Definition fits (width : nat) (column : option string) : Prop :=
  match column with
  | Some s => (String.length s <= width)%nat
  | None => True
  end.

End more_notions.

(* ===================================================================== *)
(** * app.py: the configuration *)
(* ===================================================================== *)

Module app.

(** [s[n:]] *)
Fixpoint skip (n : nat) (s : string) : string :=
  match n, s with
  | O, _ => s
  | S n', String _ s' => skip n' s'
  | S _, EmptyString => EmptyString
  end.

(** [s.replace(old, new, 1)] for a non-empty [old]: the leftmost
    occurrence is replaced. *)
Fixpoint replace_first (old new s : string) {struct s} : string :=
  if String.prefix old s then new ++ skip (String.length old) s
  else match s with
       | EmptyString => EmptyString
       | String c s' => String c (replace_first old new s')
       end.

(** What [create_app] has put into [app.secret_key] and
    [app.config] when it reaches the extensions. *)
Record Config : Type := mkConfig {
  secret_key : string;
  SQLALCHEMY_DATABASE_URI : string;
  SQLALCHEMY_TRACK_MODIFICATIONS : bool
}.

Inductive configured : Type :=
| Configured (c : Config)
| RuntimeError (message : string).

(** Truth value of [os.environ.get(name)]. *)
Definition set_and_not_empty (v : option string) : option string :=
  match v with
  | Some s => if Py.nonempty s then Some s else None
  | None => None
  end.

(** The configuration steps of [create_app]. *)
Definition create_app_config (environ : string -> option string) : configured :=
  match set_and_not_empty (environ "SESSION_SECRET") with
  | None => RuntimeError "SESSION_SECRET environment variable is required!"
  | Some secret =>
      match set_and_not_empty (environ "DATABASE_URL") with
      | None => RuntimeError "DATABASE_URL environment variable is required!"
      | Some database_url =>
          let database_url :=
            if String.prefix "postgres://" database_url
            then replace_first "postgres://" "postgresql://" database_url
            else database_url in
          Configured (mkConfig secret database_url false)
      end
  end.

End app.

(* ===================================================================== *)
(** * The accounts, the wellness plans and the workouts *)
(* ===================================================================== *)

(** The remaining models of [models.py] and the routes of [routes.py]
    that work on them, with a database and a handler monad of their own.
    The UNIQUE constraints on [User.username] and [User.email] are left
    to the route that inserts users. *)

Module site.

(** A [Float] column: the value is stored and handed on as it is. *)
Definition double : Type := Z.

(** A [DateTime]: the day and the microsecond of the day. *)
Record datetime : Type := mkdatetime { on_day : Py.date; microsecond : Z }.

Definition datetime_leb (a b : datetime) : bool :=
  Py.date_leb (on_day a) (on_day b)
  && (negb (Py.date_leb (on_day b) (on_day a))
      || (microsecond a <=? microsecond b)%Z).

Definition four_digits (n : Z) : string :=
  String (ascii_of_N (Z.to_N (48 + n / 1000)))
    (String (ascii_of_N (Z.to_N (48 + (n / 100) mod 10)))
       (Py.two_digits (n mod 100))).

(** [t.strftime('%Y-%m-%d')], for the years of four digits. *)
Definition strftime_Ymd (t : datetime) : string :=
  four_digits (Py.year (on_day t)) ++ "-"
  ++ Py.two_digits (Py.month (on_day t)) ++ "-"
  ++ Py.two_digits (Py.day (on_day t)).

Module User.

Record t : Type := mk {
  id : option Z;
  username : string;
  email : string;
  password_hash : option string;
  subscription_active : option bool;
  subscription_end : option datetime;
  created_at : option datetime
}.

End User.

Module WellnessProfile.

Record t : Type := mk {
  id : option Z;
  user_id : Z;
  age : option Z;
  height : option double;
  weight : option double;
  goals : option string;
  dietary_restrictions : option string;
  activity_level : option string;
  created_at : option datetime
}.

End WellnessProfile.

Module WellnessPlan.

Record t : Type := mk {
  id : option Z;
  user_id : Z;
  meal_plan : option string;
  workout_plan : option string;
  created_at : option datetime
}.

End WellnessPlan.

Module WorkoutLog.

Record t : Type := mk {
  id : option Z;
  user_id : Z;
  workout_type : option string;
  duration : option Z;
  intensity : option string;
  exercises : option string;
  calories_burned : option Z;
  notes : option string;
  completed_at : option datetime
}.

End WorkoutLog.

Module ExerciseProgress.

Record t : Type := mk {
  id : option Z;
  user_id : Z;
  exercise_name : option string;
  weight : option double;
  reps : option Z;
  sets : option Z;
  recorded_at : option datetime
}.

End ExerciseProgress.

(** ** The tables and the session *)

Record Tables : Type := mkTables {
  user : list User.t;
  wellness_profile : list WellnessProfile.t;
  wellness_plan : list WellnessPlan.t;
  workout_log : list WorkoutLog.t;
  exercise_progress : list ExerciseProgress.t
}.

Inductive entity : Type :=
| AUser (u : User.t)
| APlan (p : WellnessPlan.t)
| ALog (l : WorkoutLog.t)
| AProgress (p : ExerciseProgress.t).

Definition or_now (now : datetime) (c : option datetime) : option datetime :=
  match c with Some _ => c | None => Some now end.

(** INSERT: the key is assigned and the column defaults are filled in. *)
Definition insert (now : datetime) (e : entity) (d : Tables)
  : Tables * entity :=
  match e with
  | AUser u =>
      let u' :=
        User.mk (Some (db.next_id User.id (user d))) (User.username u)
          (User.email u) (User.password_hash u)
          (match User.subscription_active u with
           | Some b => Some b
           | None => Some false
           end)
          (User.subscription_end u) (or_now now (User.created_at u)) in
      (mkTables (user d ++ [u']) (wellness_profile d) (wellness_plan d)
                (workout_log d) (exercise_progress d),
       AUser u')
  | APlan p =>
      let p' :=
        WellnessPlan.mk (Some (db.next_id WellnessPlan.id (wellness_plan d)))
          (WellnessPlan.user_id p) (WellnessPlan.meal_plan p)
          (WellnessPlan.workout_plan p)
          (or_now now (WellnessPlan.created_at p)) in
      (mkTables (user d) (wellness_profile d) (wellness_plan d ++ [p'])
                (workout_log d) (exercise_progress d),
       APlan p')
  | ALog l =>
      let l' :=
        WorkoutLog.mk (Some (db.next_id WorkoutLog.id (workout_log d)))
          (WorkoutLog.user_id l) (WorkoutLog.workout_type l)
          (WorkoutLog.duration l) (WorkoutLog.intensity l)
          (WorkoutLog.exercises l) (WorkoutLog.calories_burned l)
          (WorkoutLog.notes l) (or_now now (WorkoutLog.completed_at l)) in
      (mkTables (user d) (wellness_profile d) (wellness_plan d)
                (workout_log d ++ [l']) (exercise_progress d),
       ALog l')
  | AProgress p =>
      let p' :=
        ExerciseProgress.mk
          (Some (db.next_id ExerciseProgress.id (exercise_progress d)))
          (ExerciseProgress.user_id p) (ExerciseProgress.exercise_name p)
          (ExerciseProgress.weight p) (ExerciseProgress.reps p)
          (ExerciseProgress.sets p)
          (or_now now (ExerciseProgress.recorded_at p)) in
      (mkTables (user d) (wellness_profile d) (wellness_plan d)
                (workout_log d) (exercise_progress d ++ [p']),
       AProgress p')
  end.

(** The inserts of a flush, in the order of the [add]s. *)
Fixpoint flush (now : datetime) (es : list entity) (d : Tables)
  : Tables * list entity :=
  match es with
  | [] => (d, [])
  | e :: es' =>
      let '(d1, e') := insert now e d in
      let '(d2, out) := flush now es' d1 in
      (d2, e' :: out)
  end.

(** ** Requests and the handler monad *)

Record Request : Type := mkRequest {
  (** the user id that flask-login keeps in the session *)
  user_id : option Z;
  method : string;
  (** [request.form], in the order sent *)
  form : list (string * string);
  csrf_valid : bool;
  utcnow : datetime;
  db_fault : option Py.exn;
  (** [werkzeug.security] *)
  generate_password_hash : string -> string;
  check_password_hash : string -> string -> bool;
  (** the [Email] validator *)
  valid_email : string -> bool;
  (** [int(s)] and [float(s)] on a [str] *)
  int_of_str : string -> Py.result Z;
  float_of_str : string -> Py.result double;
  (** [utils.ai_helper] and [utils.meal_planner] *)
  generate_wellness_plan : WellnessProfile.t -> Py.result Py.value;
  generate_recipes_from_ingredients :
    list string -> option WellnessProfile.t -> Py.result Py.value
}.

(** One series of [progress_data]. *)
Record series : Type := mkseries {
  dates : list string;
  weights : list (option double);
  reps : list (option Z)
}.

Inductive context_value : Type :=
| CForm
| CProfile (p : option WellnessProfile.t)
| CPlan (p : option WellnessPlan.t)
| CShownPlan (p : WellnessPlan.t) (meal_plan workout_plan : Py.value)
| CWorkouts (l : list WorkoutLog.t)
| CProgress (data : list (option string * series))
| CRecipes (r : option Py.value).

Inductive response : Type :=
| Render (template : string) (context : list (string * context_value))
| Redirect (endpoint : string)
| Unauthorized
| Abort (status : Z).

Record St : Type := mkSt {
  store : Tables;
  pending : list entity;
  flashes : list (string * string);
  log : list string;
  (** the session's user id when the request ends *)
  logged_in : option Z
}.

Definition M (A : Type) : Type := Request -> St -> Py.result A * St.

Definition ret {A} (a : A) : M A := fun _ st => (Py.Ok a, st).

Definition bind {A B} (m : M A) (k : A -> M B) : M B :=
  fun rq st =>
    match m rq st with
    | (Py.Ok a, st') => k a rq st'
    | (Py.Raise e, st') => (Py.Raise e, st')
    end.

Definition try_except {A} (body : M A) (handler : Py.exn -> M A) : M A :=
  fun rq st =>
    match body rq st with
    | (Py.Ok a, st') => (Py.Ok a, st')
    | (Py.Raise e, st') => handler e rq st'
    end.

Definition lift {A} (r : Py.result A) : M A := fun _ st => (r, st).

Definition ask : M Request := fun rq st => (Py.Ok rq, st).

Declare Scope site_scope.
Delimit Scope site_scope with site.
Notation "x <- c ;; k" := (bind c (fun x => k))
  (at level 61, c at next level, right associativity) : site_scope.
Notation "c ;;; k" := (bind c (fun _ => k))
  (at level 61, right associativity) : site_scope.

Definition flash (message category : string) : M unit :=
  fun _ st =>
    (Py.Ok tt,
     mkSt (store st) (pending st) (flashes st ++ [(message, category)])
          (log st) (logged_in st)).

Definition logger_error (message : string) : M unit :=
  fun _ st =>
    (Py.Ok tt,
     mkSt (store st) (pending st) (flashes st) (log st ++ [message])
          (logged_in st)).

Definition session_add (e : entity) : M unit :=
  fun _ st =>
    (Py.Ok tt,
     mkSt (store st) (pending st ++ [e]) (flashes st) (log st)
          (logged_in st)).

(** [db.session.commit()]: one transaction; returns the inserted
    objects, keys filled in. *)
Definition session_commit : M (list entity) :=
  fun rq st =>
    match db_fault rq with
    | Some e => (Py.Raise e, st)
    | None =>
        let '(d, flushed) := flush (utcnow rq) (pending st) (store st) in
        (Py.Ok flushed, mkSt d [] (flashes st) (log st) (logged_in st))
    end.

Definition session_rollback : M unit :=
  fun _ st =>
    (Py.Ok tt, mkSt (store st) [] (flashes st) (log st) (logged_in st)).

Definition query_all {A} (table : Tables -> list A) (p : A -> bool)
  : M (list A) :=
  fun _ st => (Py.Ok (filter p (table (store st))), st).

Definition query_first {A} (table : Tables -> list A) (p : A -> bool)
  : M (option A) :=
  fun _ st => (Py.Ok (hd_error (filter p (table (store st)))), st).

(** [login_user(user)] and [logout_user()] *)
Definition login_user (u : User.t) : M unit :=
  fun _ st =>
    (Py.Ok tt,
     mkSt (store st) (pending st) (flashes st) (log st) (User.id u)).

Definition logout_user : M unit :=
  fun _ st =>
    (Py.Ok tt, mkSt (store st) (pending st) (flashes st) (log st) None).

(** [load_user(id)]: [User.query.get(int(id))]. *)
Definition load_user (id : Z) (d : Tables) : option User.t :=
  hd_error (filter (fun u => db.opt_Z_eqb (User.id u) (Some id)) (user d)).

(** [current_user], when it is an authenticated user. *)
Definition current_user : M (option User.t) :=
  fun rq st =>
    (Py.Ok (match user_id rq with
            | Some id => load_user id (store st)
            | None => None
            end),
     st).

(** [@login_required]; the view gets [current_user.id] and
    [current_user]. *)
Definition login_required (view : Z -> User.t -> M response) : M response :=
  fun rq st =>
    match user_id rq with
    | Some id =>
        match load_user id (store st) with
        | Some u => view id u rq st
        | None => (Py.Ok Unauthorized, st)
        end
    | None => (Py.Ok Unauthorized, st)
    end.

Definition initial (rq : Request) (d : Tables) : St :=
  mkSt d [] [] [] (user_id rq).

(** One request: the view, then the teardown that discards whatever
    the session still holds. *)
Definition serve (view : M response) (rq : Request) (d : Tables)
  : response * St :=
  let '(r, st) := view rq (initial rq d) in
  (match r with
   | Py.Ok resp => resp
   | Py.Raise Py.NotFound => Abort 404
   | Py.Raise _ => Abort 500
   end,
   mkSt (store st) [] (flashes st) (log st) (logged_in st)).

End site.

(* ===================================================================== *)
(** * routes.py: accounts, wellness plans, workouts, recipes *)
(* ===================================================================== *)

Module site_routes.

Import site.
Local Open Scope site_scope.

(** An exception of a class that [Py.exn] does not name. *)
Definition AttributeError (type attribute : string) : Py.exn :=
  Py.Exception ("'" ++ type ++ "' object has no attribute '" ++ attribute ++ "'").

(** [request.form.get(key)] and [request.form.getlist(key)] *)
Fixpoint form_get (key : string) (f : list (string * string)) : option string :=
  match f with
  | [] => None
  | (k, v) :: f' => if String.eqb k key then Some v else form_get key f'
  end.

Definition form_getlist (key : string) (f : list (string * string))
  : list string :=
  map snd (filter (fun kv => String.eqb (fst kv) key) f).

(** Truth value of a [str] or [None]. *)
Definition filled (v : option string) : bool :=
  match v with
  | Some s => Py.nonempty s
  | None => false
  end.



Definition is_submitted (rq : Request) : bool :=
  String.eqb (method rq) "POST" || String.eqb (method rq) "PUT"
  || String.eqb (method rq) "PATCH" || String.eqb (method rq) "DELETE".

(** [Length(min, max)] *)
Definition Length (min : nat) (max : option nat) (data : option string) : bool :=
  let l := match data with Some s => String.length s | None => O end in
  Nat.leb min l && match max with Some m => Nat.leb l m | None => true end.

Module RegistrationForm.

Definition validate (rq : Request) : bool :=
  let username := form_get "username" (form rq) in
  let email := form_get "email" (form rq) in
  let password := form_get "password" (form rq) in
  let confirm_password := form_get "confirm_password" (form rq) in
  csrf_valid rq
  && (forms.MealPreferenceForm.DataRequired_str username
      && Length 3 (Some 50%nat) username)
  && (forms.MealPreferenceForm.DataRequired_str email
      && match email with Some e => valid_email rq e | None => false end)
  && (forms.MealPreferenceForm.DataRequired_str password
      && Length 6 None password)
  && (forms.MealPreferenceForm.DataRequired_str confirm_password
      && db.opt_str_eqb confirm_password password).

End RegistrationForm.

Module LoginForm.

Definition validate (rq : Request) : bool :=
  csrf_valid rq
  && forms.MealPreferenceForm.DataRequired_str (form_get "username" (form rq))
  && forms.MealPreferenceForm.DataRequired_str (form_get "password" (form rq)).

End LoginForm.

(** [user.check_password(password)] *)
Definition check_password (rq : Request) (u : User.t) (password : string)
  : Py.result bool :=
  match User.password_hash u with
  | Some h => Py.Ok (check_password_hash rq h password)
  | None => Py.Raise (AttributeError "NoneType" "count")
  end.

Definition named (username : string) (u : User.t) : bool :=
  String.eqb (User.username u) username.

Definition with_email (email : string) (u : User.t) : bool :=
  String.eqb (User.email u) email.

Definition flushed_user (flushed : list entity) (u : User.t) : User.t :=
  match flushed with
  | AUser u' :: _ => u'
  | _ => u
  end.

(** [datetime] keys in descending order, NULL first, as the database
    sorts them. *)
Definition key_leb (a b : option datetime) : bool :=
  match a, b with
  | _, None => true
  | None, Some _ => false
  | Some x, Some y => datetime_leb x y
  end.

Fixpoint insert_by {A} (key : A -> option datetime) (x : A) (l : list A)
  : list A :=
  match l with
  | [] => [x]
  | y :: l' =>
      if key_leb (key y) (key x) then x :: l else y :: insert_by key x l'
  end.

(** [ORDER BY key DESC] *)
Definition order_desc {A} (key : A -> option datetime) (l : list A) : list A :=
  fold_right (insert_by key) [] l.

(** ** The loop of [workout_progress] *)

Definition has_key (name : option string)
    (data : list (option string * series)) : bool :=
  existsb (fun kv => db.opt_str_eqb (fst kv) name) data.

Definition append_point (name : option string) (date : string)
    (weight : option double) (reps_ : option Z)
    (data : list (option string * series)) : list (option string * series) :=
  map (fun kv =>
         if db.opt_str_eqb (fst kv) name
         then (fst kv,
               mkseries (dates (snd kv) ++ [date])
                        (weights (snd kv) ++ [weight])
                        (reps (snd kv) ++ [reps_]))
         else kv)
      data.

(** One turn of the loop. *)
Definition add_exercise (data : list (option string * series))
    (exercise : ExerciseProgress.t)
  : Py.result (list (option string * series)) :=
  let name := ExerciseProgress.exercise_name exercise in
  let data :=
    if has_key name data then data
    else (data ++ [(name, mkseries [] [] [])])%list in
  match ExerciseProgress.recorded_at exercise with
  | None => Py.Raise (AttributeError "NoneType" "strftime")
  | Some t =>
      Py.Ok (append_point name (strftime_Ymd t)
               (ExerciseProgress.weight exercise)
               (ExerciseProgress.reps exercise) data)
  end.

Fixpoint progress_loop (exercises : list ExerciseProgress.t)
    (data : list (option string * series))
  : Py.result (list (option string * series)) :=
  match exercises with
  | [] => Py.Ok data
  | e :: rest => Py.rbind (add_exercise data e) (progress_loop rest)
  end.

Definition workout_progress : M response :=
  login_required (fun uid _ =>
    logs <- query_all workout_log
              (fun l => Z.eqb (WorkoutLog.user_id l) uid) ;;
    let workouts := firstn 10 (order_desc WorkoutLog.completed_at logs) in
    rows <- query_all exercise_progress
              (fun p => Z.eqb (ExerciseProgress.user_id p) uid) ;;
    let exercises := firstn 50 (order_desc ExerciseProgress.recorded_at rows) in
    progress_data <- lift (progress_loop exercises []) ;;
    ret (Render "workout/progress.html"
           [("workouts", CWorkouts workouts);
            ("progress_data", CProgress progress_data)])).

Section Views.
Context {json : Py.Json}.

(** ** Accounts *)

Definition register_submit : M (option response) :=
  try_except
    (rq <- ask ;;
     match form_get "username" (form rq), form_get "email" (form rq),
           form_get "password" (form rq) with
     | Some username, Some email, Some password =>
         taken <- query_first user (named username) ;;
         match taken with
         | Some _ =>
             flash "Username already exists. Please choose a different one."
                   "error" ;;;
             ret (Some (Render "register.html" [("form", CForm)]))
         | None =>
             registered <- query_first user (with_email email) ;;
             match registered with
             | Some _ =>
                 flash "Email already registered. Please use a different email."
                       "error" ;;;
                 ret (Some (Render "register.html" [("form", CForm)]))
             | None =>
                 let new_user :=
                   User.mk None username email
                           (Some (generate_password_hash rq password))
                           None None None in
                 session_add (AUser new_user) ;;;
                 flushed <- session_commit ;;
                 login_user (flushed_user flushed new_user) ;;;
                 flash "Registration successful! Welcome to AI Wellness Planner."
                       "success" ;;;
                 ret (Some (Redirect "questionnaire"))
             end
         end
     | _, _, _ => lift (Py.Raise (AttributeError "NoneType" "encode"))
     end)
    (fun e =>
       logger_error ("Registration error: " ++ Py.str_exn e) ;;;
       session_rollback ;;;
       flash "An error occurred during registration. Please try again."
             "error" ;;;
       ret None).

Definition register : M response :=
  u <- current_user ;;
  match u with
  | Some _ => ret (Redirect "dashboard")
  | None =>
      rq <- ask ;;
      returned <- (if is_submitted rq && RegistrationForm.validate rq
                   then register_submit else ret None) ;;
      match returned with
      | Some resp => ret resp
      | None => ret (Render "register.html" [("form", CForm)])
      end
  end.

Definition login : M response :=
  u <- current_user ;;
  match u with
  | Some _ => ret (Redirect "dashboard")
  | None =>
      rq <- ask ;;
      if is_submitted rq && LoginForm.validate rq then
        match form_get "username" (form rq), form_get "password" (form rq) with
        | Some username, Some password =>
            found <- query_first user (named username) ;;
            accepted <-
              match found with
              | Some u => lift (check_password rq u password)
              | None => ret false
              end ;;
            match found, accepted with
            | Some u, true =>
                login_user u ;;;
                flash "Login successful!" "success" ;;;
                ret (Redirect "dashboard")
            | _, _ =>
                flash "Invalid username or password" "error" ;;;
                ret (Render "login.html" [("form", CForm)])
            end
        | _, _ =>
            flash "Invalid username or password" "error" ;;;
            ret (Render "login.html" [("form", CForm)])
        end
      else ret (Render "login.html" [("form", CForm)])
  end.

Definition logout : M response :=
  login_required (fun _ _ => logout_user ;;; ret (Redirect "index")).

(** ** Wellness plans *)


(** The two columns as the template of [plan] gets them. *)
Definition decoded (column : option string) : Py.result Py.value :=
  match column with
  | Some s => Py.loads s
  | None => Py.Ok Py.VNone
  end.

Definition plan : M response :=
  login_required (fun uid _ =>
    plans <- query_all wellness_plan
               (fun p => Z.eqb (WellnessPlan.user_id p) uid) ;;
    match order_desc WellnessPlan.created_at plans with
    | [] =>
        flash "No wellness plan found. Please generate one." "info" ;;;
        ret (Redirect "dashboard")
    | latest :: _ =>
        shown <-
          try_except
            (meal_plan <- lift (decoded (WellnessPlan.meal_plan latest)) ;;
             workout_plan <- lift (decoded (WellnessPlan.workout_plan latest)) ;;
             ret (meal_plan, workout_plan))
            (fun e =>
               logger_error ("Error parsing plan data: " ++ Py.str_exn e) ;;;
               ret (Py.VDict [], Py.VDict [])) ;;
        ret (Render "plan.html"
               [("plan", CShownPlan latest (fst shown) (snd shown))])
    end).

(** ** Workouts *)

(** [int(request.form.get(key))] *)
Definition int_field (rq : Request) (key : string) : Py.result Z :=
  match form_get key (form rq) with
  | Some s => int_of_str rq s
  | None =>
      Py.Raise (Py.TypeError
        "int() argument must be a string, a bytes-like object or a real number, not 'NoneType'")
  end.

(** [float(request.form.get(key))] *)
Definition float_field (rq : Request) (key : string) : Py.result double :=
  match form_get key (form rq) with
  | Some s => float_of_str rq s
  | None =>
      Py.Raise (Py.TypeError
        "float() argument must be a string or a real number, not 'NoneType'")
  end.

(** [int(request.form.get(key, 1))] *)
Definition int_field_or_1 (rq : Request) (key : string) : Py.result Z :=
  match form_get key (form rq) with
  | Some s => int_of_str rq s
  | None => Py.Ok 1%Z
  end.

(** The body of the loop of [log_workout]. *)
Definition log_exercise (uid : Z) (exercise : string) : M unit :=
  rq <- ask ;;
  if filled (form_get ("weight_" ++ exercise) (form rq))
     && filled (form_get ("reps_" ++ exercise) (form rq))
  then
    weight <- lift (float_field rq ("weight_" ++ exercise)) ;;
    reps_ <- lift (int_field rq ("reps_" ++ exercise)) ;;
    sets <- lift (int_field_or_1 rq ("sets_" ++ exercise)) ;;
    session_add
      (AProgress (ExerciseProgress.mk None uid (Some exercise) (Some weight)
                                      (Some reps_) (Some sets) None))
  else ret tt.

Fixpoint for_each {A} (body : A -> M unit) (l : list A) : M unit :=
  match l with
  | [] => ret tt
  | x :: l' => body x ;;; for_each body l'
  end.

Definition log_workout : M response :=
  login_required (fun uid _ =>
    rq <- ask ;;
    if String.eqb (method rq) "POST" then
      try_except
        (let exercises := form_getlist "exercises[]" (form rq) in
         duration <- lift (int_field rq "duration") ;;
         exercises_json <-
           lift (Py.dumps (Py.VList (map Py.VStr exercises))) ;;
         calories_burned <- lift (int_field rq "calories_burned") ;;
         session_add
           (ALog (WorkoutLog.mk None uid (form_get "workout_type" (form rq))
                    (Some duration) (form_get "intensity" (form rq))
                    (Some exercises_json) (Some calories_burned)
                    (form_get "notes" (form rq)) None)) ;;;
         for_each (log_exercise uid) exercises ;;;
         session_commit ;;;
         flash "Workout logged successfully!" "success" ;;;
         ret (Redirect "workout_progress"))
        (fun _ =>
           session_rollback ;;;
           flash "Error logging workout. Please try again." "error" ;;;
           ret (Redirect "log_workout"))
    else ret (Render "workout/log.html" [])).

(** ** Recipes from ingredients *)

Definition ingredient_recipes : M response :=
  login_required (fun uid _ =>
    rq <- ask ;;
    if String.eqb (method rq) "POST" then
      let ingredients :=
        Py.strip (routes.or_empty (form_get "ingredients" (form rq))) in
      if Py.nonempty ingredients then
        try_except
          (profile <- query_first wellness_profile
                        (fun p => Z.eqb (WellnessProfile.user_id p) uid) ;;
           let ingredients_list := routes.ingredients_list ingredients in
           recipes <-
             lift (generate_recipes_from_ingredients rq ingredients_list
                     profile) ;;
           ret (Render "meal_plan/ingredient_recipes.html"
                  [("recipes", CRecipes (Some recipes))]))
          (fun e =>
             logger_error ("Error generating recipes: " ++ Py.str_exn e) ;;;
             flash "Error generating recipes. Please try again." "error" ;;;
             ret (Render "meal_plan/ingredient_recipes.html"
                    [("recipes", CRecipes None)]))
      else
        flash "Please enter at least one ingredient" "warning" ;;;
        ret (Redirect "ingredient_recipes")
    else ret (Render "meal_plan/ingredient_recipes.html"
                [("recipes", CRecipes None)])).

End Views.

End site_routes.

(* ===================================================================== *)
(** * Notions for the accounts, plans and workouts *)
(* ===================================================================== *)

Module site_notions.

Import site site_routes.

(** Nobody is logged in: the session names no user, or one that is gone. *)
Definition anonymous (rq : Request) (d : Tables) : Prop :=
  match user_id rq with
  | Some id => load_user id d = None
  | None => True
  end.

(** The state of a request that did nothing. *)
Definition idle (rq : Request) (d : Tables) : St :=
  mkSt d [] [] [] (user_id rq).

(** The tables other than [user] agree. *)
Definition same_but_users (a b : Tables) : Prop :=
  wellness_profile a = wellness_profile b
  /\ wellness_plan a = wellness_plan b
  /\ workout_log a = workout_log b
  /\ exercise_progress a = exercise_progress b.


(** [a] comes no later than [b] in [ORDER BY created_at DESC]. *)
Definition newer {A} (key : A -> option datetime) (a b : A) : Prop :=
  key_leb (key b) (key a) = true.

(** The rows of one exercise, in the order of the list. *)
Definition rows_named (name : option string)
    (exercises : list ExerciseProgress.t) : list ExerciseProgress.t :=
  filter (fun e => db.opt_str_eqb (ExerciseProgress.exercise_name e) name)
         exercises.

(** [s] holds the points of the rows of [name], one per row and in their
    order. *)
Definition series_of (exercises : list ExerciseProgress.t)
    (name : option string) (s : series) : Prop :=
  map Some (dates s)
  = map (fun e => option_map strftime_Ymd (ExerciseProgress.recorded_at e))
        (rows_named name exercises)
  /\ weights s = map ExerciseProgress.weight (rows_named name exercises)
  /\ reps s = map ExerciseProgress.reps (rows_named name exercises).

(** [progress_data] is the grouping of [exercises]. *)
Definition grouping (exercises : list ExerciseProgress.t)
    (data : list (option string * series)) : Prop :=
  NoDup (map fst data)
  /\ (forall name, In name (map fst data)
                   <-> In name (map ExerciseProgress.exercise_name exercises))
  /\ (forall name s, In (name, s) data -> series_of exercises name s).

(** The form gives both a weight and a number of reps for [exercise]. *)
Definition has_figures (rq : Request) (exercise : string) : bool :=
  filled (form_get ("weight_" ++ exercise) (form rq))
  && filled (form_get ("reps_" ++ exercise) (form rq)).

(** A progress object of [uid] as the view makes it, not yet flushed. *)
Definition fresh_progress (uid : Z) (p : ExerciseProgress.t) : Prop :=
  ExerciseProgress.id p = None
  /\ ExerciseProgress.user_id p = uid
  /\ ExerciseProgress.recorded_at p = None.

Section Prepared.
Context {json : Py.Json}.


(** The two columns as [plan] shows them. *)
Definition shown_columns (p : WellnessPlan.t) : Py.value * Py.value :=
  match decoded (WellnessPlan.meal_plan p),
        decoded (WellnessPlan.workout_plan p) with
  | Py.Ok meal_plan, Py.Ok workout_plan => (meal_plan, workout_plan)
  | _, _ => (Py.VDict [], Py.VDict [])
  end.

End Prepared.



End site_notions.

(* ===================================================================== *)
(** * Further sample requests *)
(* ===================================================================== *)

Module more_samples.

Import models forms flask routes notions samples.

(** Users 1 and 2 have a dinner preference each. *)
Definition two_user_db : db.DB :=
  db.mkDB [dinner_row 1 1; dinner_row 2 2] [plan_row 1 1] [].

(** User 1 looks at a page. *)
Definition get_as_owner : Request :=
  request 1 "GET" (dinner_form 600) (Py.Ok Py.VNone) None.

(** User 1 submits while the database is away. *)
Definition submit_failing : Request :=
  request 1 "POST" (dinner_form 600) (Py.Ok Py.VNone)
          (Some (Py.Exception "server closed the connection")).

Definition environ (name : string) : option string :=
  if String.eqb name "SESSION_SECRET" then Some "0f3a"
  else if String.eqb name "DATABASE_URL"
       then Some "postgres://app@db.example.org/hrf"
       else None.

End more_samples.

(* ===================================================================== *)
(** * Sample accounts, plans and workouts *)
(* ===================================================================== *)

Module site_samples.

Import site site_routes site_notions.

Definition at_noon (day : Z) : datetime :=
  mkdatetime (Py.mkdate 2024 1 day) 43200000000%Z.

Definition hash (password : string) : string := "pbkdf2:" ++ password.

(** [int(s)] on decimal numerals. *)
Definition number (s : string) : Py.result Z :=
  match NilZero.int_of_string s with
  | Some i => Py.Ok (Z.of_int i)
  | None =>
      Py.Raise (Py.ValueError ("invalid literal for int() with base 10: '"
                               ++ s ++ "'"))
  end.

(** A request in a world where both generators answer [planned]. *)
Definition request (uid : option Z) (method : string)
    (form : list (string * string)) (planned : Py.result Py.value)
    (fault : option Py.exn) : Request :=
  mkRequest uid method form true (at_noon 5) fault hash
            (fun h password => String.eqb h (hash password))
            (fun _ => true) number number
            (fun _ => planned) (fun _ _ => planned).

(** Alice, a subscriber with a profile, two plans, one logged workout
    and three progress rows. *)
Definition alice : User.t :=
  User.mk (Some 1%Z) "alice" "alice@example.org" (Some (hash "correct horse"))
          (Some true) None (Some (at_noon 1)).

Definition profile_of_alice : WellnessProfile.t :=
  WellnessProfile.mk (Some 1%Z) 1 (Some 30%Z) (Some 170%Z) (Some 65%Z)
    (Some "fitness") (Some "none") (Some "moderate") (Some (at_noon 1)).

Definition plan_on (id day : Z) : WellnessPlan.t :=
  WellnessPlan.mk (Some id) 1 (Some "{}") (Some "{}") (Some (at_noon day)).

Definition run_on (id day : Z) : WorkoutLog.t :=
  WorkoutLog.mk (Some id) 1 (Some "cardio") (Some 30%Z) (Some "medium")
    (Some "[]") (Some 300%Z) None (Some (at_noon day)).

Definition lift_on (id day : Z) (name : string) (weight : double)
  : ExerciseProgress.t :=
  ExerciseProgress.mk (Some id) 1 (Some name) (Some weight) (Some 5%Z)
    (Some 3%Z) (Some (at_noon day)).

Definition tables : Tables :=
  mkTables [alice] [profile_of_alice] [plan_on 1 2; plan_on 2 3]
           [run_on 1 2]
           [lift_on 1 2 "squat" 80%Z; lift_on 2 3 "press" 40%Z;
            lift_on 3 4 "squat" 85%Z].

Definition registration : Request :=
  request None "POST"
    [("username", "bob"); ("email", "bob@example.org");
     ("password", "tr0ub4dor"); ("confirm_password", "tr0ub4dor")]
    (Py.Ok Py.VNone) None.

Definition signing_in (username password : string) : Request :=
  request None "POST" [("username", username); ("password", password)]
    (Py.Ok Py.VNone) None.

Definition browsing : Request :=
  request (Some 1%Z) "GET" [] (Py.Ok Py.VNone) None.



Definition logging_workout : Request :=
  request (Some 1%Z) "POST"
    [("workout_type", "strength"); ("duration", "45"); ("intensity", "high");
     ("exercises[]", "squat"); ("exercises[]", "plank");
     ("calories_burned", "400"); ("weight_squat", "90"); ("reps_squat", "5")]
    (Py.Ok Py.VNone) None.

Definition recipes_for (ingredients : string) : Request :=
  request (Some 1%Z) "POST" [("ingredients", ingredients)]
    (Py.Ok (Py.VList [Py.VStr "omelette"])) None.

End site_samples.

(* ===================================================================== *)
(** * Facts about strings and dates *)
(* ===================================================================== *)

Module py_facts.

Import Py.

Lemma lstrip_first (s : string) (c : ascii) :
  first_char (lstrip s) = Some c -> isspace c = false.
Proof.
  induction s as [|a s IH]; simpl; [discriminate|].
  destruct (isspace a) eqn:Ha; [exact IH|].
  simpl. intros H. injection H as <-. exact Ha.
Qed.

Lemma rstrip_first (s : string) (c : ascii) :
  first_char s = Some c -> isspace c = false ->
  first_char (rstrip s) = Some c.
Proof.
  destruct s as [|a s]; simpl; [discriminate|].
  intros H Hc. injection H as ->.
  destruct (rstrip s); [rewrite Hc|]; reflexivity.
Qed.

Lemma rstrip_first_inv (s : string) (c : ascii) :
  first_char (rstrip s) = Some c -> first_char s = Some c.
Proof.
  destruct s as [|a s]; simpl; [discriminate|].
  destruct (rstrip s); [destruct (isspace a)|]; simpl; congruence.
Qed.

Lemma rstrip_last (s : string) (c : ascii) :
  last_char (rstrip s) = Some c -> isspace c = false.
Proof.
  induction s as [|a s IH]; simpl; [discriminate|].
  destruct (rstrip s) as [|b r] eqn:Hr.
  - destruct (isspace a) eqn:Ha; simpl; [discriminate|].
    intros H. injection H as <-. exact Ha.
  - simpl. exact IH.
Qed.

Lemma lstrip_fixed (s : string) :
  (forall c, first_char s = Some c -> isspace c = false) -> lstrip s = s.
Proof.
  destruct s as [|a s]; simpl; [reflexivity|].
  intros H. rewrite (H a eq_refl). reflexivity.
Qed.

Lemma rstrip_idem (s : string) : rstrip (rstrip s) = rstrip s.
Proof.
  induction s as [|a s IH]; simpl; [reflexivity|].
  destruct (rstrip s) as [|b r] eqn:Hr.
  - destruct (isspace a) eqn:Ha; simpl; [reflexivity|].
    rewrite Ha. reflexivity.
  - change (rstrip (String a (String b r))) with
      (match rstrip (String b r) with
       | EmptyString => if isspace a then EmptyString else String a EmptyString
       | r' => String a r'
       end).
    rewrite IH. reflexivity.
Qed.

Lemma strip_first (s : string) (c : ascii) :
  first_char (strip s) = Some c -> isspace c = false.
Proof.
  unfold strip. intros H. apply rstrip_first_inv in H.
  exact (lstrip_first _ _ H).
Qed.

Lemma strip_last (s : string) (c : ascii) :
  last_char (strip s) = Some c -> isspace c = false.
Proof. unfold strip. apply rstrip_last. Qed.

Lemma strip_idem (s : string) : strip (strip s) = strip s.
Proof.
  unfold strip at 1.
  rewrite lstrip_fixed by (intros c; apply strip_first).
  unfold strip. apply rstrip_idem.
Qed.

Lemma nonempty_true (s : string) : nonempty s = true -> s <> EmptyString.
Proof. destruct s; simpl; congruence. Qed.

(** ** The order on dates *)

Lemma date_le_refl (a : date) : date_le a a.
Proof. unfold date_le, date_leb. destruct a; simpl. lia. Qed.

Lemma date_le_trans (a b c : date) :
  date_le a b -> date_le b c -> date_le a c.
Proof.
  unfold date_le, date_leb. destruct a, b, c; simpl. lia.
Qed.

Lemma date_le_antisym (a b : date) : date_le a b -> date_le b a -> a = b.
Proof.
  unfold date_le, date_leb. destruct a, b; simpl. intros H1 H2.
  assert (year0 = year1 /\ month0 = month1 /\ day0 = day1) as (-> & -> & ->)
    by lia.
  reflexivity.
Qed.

Lemma map_filter_comm {A B} (f : A -> B) (p : B -> bool) (l : list A) :
  map f (filter (fun x => p (f x)) l) = filter p (map f l).
Proof.
  induction l as [|a l IH]; cbn [map filter]; [reflexivity|].
  destruct (p (f a)); cbn [map]; now rewrite IH.
Qed.

End py_facts.

(* ===================================================================== *)
(** * Facts about the database *)
(* ===================================================================== *)

Module db_facts.

Import models db.

Lemma opt_Z_eqb_eq (a b : option Z) : opt_Z_eqb a b = true <-> a = b.
Proof.
  destruct a, b; simpl; try (split; congruence).
  rewrite Z.eqb_eq. split; congruence.
Qed.

Lemma opt_str_eqb_eq (a b : option string) : opt_str_eqb a b = true <-> a = b.
Proof.
  destruct a, b; simpl; try (split; congruence).
  rewrite String.eqb_eq. split; congruence.
Qed.

Lemma next_id_above {A} (id : A -> option Z) (rows : list A) (r : A) (i : Z) :
  In r rows -> id r = Some i -> (i < next_id id rows)%Z.
Proof.
  unfold next_id. induction rows as [|x rows IH]; cbn [In map fold_right];
    [tauto|].
  intros [->|Hin] Hi.
  - rewrite Hi. lia.
  - specialize (IH Hin Hi). lia.
Qed.

Lemma next_id_fresh {A} (id : A -> option Z) (rows : list A) :
  ~ In (Some (next_id id rows)) (map id rows).
Proof.
  intros H. apply in_map_iff in H as (r & Hr & Hin).
  pose proof (next_id_above id rows r _ Hin Hr). lia.
Qed.

Lemma NoDup_map_eq {A B} (f : A -> B) (l : list A) (x y : A) :
  NoDup (map f l) -> In x l -> In y l -> f x = f y -> x = y.
Proof.
  induction l as [|a l IH]; cbn [map In]; [tauto|].
  intros Hnd Hx Hy Hf. inversion Hnd as [|? ? Hnotin Hnd']; subst.
  destruct Hx as [->|Hx], Hy as [->|Hy]; auto.
  - exfalso. apply Hnotin. rewrite Hf. now apply in_map.
  - exfalso. apply Hnotin. rewrite <- Hf. now apply in_map.
Qed.

Lemma filter_none {A} (p : A -> bool) (l : list A) :
  (forall x, In x l -> p x = false) -> filter p l = [].
Proof.
  induction l as [|a l IH]; cbn [filter]; [reflexivity|].
  intros H. rewrite (H a (or_introl eq_refl)).
  apply IH. intros x Hx. apply H. now right.
Qed.

Lemma hd_filter {A} (p : A -> bool) (l : list A) (x : A) :
  hd_error (filter p l) = Some x -> In x l /\ p x = true.
Proof.
  intros H. apply filter_In.
  destruct (filter p l) as [|y t]; [discriminate|].
  injection H as ->. now left.
Qed.

Lemma hd_filter_none {A} (p : A -> bool) (l : list A) (x : A) :
  hd_error (filter p l) = None -> In x l -> p x = false.
Proof.
  intros H Hin. destruct (p x) eqn:Hp; [|reflexivity].
  assert (Hx : In x (filter p l)) by (apply filter_In; auto).
  destruct (filter p l); [contradiction|discriminate].
Qed.

Lemma Forall2_map_self {A} (R : A -> A -> Prop) (f : A -> A) (l : list A) :
  (forall x, In x l -> R x (f x)) -> Forall2 R l (map f l).
Proof.
  induction l as [|a l IH]; cbn [map]; intros H; constructor.
  - apply H. now left.
  - apply IH. intros x Hx. apply H. now right.
Qed.

Lemma Forall2_map_eq {A B} (R : A -> A -> Prop) (g : A -> B) (l l' : list A) :
  Forall2 R l l' -> (forall x y, R x y -> g y = g x) -> map g l' = map g l.
Proof.
  intros H Hg. induction H as [|x y l l' Hxy _ IH]; cbn [map];
    [reflexivity|].
  rewrite IH, (Hg x y Hxy). reflexivity.
Qed.

Lemma same_columns_eq (a b : MealPreference.t) :
  same_columns a b = true ->
  MealPreference.meal_type a = MealPreference.meal_type b
  /\ MealPreference.preferred_time a = MealPreference.preferred_time b
  /\ MealPreference.calories_target a = MealPreference.calories_target b
  /\ MealPreference.protein_target a = MealPreference.protein_target b
  /\ MealPreference.carbs_target a = MealPreference.carbs_target b
  /\ MealPreference.fat_target a = MealPreference.fat_target b
  /\ MealPreference.excluded_ingredients a
     = MealPreference.excluded_ingredients b
  /\ MealPreference.available_ingredients a
     = MealPreference.available_ingredients b
  /\ MealPreference.preferred_cuisine a = MealPreference.preferred_cuisine b.
Proof.
  unfold same_columns. intros H.
  repeat (apply andb_prop in H as [H ?]).
  repeat match goal with
         | K : opt_str_eqb _ _ = true |- _ => apply opt_str_eqb_eq in K
         | K : opt_Z_eqb _ _ = true |- _ => apply opt_Z_eqb_eq in K
         end.
  repeat split; assumption.
Qed.

Lemma NoDup_snoc {A} (l : list A) (a : A) :
  NoDup l -> ~ In a l -> NoDup (l ++ [a]).
Proof.
  intros Hl Ha. apply NoDup_app; [exact Hl|repeat constructor; intros []|].
  intros x Hx [<-|[]]. contradiction.
Qed.

End db_facts.

(* ===================================================================== *)
(** * Facts about the routes *)
(* ===================================================================== *)

Module routes_facts.

Import models forms flask routes notions.

Section WithJson.
Context {json : Py.Json}.

Ltac unfold_handler :=
  unfold serve, initial, login_required, try_except, bind, ret, lift, ask, flash,
    logger_error, query_first, query_all, first_or_404, session_add,
    session_modified, session_commit, session_rollback;
  cbn [store session flashes log commits].

(** What [generate_new_meal_plan] answers and stores, stage by stage. *)
Lemma serve_generate (rq : Request) (d : db.DB) :
  serve generate_new_meal_plan rq d =
  match current_user rq with
  | None => (Unauthorized, [], d)
  | Some uid =>
      match hd_error (filter (owned_by uid) (db.meal_preference d)) with
      | None =>
          (Redirect "meal_preferences" None,
           [("Please set your meal preferences first", "warning")], d)
      | Some preferences =>
          match staged rq uid preferences, db_fault rq with
          | Py.Ok plan, None =>
              let row := db.insert_plan (utcnow rq) plan (db.meal_plan d) in
              (Redirect "view_meal_plan" (MealPlan.id row),
               [("Your personalized meal plan has been generated!", "success")],
               add_plan d row)
          | Py.Raise e, _ | Py.Ok _, Some e =>
              (Redirect "meal_preferences" None,
               [("Error generating meal plan: " ++ Py.str_exn e, "error")], d)
          end
      end
  end.
Proof.
  unfold generate_new_meal_plan. unfold_handler.
  destruct (current_user rq) as [uid|]; [|reflexivity].
  destruct (hd_error _) as [preferences|]; [|reflexivity].
  unfold staged.
  destruct (generate_meal_plan rq preferences) as [data|e]; [|reflexivity].
  cbn [Py.rbind].
  destruct (generate_shopping_list rq data) as [lst|e]; [|reflexivity].
  cbn [Py.rbind].
  destruct (first_date data) as [start|e]; [|reflexivity].
  cbn [Py.rbind].
  destruct (last_date data) as [stop|e]; [|reflexivity].
  cbn [Py.rbind].
  destruct (Py.dumps data) as [pj|e]; [|reflexivity].
  cbn [Py.rbind].
  destruct (Py.dumps lst) as [lj|e]; [|reflexivity].
  cbn [Py.rbind MealPlan.id].
  destruct (db_fault rq) as [e|]; reflexivity.
Qed.

(** What [meal_preferences] answers and stores. *)
Lemma serve_meal_preferences (rq : Request) (d : db.DB) :
  serve meal_preferences rq d =
  match current_user rq with
  | None => (Unauthorized, [], d)
  | Some uid =>
      if validate_on_submit rq then
        match ingredient_columns (form rq), db_fault rq with
        | Py.Ok columns, None =>
            (Redirect "meal_preferences" None,
             [("Meal preferences updated successfully!", "success")],
             submitted rq uid columns d)
        | Py.Raise _, _ | Py.Ok _, Some _ =>
            (preferences_page rq uid d,
             [("Error updating meal preferences. Please try again.", "error")],
             d)
        end
      else (preferences_page rq uid d, [], d)
  end.
Proof.
  unfold meal_preferences, meal_preferences_submit. unfold_handler.
  destruct (current_user rq) as [uid|]; [|reflexivity].
  destruct (validate_on_submit rq); [|reflexivity].
  unfold ingredient_columns, submitted, unit_of_work.
  destruct (Py.dumps _) as [ej|e]; [|reflexivity].
  cbn [Py.rbind].
  destruct (Py.dumps _) as [aj|e]; [|reflexivity].
  cbn [Py.rbind fst snd].
  destruct (hd_error _) as [p|].
  - cbn [assign MealPreference.id truthy_id].
    destruct (MealPreference.id p) as [i|]; cbn [truthy_id];
      [destruct (negb (i =? 0)%Z)|];
      cbn [store session flashes log commits db.new db.dirty filter app];
      destruct (db_fault rq); try reflexivity;
      cbn [store session flashes log commits];
      destruct (db.flush _ _ _); reflexivity.
  - cbn [assign MealPreference.id MealPreference.new truthy_id
         store session flashes log commits db.new db.dirty filter app
         db.empty_session].
    destruct (db_fault rq); reflexivity.
Qed.

(** C1. A meal plan of user [a] requested by another user [b] is
    answered with 404 Not Found, exactly as a plan id that no row
    carries; and a plan that [view_meal_plan] does render belongs to the
    requesting user. *)
Theorem view_meal_plan_ownership
    (rq : Request) (d : db.DB) (plan : MealPlan.t) (i a b : Z) :
  NoDup (map MealPlan.id (db.meal_plan d)) ->
  In plan (db.meal_plan d) ->
  MealPlan.id plan = Some i ->
  MealPlan.user_id plan = a ->
  current_user rq = Some b ->
  b <> a ->
  serve (view_meal_plan i) rq d = (Abort 404, [], d)
  /\ (forall j, ~ In (Some j) (map MealPlan.id (db.meal_plan d)) ->
         serve (view_meal_plan j) rq d = (Abort 404, [], d))
  /\ (forall j template context name p,
         fst (fst (serve (view_meal_plan j) rq d)) = Render template context ->
         In (name, CPlan p) context ->
         MealPlan.user_id p = b /\ MealPlan.id p = Some j
         /\ In p (db.meal_plan d)).
Proof.
  intros Hnd Hin Hid Ha Hb Hne.
  assert (Hserve : forall j,
    serve (view_meal_plan j) rq d =
    match filter (plan_with_id j b) (db.meal_plan d) with
    | x :: _ => (Render "meal_plan/view.html" [("plan", CPlan x)], [], d)
    | [] => (Abort 404, [], d)
    end).
  { intros j. unfold view_meal_plan. unfold_handler. rewrite Hb.
    destruct (filter _ _); reflexivity. }
  split; [|split].
  - rewrite Hserve, db_facts.filter_none; [reflexivity|].
    intros q Hq. unfold plan_with_id, plan_of.
    destruct (db.opt_Z_eqb (MealPlan.id q) (Some i)) eqn:Hqi; [|reflexivity].
    apply db_facts.opt_Z_eqb_eq in Hqi.
    assert (q = plan) as ->
      by (apply (db_facts.NoDup_map_eq MealPlan.id (db.meal_plan d));
          congruence).
    cbn [andb]. apply Z.eqb_neq. congruence.
  - intros j Hj. rewrite Hserve, db_facts.filter_none; [reflexivity|].
    intros q Hq. unfold plan_with_id.
    destruct (db.opt_Z_eqb (MealPlan.id q) (Some j)) eqn:Hqj; [|reflexivity].
    apply db_facts.opt_Z_eqb_eq in Hqj. exfalso. apply Hj.
    rewrite <- Hqj. now apply in_map.
  - intros j template context name p. rewrite Hserve.
    destruct (filter _ _) as [|x t] eqn:Hf; cbn [fst]; [discriminate|].
    intros Heq Hctx. injection Heq as <- <-.
    destruct Hctx as [Hctx|[]]. injection Hctx as <- <-.
    assert (Hx : In x (filter (plan_with_id j b) (db.meal_plan d)))
      by (rewrite Hf; now left).
    apply filter_In in Hx as [Hx Hp]. unfold plan_with_id, plan_of in Hp.
    apply andb_prop in Hp as [Hp1 Hp2].
    apply db_facts.opt_Z_eqb_eq in Hp1. apply Z.eqb_eq in Hp2. auto.
Qed.

Lemma generate_commits (rq : Request) (d : db.DB) :
  (commits (snd (generate_new_meal_plan rq (initial d))) <= 1)%nat.
Proof.
  unfold generate_new_meal_plan. unfold_handler.
  destruct (current_user rq) as [uid|]; [|cbn; lia].
  destruct (hd_error _) as [preferences|]; [|cbn; lia].
  destruct (generate_meal_plan rq preferences) as [data|e]; [|cbn; lia].
  destruct (generate_shopping_list rq data) as [lst|e]; [|cbn; lia].
  destruct (first_date data) as [start|e]; [|cbn; lia].
  destruct (last_date data) as [stop|e]; [|cbn; lia].
  destruct (Py.dumps data) as [pj|e]; [|cbn; lia].
  destruct (Py.dumps lst) as [lj|e]; [|cbn; lia].
  destruct (db_fault rq) as [e|]; cbn; lia.
Qed.

Lemma stage_fails_cases (rq : Request) (uid : Z) (preferences : MealPreference.t) :
  stage_fails rq preferences ->
  (exists e, staged rq uid preferences = Py.Raise e)
  \/ (exists e, db_fault rq = Some e).
Proof.
  unfold staged.
  intros [e H|data e H1 H2|data e H1 H2|data lst e H1 H2 H3|e H].
  - left. rewrite H. try (eexists; reflexivity).
  - left. rewrite H1. cbn [Py.rbind]. rewrite H2. try (eexists; reflexivity).
  - left. rewrite H1. cbn [Py.rbind].
    destruct (generate_shopping_list rq data); cbn [Py.rbind]; try (eexists; reflexivity).
    destruct H2 as [H2|H2].
    + rewrite H2. try (eexists; reflexivity).
    + destruct (first_date data); cbn [Py.rbind]; try (eexists; reflexivity).
      rewrite H2. try (eexists; reflexivity).
  - left. rewrite H1. cbn [Py.rbind]. rewrite H2. cbn [Py.rbind].
    destruct (first_date data); cbn [Py.rbind]; try (eexists; reflexivity).
    destruct (last_date data); cbn [Py.rbind]; try (eexists; reflexivity).
    destruct H3 as [H3|H3].
    + rewrite H3. try (eexists; reflexivity).
    + destruct (Py.dumps data); cbn [Py.rbind]; try (eexists; reflexivity).
      rewrite H3. try (eexists; reflexivity).
  - right. eauto.
Qed.

(** C2. A generation request commits at most once.  Either it leaves
    the database as it was, or it stores exactly one new [MealPlan] row
    that carries both the serialised plan and the serialised shopping
    list and answers with the redirect to that plan.  When generation,
    list derivation, date parsing, serialisation or the commit fails,
    the database is unchanged and the answer is the redirect to the
    preferences page. *)
Theorem generate_new_meal_plan_atomic (rq : Request) (d : db.DB) :
  (commits (snd (generate_new_meal_plan rq (initial d))) <= 1)%nat
  /\ (snd (serve generate_new_meal_plan rq d) = d
      \/ exists row plan_json list_json plan_id,
           snd (serve generate_new_meal_plan rq d) = add_plan d row
           /\ MealPlan.meal_plan_data row = Some plan_json
           /\ MealPlan.shopping_list row = Some list_json
           /\ MealPlan.id row = Some plan_id
           /\ fst (fst (serve generate_new_meal_plan rq d))
              = Redirect "view_meal_plan" (Some plan_id))
  /\ (forall endpoint plan_id,
        fst (fst (serve generate_new_meal_plan rq d))
        = Redirect endpoint plan_id ->
        endpoint <> "view_meal_plan" ->
        snd (serve generate_new_meal_plan rq d) = d)
  /\ (forall uid preferences,
        current_user rq = Some uid ->
        hd_error (filter (owned_by uid) (db.meal_preference d))
        = Some preferences ->
        stage_fails rq preferences ->
        snd (serve generate_new_meal_plan rq d) = d
        /\ fst (fst (serve generate_new_meal_plan rq d))
           = Redirect "meal_preferences" None).
Proof.
  split; [apply generate_commits|].
  rewrite serve_generate.
  split; [|split].
  - destruct (current_user rq) as [uid|]; [|now left].
    destruct (hd_error _) as [preferences|]; [|now left].
    destruct (staged rq uid preferences) as [plan|e] eqn:Hst; [|now left].
    destruct (db_fault rq) as [e|]; [now left|].
    right. cbn [fst snd].
    unfold staged in Hst.
    destruct (generate_meal_plan rq preferences) as [data|]; [|discriminate].
    cbn [Py.rbind] in Hst.
    destruct (generate_shopping_list rq data) as [lst|]; [|discriminate].
    cbn [Py.rbind] in Hst.
    destruct (first_date data) as [start|]; [|discriminate].
    destruct (last_date data) as [stop|]; [|discriminate].
    cbn [Py.rbind] in Hst.
    destruct (Py.dumps data) as [pj|]; [|discriminate].
    destruct (Py.dumps lst) as [lj|]; [|discriminate].
    cbn [Py.rbind] in Hst. injection Hst as <-.
    eexists _, pj, lj, _. repeat split.
  - intros endpoint plan_id.
    destruct (current_user rq) as [uid|]; [|reflexivity].
    destruct (hd_error _) as [preferences|]; [|reflexivity].
    destruct (staged rq uid preferences) as [plan|e]; [|reflexivity].
    destruct (db_fault rq) as [e|]; [reflexivity|].
    cbn [fst snd]. intros H Hne. injection H as <- _. now elim Hne.
  - intros uid preferences -> -> Hfail.
    destruct (stage_fails_cases rq uid preferences Hfail) as [[e He]|[e He]].
    + rewrite He. split; reflexivity.
    + rewrite He. destruct (staged rq uid preferences); split; reflexivity.
Qed.

(** ** The dates of a generated plan *)

Lemma first_date_entry (data : Py.value) (start : Py.date) :
  first_date data = Py.Ok start ->
  exists x l, day_entries data = x :: l /\ entry_date x = Py.Ok start.
Proof.
  unfold first_date, day_entries, entry_date.
  destruct (Py.getitem_key data "meal_plan") as [days|]; [|discriminate].
  cbn [Py.rbind].
  destruct days as [| | | s |l|items]; cbn [Py.getitem_first Py.rbind];
    try discriminate.
  - destruct (Py.first_char s); discriminate.
  - destruct l as [|x l]; [discriminate|]. cbn [Py.rbind]. eauto.
Qed.

Lemma last_date_entry (data : Py.value) (stop : Py.date) :
  last_date data = Py.Ok stop ->
  exists y l, rev (day_entries data) = y :: l /\ entry_date y = Py.Ok stop.
Proof.
  unfold last_date, day_entries, entry_date.
  destruct (Py.getitem_key data "meal_plan") as [days|]; [|discriminate].
  cbn [Py.rbind].
  destruct days as [| | | s |l|items]; cbn [Py.getitem_last Py.rbind];
    try discriminate.
  - destruct (Py.last_char s); discriminate.
  - destruct (rev l) as [|y l']; [discriminate|]. cbn [Py.rbind]. eauto.
Qed.

Lemma ascending_tail (a : Py.date) (l : list Py.date) :
  ascending (a :: l) = true -> ascending l = true.
Proof.
  destruct l as [|b l]; [reflexivity|].
  cbn [ascending]. intros H. apply andb_prop in H. tauto.
Qed.

Lemma ascending_first (a : Py.date) (l : list Py.date) (x : Py.date) :
  ascending (a :: l) = true -> In x (a :: l) -> Py.date_le a x.
Proof.
  revert a. induction l as [|b l IH]; intros a Hasc [<-|Hin];
    try apply py_facts.date_le_refl; try contradiction.
  cbn [ascending] in Hasc. apply andb_prop in Hasc as [Hab Hasc].
  apply (py_facts.date_le_trans a b x); [exact Hab|].
  now apply IH.
Qed.

Lemma rev_cons_head {A} (a b : A) (l : list A) :
  hd_error (rev (a :: b :: l)) = hd_error (rev (b :: l)).
Proof.
  change (rev (a :: b :: l)) with ((rev (b :: l) ++ [a])%list).
  destruct (rev (b :: l)) eqn:H; [|reflexivity].
  apply (f_equal (@List.length A)) in H. rewrite length_rev in H. discriminate.
Qed.

Lemma ascending_last (l : list Py.date) (z x : Py.date) :
  ascending l = true -> hd_error (rev l) = Some z -> In x l -> Py.date_le x z.
Proof.
  revert x. induction l as [|a l IH]; intros x; [contradiction|].
  intros Hasc Hz Hin.
  destruct l as [|b l].
  - cbn in Hz. injection Hz as <-. destruct Hin as [<-|[]].
    apply py_facts.date_le_refl.
  - rewrite rev_cons_head in Hz.
    pose proof (ascending_tail _ _ Hasc) as Htl.
    assert (Hbz : Py.date_le b z) by (apply IH; auto; now left).
    destruct Hin as [<-|Hin]; [|now apply IH].
    cbn [ascending] in Hasc. apply andb_prop in Hasc as [Hab _].
    exact (py_facts.date_le_trans _ _ _ Hab Hbz).
Qed.

Lemma rev_head_in {A} (l : list A) (z : A) :
  hd_error (rev l) = Some z -> In z l.
Proof.
  intros H. apply in_rev. destruct (rev l); [discriminate|].
  injection H as ->. now left.
Qed.

(** C3 (amended). A persisted plan is stored with the date of its first
    day-entry as [start_date] and the date of its last day-entry as
    [end_date].  When the dates of all its day-entries parse and come in
    ascending order, these are the minimum and the maximum of the
    day-entries' dates, so that [start_date <= end_date] and every date
    lies between them. *)
Theorem generated_plan_dates
    (rq : Request) (d d' : db.DB) (plan_id : option Z)
    (fl : list (string * string)) :
  serve generate_new_meal_plan rq d
  = (Redirect "view_meal_plan" plan_id, fl, d') ->
  exists preferences data plan_json row first entries last,
    generate_meal_plan rq preferences = Py.Ok data
    /\ Py.dumps data = Py.Ok plan_json
    /\ d' = add_plan d row
    /\ MealPlan.id row = plan_id
    /\ MealPlan.meal_plan_data row = Some plan_json
    /\ day_entries data = first :: entries
    /\ hd_error (rev (day_entries data)) = Some last
    /\ entry_date first = Py.Ok (MealPlan.start_date row)
    /\ entry_date last = Py.Ok (MealPlan.end_date row)
    /\ (forall ds,
          map entry_date (day_entries data) = map Py.Ok ds ->
          ascending ds = true ->
          is_min (MealPlan.start_date row) ds
          /\ is_max (MealPlan.end_date row) ds
          /\ Py.date_le (MealPlan.start_date row) (MealPlan.end_date row)).
Proof.
  rewrite serve_generate.
  destruct (current_user rq) as [uid|]; [|discriminate].
  destruct (hd_error _) as [preferences|]; [|discriminate].
  destruct (staged rq uid preferences) as [plan|e] eqn:Hst; [|discriminate].
  destruct (db_fault rq) as [e|]; [discriminate|].
  cbn zeta. intros H. injection H as <- _ <-.
  unfold staged in Hst.
  destruct (generate_meal_plan rq preferences) as [data|] eqn:Hgen;
    [|discriminate].
  cbn [Py.rbind] in Hst.
  destruct (generate_shopping_list rq data) as [lst|]; [|discriminate].
  cbn [Py.rbind] in Hst.
  destruct (first_date data) as [start|] eqn:Hfirst; [|discriminate].
  destruct (last_date data) as [stop|] eqn:Hlast; [|discriminate].
  cbn [Py.rbind] in Hst.
  destruct (Py.dumps data) as [pj|] eqn:Hpj; [|discriminate].
  destruct (Py.dumps lst) as [lj|]; [|discriminate].
  cbn [Py.rbind] in Hst. injection Hst as <-.
  apply first_date_entry in Hfirst as (x & l & Hentries & Hx).
  apply last_date_entry in Hlast as (y & l' & Hrev & Hy).
  exists preferences, data, pj.
  eexists _, x, l, y.
  cbn [db.insert_plan MealPlan.id MealPlan.meal_plan_data
       MealPlan.start_date MealPlan.end_date].
  repeat (split; [first [reflexivity | eassumption
                         | rewrite Hrev; reflexivity]|]).
  intros ds Hds Hasc.
  assert (Hstart : hd_error ds = Some start).
  { rewrite Hentries in Hds. destruct ds as [|s0 ds]; [discriminate|].
    cbn [map] in Hds. injection Hds as Hs _. cbn. congruence. }
  assert (Hstop : hd_error (rev ds) = Some stop).
  { apply (f_equal (@rev _)) in Hds. rewrite <- !map_rev, Hrev in Hds.
    destruct (rev ds) as [|s0 ds']; [discriminate|].
    cbn [map] in Hds. injection Hds as Hs _. cbn. congruence. }
  assert (Hin_start : In start ds)
    by (destruct ds; [discriminate|]; injection Hstart as ->; now left).
  assert (Hin_stop : In stop ds) by now apply rev_head_in.
  assert (Hmin : forall x0, In x0 ds -> Py.date_le start x0).
  { destruct ds as [|s0 ds]; [contradiction|]. injection Hstart as ->.
    intros x0. now apply ascending_first. }
  repeat split; auto.
  intros x0. now apply ascending_last.
Qed.

(** ** The rows after a committed submission *)

Lemma submitted_tables (rq : Request) (uid : Z) (columns : string * string)
    (d : db.DB) :
  let rows := db.meal_preference d in
  let found :=
    hd_error (filter (for_meal uid (MealPreferenceForm.meal_type (form rq)))
                     rows) in
  let preference :=
    assign (form rq) (fst columns) (snd columns)
           (match found with
            | Some p => p
            | None => MealPreference.new uid
            end) in
  let updated := map (db.update_row (utcnow rq) preference) rows in
  db.meal_preference (submitted rq uid columns d)
  = match found, MealPreference.id preference with
    | Some _, Some _ => updated
    | Some _, None =>
        (updated ++ [db.insert_preference (utcnow rq) preference updated])%list
    | None, _ =>
        (rows ++ [db.insert_preference (utcnow rq) preference rows])%list
    end
  /\ db.meal_plan (submitted rq uid columns d) = db.meal_plan d
  /\ db.other_tables (submitted rq uid columns d) = db.other_tables d.
Proof.
  unfold submitted, unit_of_work.
  destruct (hd_error _) as [p|]; cbn [assign MealPreference.id].
  - destruct (MealPreference.id p); repeat split; reflexivity.
  - repeat split; reflexivity.
Qed.

Lemma for_meal_key (uid : Z) (mt : option string) (p : MealPreference.t) :
  for_meal uid mt p = true <-> pref_key p = (uid, mt).
Proof.
  unfold for_meal, owned_by, pref_key.
  rewrite andb_true_iff, Z.eqb_eq, db_facts.opt_str_eqb_eq.
  split; [intros [-> ->]; reflexivity|intros H; injection H; auto].
Qed.

Lemma assign_stores (f : MealPreferenceForm.t) (columns : string * string)
    (p : MealPreference.t) :
  stores (assign f (fst columns) (snd columns) p)
         (MealPreference.user_id p) f columns.
Proof.
  unfold stores, assign. cbn.
  destruct (MealPreferenceForm.preferred_time f); repeat split; reflexivity.
Qed.

Lemma update_row_stores (now uid : Z) (f : MealPreferenceForm.t)
    (columns : string * string) (p' p : MealPreference.t) :
  stores p' uid f columns ->
  MealPreference.user_id p = uid ->
  MealPreference.id p = MealPreference.id p' ->
  stores (db.update_row now p' p) uid f columns.
Proof.
  intros Hst Hu Hid. unfold db.update_row.
  rewrite (proj2 (db_facts.opt_Z_eqb_eq _ _) Hid).
  destruct (db.same_columns p' p) eqn:Hsame.
  - apply db_facts.same_columns_eq in Hsame.
    unfold stores in *. intuition congruence.
  - exact Hst.
Qed.

(** After a committed submission some row holds what was submitted. *)
Lemma submitted_row (rq : Request) (uid : Z) (columns : string * string)
    (d : db.DB) :
  exists row,
    In row (db.meal_preference (submitted rq uid columns d))
    /\ stores row uid (form rq) columns.
Proof.
  destruct (submitted_tables rq uid columns d) as (Hrows & _ & _).
  cbn zeta in Hrows. rewrite Hrows. clear Hrows.
  destruct (hd_error _) as [p|] eqn:Hfound.
  - apply db_facts.hd_filter in Hfound as [Hin Hp].
    apply for_meal_key in Hp. unfold pref_key in Hp. injection Hp as Hu _.
    pose proof (assign_stores (form rq) columns p) as Hst. rewrite Hu in Hst.
    exists (db.update_row (utcnow rq)
              (assign (form rq) (fst columns) (snd columns) p) p).
    split; [|now apply update_row_stores].
    cbn [assign MealPreference.id].
    destruct (MealPreference.id p);
      [|apply in_or_app; left]; now apply in_map.
  - eexists. split; [apply in_or_app; right; now left|].
    pose proof (assign_stores (form rq) columns (MealPreference.new uid)) as Hst.
    unfold stores in *. cbn in *.
    destruct (MealPreferenceForm.preferred_time (form rq)); intuition.
Qed.

(** The rows after a committed submission, against the rows before. *)
Lemma submitted_upsert (rq : Request) (uid : Z) (columns : string * string)
    (d : db.DB) :
  well_keyed MealPreference.id (db.meal_preference d) ->
  one_per_pair (db.meal_preference d) ->
  let rows := db.meal_preference d in
  let rows' := db.meal_preference (submitted rq uid columns d) in
  let pair := (uid, MealPreferenceForm.meal_type (form rq)) in
  one_per_pair rows'
  /\ well_keyed MealPreference.id rows'
  /\ ((In pair (map pref_key rows)
       /\ Forall2
            (fun r r' =>
               MealPreference.id r' = MealPreference.id r
               /\ pref_key r' = pref_key r
               /\ (pref_key r <> pair -> r' = r))
            rows rows')
      \/ (~ In pair (map pref_key rows)
          /\ exists row,
               rows' = (rows ++ [row])%list
               /\ pref_key row = pair
               /\ ~ In (MealPreference.id row) (map MealPreference.id rows))).
Proof.
  intros [Hnd Hkeyed] Hpairs. cbn zeta.
  destruct (submitted_tables rq uid columns d) as (Hrows & _ & _).
  cbn zeta in Hrows. rewrite Hrows. clear Hrows.
  set (rows := db.meal_preference d) in *.
  set (mt := MealPreferenceForm.meal_type (form rq)).
  destruct (hd_error _) as [p|] eqn:Hfound.
  - (* a row for the pair exists: it is updated where it stands *)
    apply db_facts.hd_filter in Hfound as [Hin Hp].
    apply for_meal_key in Hp.
    cbn [assign MealPreference.id].
    destruct (MealPreference.id p) as [i|] eqn:Hid;
      [|exfalso; apply Hkeyed; rewrite <- Hid; now apply in_map].
    set (p' := assign (form rq) (fst columns) (snd columns) p).
    assert (HF : Forall2
      (fun r r' =>
         MealPreference.id r' = MealPreference.id r
         /\ pref_key r' = pref_key r
         /\ (pref_key r <> (uid, mt) -> r' = r))
      rows (map (db.update_row (utcnow rq) p') rows)).
    { apply db_facts.Forall2_map_self. intros x Hx. unfold db.update_row.
      destruct (db.opt_Z_eqb (MealPreference.id x) (MealPreference.id p'))
        eqn:Heq; [|auto].
      apply db_facts.opt_Z_eqb_eq in Heq.
      assert (x = p) as ->
        by (apply (db_facts.NoDup_map_eq MealPreference.id rows); auto).
      destruct (db.same_columns p' p); [auto|].
      split; [reflexivity|]. split; [|intros Hne; now elim Hne].
      rewrite Hp. unfold pref_key in Hp. injection Hp as Hu _.
      unfold pref_key. cbn. rewrite Hu. reflexivity. }
    assert (Hids : map MealPreference.id
                     (map (db.update_row (utcnow rq) p') rows)
                   = map MealPreference.id rows)
      by (apply (db_facts.Forall2_map_eq _ _ _ _ HF); tauto).
    assert (Hkeys : map pref_key (map (db.update_row (utcnow rq) p') rows)
                    = map pref_key rows)
      by (apply (db_facts.Forall2_map_eq _ _ _ _ HF); tauto).
    unfold one_per_pair, well_keyed. rewrite Hids, Hkeys.
    repeat split; auto.
    left. split; [|exact HF].
    rewrite <- Hp. now apply in_map.
  - (* no row for the pair: one is added *)
    assert (Hnew : ~ In (uid, mt) (map pref_key rows)).
    { intros Hin. apply in_map_iff in Hin as (x & Hx & Hin).
      apply for_meal_key in Hx.
      rewrite (db_facts.hd_filter_none _ _ x Hfound Hin) in Hx.
      discriminate. }
    set (row := db.insert_preference (utcnow rq) _ rows).
    assert (Hfresh : ~ In (MealPreference.id row) (map MealPreference.id rows))
      by apply db_facts.next_id_fresh.
    unfold one_per_pair, well_keyed. rewrite !map_app. cbn [map].
    repeat split.
    + now apply db_facts.NoDup_snoc.
    + now apply db_facts.NoDup_snoc.
    + intros Hin. apply in_app_or in Hin as [Hin|[Hin|[]]];
        [contradiction|discriminate].
    + right. split; [exact Hnew|].
      exists row. repeat split. exact Hfresh.
Qed.

(** C4. Upsert.  From a table that holds at most one row per
    (user_id, meal_type), a successful submission leads to a table that
    again holds at most one row per pair, and in which a row holds what
    was submitted.  When a row for the submitted pair exists, the table
    keeps its rows, each with its key and pair, and leaves the rows of
    other pairs as they were; a row is added, with a new key, only when
    no row for the pair exists. *)
Theorem meal_preferences_upsert
    (rq : Request) (d d' : db.DB) (fl : list (string * string)) :
  well_keyed MealPreference.id (db.meal_preference d) ->
  one_per_pair (db.meal_preference d) ->
  serve meal_preferences rq d = (Redirect "meal_preferences" None, fl, d') ->
  one_per_pair (db.meal_preference d')
  /\ well_keyed MealPreference.id (db.meal_preference d')
  /\ exists uid columns,
       current_user rq = Some uid
       /\ ingredient_columns (form rq) = Py.Ok columns
       /\ (exists row,
             In row (db.meal_preference d')
             /\ stores row uid (form rq) columns)
       /\ let pair := (uid, MealPreferenceForm.meal_type (form rq)) in
          ((In pair (map pref_key (db.meal_preference d))
            /\ Forall2
                 (fun r r' =>
                    MealPreference.id r' = MealPreference.id r
                    /\ pref_key r' = pref_key r
                    /\ (pref_key r <> pair -> r' = r))
                 (db.meal_preference d) (db.meal_preference d'))
           \/ (~ In pair (map pref_key (db.meal_preference d))
               /\ exists row,
                    db.meal_preference d'
                    = (db.meal_preference d ++ [row])%list
                    /\ pref_key row = pair
                    /\ ~ In (MealPreference.id row)
                           (map MealPreference.id (db.meal_preference d)))).
Proof.
  intros Hkeyed Hpairs. rewrite serve_meal_preferences.
  destruct (current_user rq) as [uid|]; [|discriminate].
  destruct (validate_on_submit rq); [|discriminate].
  destruct (ingredient_columns (form rq)) as [columns|]; [|discriminate].
  destruct (db_fault rq); [discriminate|].
  intros H. injection H as _ <-.
  destruct (submitted_upsert rq uid columns d Hkeyed Hpairs)
    as (Hpairs' & Hkeyed' & Hcases).
  split; [exact Hpairs'|]. split; [exact Hkeyed'|].
  exists uid, columns. split; [reflexivity|]. split; [reflexivity|].
  split; [apply submitted_row|exact Hcases].
Qed.

Lemma NumberRange_within (lo hi : Z) (c : option Z) :
  MealPreferenceForm.NumberRange lo hi c = true -> within lo hi c.
Proof.
  unfold MealPreferenceForm.NumberRange, within.
  destruct c as [n|]; [|discriminate].
  intros H. exists n. split; [reflexivity|lia].
Qed.

Lemma validate_ranges (f : MealPreferenceForm.t) :
  MealPreferenceForm.validate f = true ->
  MealPreferenceForm.NumberRange 0 2000 (MealPreferenceForm.calories_target f)
  = true
  /\ MealPreferenceForm.NumberRange 0 200 (MealPreferenceForm.protein_target f)
     = true
  /\ MealPreferenceForm.NumberRange 0 300 (MealPreferenceForm.carbs_target f)
     = true
  /\ MealPreferenceForm.NumberRange 0 100 (MealPreferenceForm.fat_target f)
     = true.
Proof.
  unfold MealPreferenceForm.validate. intros H.
  repeat (apply andb_prop in H as [H ?]). auto.
Qed.

(** C5 (amended). A target outside its range (calories 0..2000, protein
    0..200, carbs 0..300, fat 0..100) is refused by the form: the
    submission stores nothing and is not answered with a redirect.  A
    submission that is accepted stores the submitted targets as they
    are, and they lie within the ranges. *)
Theorem out_of_range_rejected (rq : Request) (d : db.DB) :
  (out_of_range (form rq) ->
   snd (serve meal_preferences rq d) = d
   /\ forall endpoint plan_id,
        fst (fst (serve meal_preferences rq d)) <> Redirect endpoint plan_id)
  /\ (forall fl d',
        serve meal_preferences rq d
        = (Redirect "meal_preferences" None, fl, d') ->
        exists uid columns row,
          current_user rq = Some uid
          /\ In row (db.meal_preference d')
          /\ stores row uid (form rq) columns
          /\ targets_within row).
Proof.
  rewrite serve_meal_preferences. split.
  - intros Hout.
    assert (Hv : validate_on_submit rq = false).
    { unfold validate_on_submit.
      destruct (MealPreferenceForm.validate (form rq)) eqn:Hval;
        [|apply andb_false_r].
      apply validate_ranges in Hval as (H1 & H2 & H3 & H4).
      unfold out_of_range in Hout. rewrite H1, H2, H3, H4 in Hout.
      intuition discriminate. }
    rewrite Hv.
    destruct (current_user rq); split; try reflexivity; discriminate.
  - intros fl d'.
    destruct (current_user rq) as [uid|]; [|discriminate].
    destruct (validate_on_submit rq) eqn:Hv; [|discriminate].
    destruct (ingredient_columns (form rq)) as [columns|]; [|discriminate].
    destruct (db_fault rq); [discriminate|].
    intros H. injection H as _ <-.
    destruct (submitted_row rq uid columns d) as (row & Hin & Hst).
    exists uid, columns, row.
    split; [reflexivity|]. split; [assumption|]. split; [assumption|].
    unfold validate_on_submit in Hv. apply andb_prop in Hv as [_ Hv].
    apply validate_ranges in Hv as (H1 & H2 & H3 & H4).
    unfold stores in Hst.
    destruct Hst as (_ & _ & _ & E1 & E2 & E3 & E4 & _).
    unfold targets_within. rewrite E1, E2, E3, E4.
    auto using NumberRange_within.
Qed.

(** C8. [get_meal_plan] and [get_shopping_list] answer an empty dict
    when their column is [None] or the empty string, and what
    [json.loads] makes of the column otherwise. *)
Theorem accessors_default_to_empty (self : MealPlan.t) :
  (MealPlan.meal_plan_data self = None
   \/ MealPlan.meal_plan_data self = Some EmptyString ->
   MealPlan.get_meal_plan self = Py.Ok (Py.VDict []))
  /\ (forall s, MealPlan.meal_plan_data self = Some s -> s <> EmptyString ->
        MealPlan.get_meal_plan self = Py.loads s)
  /\ (MealPlan.shopping_list self = None
      \/ MealPlan.shopping_list self = Some EmptyString ->
      MealPlan.get_shopping_list self = Py.Ok (Py.VDict []))
  /\ (forall s, MealPlan.shopping_list self = Some s -> s <> EmptyString ->
        MealPlan.get_shopping_list self = Py.loads s).
Proof.
  unfold MealPlan.get_meal_plan, MealPlan.get_shopping_list.
  repeat split.
  - intros [->| ->]; reflexivity.
  - intros s -> Hs. destruct s; [now elim Hs|reflexivity].
  - intros [->| ->]; reflexivity.
  - intros s -> Hs. destruct s; [now elim Hs|reflexivity].
Qed.

Lemma ingredients_list_trimmed (field : string) :
  Forall trimmed (ingredients_list field).
Proof.
  unfold ingredients_list. rewrite py_facts.map_filter_comm.
  apply Forall_forall. intros item Hin.
  apply filter_In in Hin as [Hin Hne].
  apply in_map_iff in Hin as (raw & <- & _).
  repeat split.
  - now apply py_facts.nonempty_true.
  - apply py_facts.strip_first.
  - apply py_facts.strip_last.
Qed.

Lemma ingredient_columns_dumps (f : MealPreferenceForm.t)
    (columns : string * string) :
  ingredient_columns f = Py.Ok columns ->
  Py.dumps (Py.VList (map Py.VStr
    (ingredients_list (or_empty (MealPreferenceForm.excluded_ingredients f)))))
  = Py.Ok (fst columns)
  /\ Py.dumps (Py.VList (map Py.VStr
       (ingredients_list (or_empty (MealPreferenceForm.available_ingredients f)))))
     = Py.Ok (snd columns).
Proof.
  unfold ingredient_columns.
  destruct (Py.dumps _) as [ej|]; [|discriminate]. cbn [Py.rbind].
  destruct (Py.dumps _) as [aj|]; [|discriminate]. cbn [Py.rbind].
  intros H. injection H as <-. split; reflexivity.
Qed.

(** C9. The list made of a submitted ingredient field is the field split
    at the commas, each item stripped, the empty items dropped: no item
    is empty or starts or ends with white space, and a missing field
    gives the empty list.  After a successful submission a row of the
    table holds the two lists so made, serialised. *)
Theorem ingredient_lists_clean (rq : Request) (d : db.DB) :
  (forall field,
     ingredients_list field
     = filter Py.nonempty (map Py.strip (Py.split "," field))
     /\ Forall trimmed (ingredients_list field)
     /\ Forall (fun item => Py.strip item = item) (ingredients_list field))
  /\ ingredients_list (or_empty None) = []
  /\ (forall fl d',
        serve meal_preferences rq d
        = (Redirect "meal_preferences" None, fl, d') ->
        exists row excluded available,
          In row (db.meal_preference d')
          /\ MealPreference.excluded_ingredients row = Some excluded
          /\ MealPreference.available_ingredients row = Some available
          /\ Py.dumps (Py.VList (map Py.VStr (ingredients_list (or_empty
                (MealPreferenceForm.excluded_ingredients (form rq))))))
             = Py.Ok excluded
          /\ Py.dumps (Py.VList (map Py.VStr (ingredients_list (or_empty
                (MealPreferenceForm.available_ingredients (form rq))))))
             = Py.Ok available).
Proof.
  split; [|split; [reflexivity|]].
  - intros field. split; [apply py_facts.map_filter_comm|].
    split; [apply ingredients_list_trimmed|].
    unfold ingredients_list. apply Forall_forall. intros item Hin.
    apply in_map_iff in Hin as (raw & <- & _). apply py_facts.strip_idem.
  - intros fl d'. rewrite serve_meal_preferences.
    destruct (current_user rq) as [uid|]; [|discriminate].
    destruct (validate_on_submit rq); [|discriminate].
    destruct (ingredient_columns (form rq)) as [columns|] eqn:Hcol;
      [|discriminate].
    destruct (db_fault rq); [discriminate|].
    intros H. injection H as _ <-.
    destruct (submitted_row rq uid columns d) as (row & Hin & Hst).
    apply ingredient_columns_dumps in Hcol as [He Ha].
    unfold stores in Hst.
    destruct Hst as (_ & _ & _ & _ & _ & _ & _ & E1 & E2 & _).
    exists row, (fst columns), (snd columns). auto.
Qed.

(** ** The [MealPlan] table under every route *)

Lemma view_meal_plan_owner (rq : Request) (d : db.DB) (plan : MealPlan.t)
    (i : Z) :
  NoDup (map MealPlan.id (db.meal_plan d)) ->
  In plan (db.meal_plan d) ->
  MealPlan.id plan = Some i ->
  current_user rq = Some (MealPlan.user_id plan) ->
  serve (view_meal_plan i) rq d
  = (Render "meal_plan/view.html" [("plan", CPlan plan)], [], d).
Proof.
  intros Hnd Hin Hid Hu. unfold view_meal_plan. unfold_handler. rewrite Hu.
  destruct (filter _ _) as [|x t] eqn:Hf.
  - exfalso.
    assert (Hx : In plan (filter (plan_with_id i (MealPlan.user_id plan))
                            (db.meal_plan d))).
    { apply filter_In. split; [exact Hin|]. unfold plan_with_id, plan_of.
      rewrite Hid, Z.eqb_refl. cbn. now rewrite Z.eqb_refl. }
    rewrite Hf in Hx. exact Hx.
  - assert (Hx : In x (filter (plan_with_id i (MealPlan.user_id plan))
                         (db.meal_plan d))) by (rewrite Hf; now left).
    apply filter_In in Hx as [Hx Hp]. unfold plan_with_id in Hp.
    apply andb_prop in Hp as [Hp _]. apply db_facts.opt_Z_eqb_eq in Hp.
    assert (x = plan) as ->
      by (apply (db_facts.NoDup_map_eq MealPlan.id (db.meal_plan d));
          congruence).
    reflexivity.
Qed.

Lemma handle_meal_plan (e : endpoint) (rq : Request) (d : db.DB) :
  db.meal_plan (snd (handle e rq d)) = db.meal_plan d
  \/ exists row,
       e = ep_generate_new_meal_plan
       /\ db.meal_plan (snd (handle e rq d)) = (db.meal_plan d ++ [row])%list
       /\ ~ In (MealPlan.id row) (map MealPlan.id (db.meal_plan d))
       /\ MealPlan.id row <> None
       /\ fst (fst (handle e rq d))
          = Redirect "view_meal_plan" (MealPlan.id row).
Proof.
  unfold handle.
  destruct (MealPreferenceForm.mem (method rq) (methods e));
    [|destruct (String.eqb (method rq) "OPTIONS"); left; reflexivity].
  destruct e; cbn [view_of]; try (left; reflexivity).
  - (* meal_preferences *)
    left. rewrite serve_meal_preferences.
    destruct (current_user rq) as [uid|]; [|reflexivity].
    destruct (validate_on_submit rq); [|reflexivity].
    destruct (ingredient_columns (form rq)) as [columns|]; [|reflexivity].
    destruct (db_fault rq); [reflexivity|].
    apply (submitted_tables rq uid columns d).
  - (* generate_new_meal_plan *)
    rewrite serve_generate.
    destruct (current_user rq) as [uid|]; [|now left].
    destruct (hd_error _) as [preferences|]; [|now left].
    destruct (staged rq uid preferences) as [plan|]; [|now left].
    destruct (db_fault rq); [now left|].
    right. eexists. split; [reflexivity|]. cbn [fst snd add_plan db.meal_plan].
    repeat split.
    + apply db_facts.next_id_fresh.
    + discriminate.
  - (* view_meal_plan *)
    left. unfold view_meal_plan. unfold_handler.
    destruct (current_user rq); [|reflexivity].
    destruct (filter _ _); reflexivity.
  - (* list_meal_plans *)
    left. unfold list_meal_plans. unfold_handler.
    destruct (current_user rq); reflexivity.
Qed.

(** Every route keeps the keys unique and the pairs single. *)
Lemma handle_consistent (e : endpoint) (rq : Request) (d : db.DB) :
  consistent d -> consistent (snd (handle e rq d)).
Proof.
  intros Hd. pose proof Hd as (Hprefs & Hplans & Hpairs). unfold handle.
  destruct (MealPreferenceForm.mem (method rq) (methods e));
    [|destruct (String.eqb (method rq) "OPTIONS"); exact Hd].
  destruct e; cbn [view_of];
    try (unfold other_route; unfold_handler; exact Hd).
  - (* meal_preferences *)
    rewrite serve_meal_preferences.
    destruct (current_user rq) as [uid|]; [|exact Hd].
    destruct (validate_on_submit rq); [|exact Hd].
    destruct (ingredient_columns (form rq)) as [columns|];
      [|exact Hd].
    destruct (db_fault rq); [exact Hd|].
    cbn [snd].
    destruct (submitted_upsert rq uid columns d Hprefs Hpairs)
      as (Hpairs' & Hprefs' & _).
    destruct (submitted_tables rq uid columns d) as (_ & Hsame & _).
    unfold consistent. rewrite Hsame. auto.
  - (* generate_new_meal_plan *)
    rewrite serve_generate.
    destruct (current_user rq) as [uid|]; [|exact Hd].
    destruct (hd_error _) as [preferences|]; [|exact Hd].
    destruct (staged rq uid preferences) as [plan|];
      [|exact Hd].
    destruct (db_fault rq); [exact Hd|].
    cbn [snd]. unfold consistent, add_plan. cbn [db.meal_preference db.meal_plan].
    split; [exact Hprefs|]. split; [|exact Hpairs].
    destruct Hplans as [Hnd Hnone]. unfold well_keyed.
    rewrite map_app. cbn [map]. split.
    + apply db_facts.NoDup_snoc; [exact Hnd|apply db_facts.next_id_fresh].
    + intros Hin. apply in_app_or in Hin as [Hin|[Hin|[]]];
        [contradiction|discriminate].
  - (* view_meal_plan *)
    unfold view_meal_plan. unfold_handler.
    destruct (current_user rq); [|exact Hd].
    destruct (filter _ _); exact Hd.
  - (* list_meal_plans *)
    unfold list_meal_plans. unfold_handler.
    destruct (current_user rq); exact Hd.
Qed.

Lemma run_consistent (reqs : list (endpoint * Request)) (d : db.DB) :
  consistent d -> consistent (run reqs d).
Proof.
  revert d. induction reqs as [|[e rq] reqs IH]; intros d Hd; cbn [run];
    [exact Hd|].
  apply IH. now apply handle_consistent.
Qed.

(** C6. Whatever requests are served, the [MealPlan] rows that were
    stored are still there afterwards, in place and unchanged: the table
    only grows at its end.  A single request either leaves the table as
    it is or, being a generation request, adds one row under a key that
    no stored row carries; a generation request that succeeds does add
    such a row. *)
Theorem meal_plans_append_only
    (reqs : list (endpoint * Request)) (d : db.DB) :
  (exists added, db.meal_plan (run reqs d) = (db.meal_plan d ++ added)%list)
  /\ (forall e rq,
        db.meal_plan (snd (handle e rq d)) = db.meal_plan d
        \/ exists row,
             e = ep_generate_new_meal_plan
             /\ db.meal_plan (snd (handle e rq d))
                = (db.meal_plan d ++ [row])%list
             /\ ~ In (MealPlan.id row) (map MealPlan.id (db.meal_plan d))
             /\ MealPlan.id row <> None
             /\ fst (fst (handle e rq d))
                = Redirect "view_meal_plan" (MealPlan.id row))
  /\ (forall rq plan_id,
        fst (fst (handle ep_generate_new_meal_plan rq d))
        = Redirect "view_meal_plan" plan_id ->
        exists row,
          db.meal_plan (snd (handle ep_generate_new_meal_plan rq d))
          = (db.meal_plan d ++ [row])%list
          /\ MealPlan.id row = plan_id
          /\ plan_id <> None
          /\ ~ In plan_id (map MealPlan.id (db.meal_plan d))).
Proof.
  split; [|split].
  - revert d. induction reqs as [|[e rq] reqs IH]; intros d; cbn [run].
    + exists []. now rewrite app_nil_r.
    + destruct (IH (snd (handle e rq d))) as [added Hadded].
      rewrite Hadded.
      destruct (handle_meal_plan e rq d) as [->|(row & _ & -> & _)].
      * now exists added.
      * exists (row :: added). now rewrite <- app_assoc.
  - intros e rq. apply handle_meal_plan.
  - intros rq plan_id. unfold handle. cbn [methods].
    destruct (MealPreferenceForm.mem (method rq) ["POST"]);
      [|destruct (String.eqb (method rq) "OPTIONS"); discriminate].
    cbn [view_of]. rewrite serve_generate.
    destruct (current_user rq) as [uid|]; [|discriminate].
    destruct (hd_error _) as [preferences|]; [|discriminate].
    destruct (staged rq uid preferences) as [plan|]; [|discriminate].
    destruct (db_fault rq); [discriminate|].
    cbn [fst snd add_plan db.meal_plan]. intros H. injection H as <-.
    eexists. split; [reflexivity|]. split; [reflexivity|].
    split; [discriminate|apply db_facts.next_id_fresh].
Qed.

(** C10 (amended). Generation reads one preference row, the first the
    query finds for the user: two databases that agree on that row and on
    the stored plans get the same answer, the same messages and the same
    plans, whatever other preference rows they hold.  The request is
    answered with the warning to set the preferences first, and a
    redirect to the preferences page, exactly when the user has no
    preference row.  With a row, a redirect to the preferences page is
    the answer of the error handler: a stage raised and its message is
    flashed. *)
Theorem generation_reads_first_preference
    (rq : Request) (uid : Z) (d d2 : db.DB) :
  current_user rq = Some uid ->
  (hd_error (filter (owned_by uid) (db.meal_preference d))
   = hd_error (filter (owned_by uid) (db.meal_preference d2)) ->
   db.meal_plan d = db.meal_plan d2 ->
   fst (serve generate_new_meal_plan rq d)
   = fst (serve generate_new_meal_plan rq d2)
   /\ db.meal_plan (snd (serve generate_new_meal_plan rq d))
      = db.meal_plan (snd (serve generate_new_meal_plan rq d2)))
  /\ (serve generate_new_meal_plan rq d
      = (Redirect "meal_preferences" None,
         [("Please set your meal preferences first", "warning")], d)
      <-> filter (owned_by uid) (db.meal_preference d) = [])
  /\ (forall preferences fl d',
        hd_error (filter (owned_by uid) (db.meal_preference d))
        = Some preferences ->
        serve generate_new_meal_plan rq d
        = (Redirect "meal_preferences" None, fl, d') ->
        d' = d
        /\ exists e,
             (staged rq uid preferences = Py.Raise e \/ db_fault rq = Some e)
             /\ fl = [("Error generating meal plan: " ++ Py.str_exn e,
                       "error")]).
Proof.
  intros Hu. rewrite !serve_generate, Hu. split; [|split].
  - intros <- Hplans.
    destruct (hd_error _) as [preferences|]; [|split; [reflexivity|exact Hplans]].
    destruct (staged rq uid preferences) as [plan|];
      [|split; [reflexivity|exact Hplans]].
    destruct (db_fault rq); [split; [reflexivity|exact Hplans]|].
    cbn [fst snd add_plan db.meal_plan]. rewrite Hplans. split; reflexivity.
  - destruct (filter _ _) as [|preferences rest]; cbn [hd_error];
      [split; reflexivity|].
    split; [|discriminate].
    destruct (staged rq uid preferences) as [plan|];
      [destruct (db_fault rq)|]; intros H; exfalso; discriminate.
  - intros preferences fl d' ->.
    destruct (staged rq uid preferences) as [plan|e];
      [destruct (db_fault rq) as [e|]|]; intros H;
      try discriminate; injection H as <- <-;
      (split; [reflexivity|]); exists e; auto.
Qed.

End WithJson.

End routes_facts.

(* ===================================================================== *)
(** * The properties at sample requests *)
(* ===================================================================== *)

Module checks.

Import models forms flask routes notions samples routes_facts.

#[local] Existing Instance sample_json.

Lemma view_meal_plan_ownership_witness :
  NoDup (map MealPlan.id (db.meal_plan one_user_db))
  /\ In (plan_row 1 1) (db.meal_plan one_user_db)
  /\ current_user get_as_other = Some 2%Z
  /\ serve (view_meal_plan 1) get_as_other one_user_db
     = (Abort 404, [], one_user_db).
Proof.
  assert (Hnd : NoDup (map MealPlan.id (db.meal_plan one_user_db)))
    by (repeat constructor; simpl; tauto).
  assert (Hin : In (plan_row 1 1) (db.meal_plan one_user_db))
    by (simpl; tauto).
  split; [exact Hnd|]. split; [exact Hin|]. split; [reflexivity|].
  apply (proj1 (view_meal_plan_ownership
                  get_as_other one_user_db (plan_row 1 1) 1 1 2
                  Hnd Hin eq_refl eq_refl eq_refl ltac:(lia))).
Defined.

Lemma generate_new_meal_plan_atomic_witness :
  stage_fails (generate_failing "quota") (dinner_row 1 1)
  /\ snd (serve generate_new_meal_plan
            (generate_failing "quota") one_user_db)
     = one_user_db.
Proof.
  assert (Hfail : stage_fails
                    (generate_failing "quota") (dinner_row 1 1))
    by (eapply generation_fails; reflexivity).
  split; [exact Hfail|].
  apply (proj2 (proj2 (proj2
           (generate_new_meal_plan_atomic
              (generate_failing "quota") one_user_db)))
           1%Z (dinner_row 1 1) eq_refl eq_refl Hfail).
Defined.

(** The scenario of the specification: entries dated 2024-01-01 and
    2024-01-03 give these as [start_date] and [end_date]. *)
Lemma generated_plan_dates_witness :
  exists row,
    db.meal_plan (snd (serve generate_new_meal_plan
                         (generate ["2024-01-01"; "2024-01-03"]) one_user_db))
    = (db.meal_plan one_user_db ++ [row])%list
    /\ MealPlan.start_date row = Py.mkdate 2024 1 1
    /\ MealPlan.end_date row = Py.mkdate 2024 1 3.
Proof.
  assert (Hserved :
    serve generate_new_meal_plan
      (generate ["2024-01-01"; "2024-01-03"]) one_user_db
    = (Redirect "view_meal_plan" (Some 2%Z),
       [("Your personalized meal plan has been generated!", "success")],
       snd (serve generate_new_meal_plan
              (generate ["2024-01-01"; "2024-01-03"]) one_user_db)))
    by (vm_compute; reflexivity).
  destruct (generated_plan_dates _ _ _ _ _ Hserved)
    as (preferences & data & plan_json & row & first & entries & last
        & Hgen & _ & Hstore & _ & _ & Hentries & Hlast & Hstart & Hend & _).
  cbn in Hgen. injection Hgen as <-.
  cbn in Hentries. injection Hentries as <- _.
  cbn in Hlast. injection Hlast as <-.
  cbn in Hstart. injection Hstart as Hstart.
  cbn in Hend. injection Hend as Hend.
  exists row. rewrite Hstore, <- Hstart, <- Hend.
  split; [reflexivity|]. split; reflexivity.
Defined.

(** C3, as the specification states it, fails: a plan whose entries are
    dated 2024-01-03 and then 2024-01-01 is stored with the start date
    2024-01-03, which is not the minimum, and the end date 2024-01-01,
    which is not the maximum; the end date precedes the start date. *)
Lemma start_date_not_minimum :
  exists row,
    db.meal_plan (snd (serve generate_new_meal_plan
                         (generate ["2024-01-03"; "2024-01-01"]) one_user_db))
    = (db.meal_plan one_user_db ++ [row])%list
    /\ map entry_date (day_entries (plan_of_days ["2024-01-03"; "2024-01-01"]))
       = map Py.Ok [Py.mkdate 2024 1 3; Py.mkdate 2024 1 1]
    /\ MealPlan.start_date row = Py.mkdate 2024 1 3
    /\ MealPlan.end_date row = Py.mkdate 2024 1 1
    /\ ~ is_min (MealPlan.start_date row)
           [Py.mkdate 2024 1 3; Py.mkdate 2024 1 1]
    /\ ~ is_max (MealPlan.end_date row)
           [Py.mkdate 2024 1 3; Py.mkdate 2024 1 1]
    /\ ~ Py.date_le (MealPlan.start_date row) (MealPlan.end_date row).
Proof.
  eexists. split; [vm_compute; reflexivity|].
  split; [reflexivity|]. split; [reflexivity|]. split; [reflexivity|].
  cbn [MealPlan.start_date MealPlan.end_date].
  split; [|split].
  - intros [_ H]. specialize (H (Py.mkdate 2024 1 1) (or_intror (or_introl eq_refl))).
    discriminate H.
  - intros [_ H]. specialize (H (Py.mkdate 2024 1 3) (or_introl eq_refl)).
    discriminate H.
  - intros H. discriminate H.
Qed.

Lemma meal_preferences_upsert_witness :
  well_keyed MealPreference.id (db.meal_preference one_user_db)
  /\ one_per_pair (db.meal_preference one_user_db)
  /\ one_per_pair
       (db.meal_preference (snd (serve meal_preferences (submit 700) one_user_db))).
Proof.
  assert (Hkeyed : well_keyed MealPreference.id (db.meal_preference one_user_db)).
  { split; [repeat constructor; simpl; tauto|].
    simpl. intros [H|[]]. discriminate H. }
  assert (Hpairs : one_per_pair (db.meal_preference one_user_db))
    by (repeat constructor; simpl; tauto).
  assert (Hserved :
    serve meal_preferences (submit 700) one_user_db
    = (Redirect "meal_preferences" None,
       [("Meal preferences updated successfully!", "success")],
       snd (serve meal_preferences (submit 700) one_user_db)))
    by (vm_compute; reflexivity).
  split; [exact Hkeyed|]. split; [exact Hpairs|].
  exact (proj1 (meal_preferences_upsert _ _ _ _ Hkeyed Hpairs Hserved)).
Defined.

(** C5, as the specification states it, fails: a dinner preference
    submitted with 2500 calories is refused; nothing is stored, and no
    stored row holds 2000. *)
Lemma out_of_range_not_clamped :
  serve meal_preferences (submit 2500) empty_db
  = (preferences_page (submit 2500) 1 empty_db, [], empty_db)
  /\ ~ (exists row,
          In row (db.meal_preference
                    (snd (serve meal_preferences (submit 2500) empty_db)))
          /\ MealPreference.calories_target row = Some 2000%Z).
Proof.
  split; [vm_compute; reflexivity|].
  intros (row & Hin & _). vm_compute in Hin. exact Hin.
Qed.

Lemma out_of_range_rejected_witness :
  out_of_range (form (submit 2500))
  /\ snd (serve meal_preferences (submit 2500) one_user_db) = one_user_db.
Proof.
  assert (Hout : out_of_range (form (submit 2500))) by (left; reflexivity).
  split; [exact Hout|].
  exact (proj1 (proj1 (out_of_range_rejected (submit 2500) one_user_db) Hout)).
Defined.

Lemma meal_plans_append_only_witness :
  exists row,
    db.meal_plan (snd (handle ep_generate_new_meal_plan
                         (generate ["2024-01-01"; "2024-01-03"]) one_user_db))
    = (db.meal_plan one_user_db ++ [row])%list
    /\ MealPlan.id row = Some 2%Z.
Proof.
  assert (Hserved :
    fst (fst (handle ep_generate_new_meal_plan
                (generate ["2024-01-01"; "2024-01-03"]) one_user_db))
    = Redirect "view_meal_plan" (Some 2%Z))
    by (vm_compute; reflexivity).
  destruct (proj2 (proj2 (meal_plans_append_only [] one_user_db)) _ _ Hserved)
    as (row & Hrows & Hid & _).
  exists row. split; assumption.
Defined.

(** C7 on the code: what the user is shown after a failed generation is
    the text of the exception, so two failures show two messages, and
    neither asks to try again. *)
Lemma generation_failure_shows_exception :
  snd (fst (serve generate_new_meal_plan
              (generate_failing "Rate limit reached for gpt-4o") one_user_db))
  = [("Error generating meal plan: Rate limit reached for gpt-4o", "error")]
  /\ snd (fst (serve generate_new_meal_plan
                 (generate_failing "Connection timed out") one_user_db))
     = [("Error generating meal plan: Connection timed out", "error")]
  /\ snd (fst (serve generate_new_meal_plan
                 (generate_failing "Rate limit reached for gpt-4o") one_user_db))
     <> snd (fst (serve generate_new_meal_plan
                    (generate_failing "Connection timed out") one_user_db)).
Proof.
  split; [vm_compute; reflexivity|]. split; [vm_compute; reflexivity|].
  vm_compute. discriminate.
Qed.

Lemma accessors_default_to_empty_witness :
  MealPlan.get_meal_plan
    (MealPlan.mk (Some 1%Z) 1 (Py.mkdate 2024 1 1) (Py.mkdate 2024 1 7)
                 None (Some EmptyString) None)
  = Py.Ok (Py.VDict [])
  /\ MealPlan.get_meal_plan (plan_row 1 1) = Py.loads "{}".
Proof.
  split.
  - apply (proj1 (accessors_default_to_empty
                    (MealPlan.mk (Some 1%Z) 1 (Py.mkdate 2024 1 1)
                       (Py.mkdate 2024 1 7) None (Some EmptyString) None))).
    left. reflexivity.
  - apply (proj1 (proj2 (accessors_default_to_empty (plan_row 1 1))));
      [reflexivity|discriminate].
Defined.

Lemma ingredient_lists_clean_witness :
  ingredients_list " nuts, ,shellfish " = ["nuts"; "shellfish"]
  /\ exists row,
       In row (db.meal_preference
                 (snd (serve meal_preferences (submit 700) one_user_db)))
       /\ MealPreference.excluded_ingredients row
          = Some (sample_dumps (Py.VList [Py.VStr "nuts"; Py.VStr "shellfish"])).
Proof.
  split; [reflexivity|].
  assert (Hserved :
    serve meal_preferences (submit 700) one_user_db
    = (Redirect "meal_preferences" None,
       [("Meal preferences updated successfully!", "success")],
       snd (serve meal_preferences (submit 700) one_user_db)))
    by (vm_compute; reflexivity).
  destruct (proj2 (proj2 (ingredient_lists_clean (submit 700) one_user_db))
              _ _ Hserved)
    as (row & excluded & available & Hin & Hex & _ & Hdumps & _).
  exists row. split; [exact Hin|].
  rewrite Hex. cbn in Hdumps. injection Hdumps as <-. reflexivity.
Defined.

(** C10, as the specification states it, fails: user 1 has a preference
    row, the planner raises, and the request is answered with a redirect
    to the preferences page. *)
Lemma redirect_with_preferences :
  filter (owned_by 1) (db.meal_preference one_user_db) = [dinner_row 1 1]
  /\ serve generate_new_meal_plan (generate_failing "Connection timed out")
           one_user_db
     = (Redirect "meal_preferences" None,
        [("Error generating meal plan: Connection timed out", "error")],
        one_user_db).
Proof. split; vm_compute; reflexivity. Qed.

Lemma generation_reads_first_preference_witness :
  current_user (generate ["2024-01-01"]) = Some 1%Z
  /\ fst (serve generate_new_meal_plan (generate ["2024-01-01"]) one_user_db)
     = fst (serve generate_new_meal_plan (generate ["2024-01-01"])
              (db.mkDB [dinner_row 1 1; dinner_row 2 1; dinner_row 3 2]
                       [plan_row 1 1] [])).
Proof.
  split; [reflexivity|].
  apply (proj1 (generation_reads_first_preference
                  (generate ["2024-01-01"]) 1 one_user_db
                  (db.mkDB [dinner_row 1 1; dinner_row 2 1; dinner_row 3 2]
                           [plan_row 1 1] [])
                  eq_refl));
    reflexivity.
Defined.

End checks.

(* ===================================================================== *)
(** * Further facts about the meal routes *)
(* ===================================================================== *)

Module more_facts.

Import models forms flask routes notions templates more_notions.

Section WithJson.
Context {json : Py.Json}.

Ltac unfold_view :=
  unfold serve, initial, login_required, try_except, bind, ret, lift, ask,
    flash, logger_error, query_first, query_all, first_or_404, session_add,
    session_modified, session_commit, session_rollback;
  cbn [store session flashes log commits].

(** ** [from_json_filter] *)

(** X1. The filter is the accessor made total: on a column that is not the
    empty string it hands the template what [get_meal_plan] returns, or
    an empty dict, with the error logged, where [get_meal_plan] raises;
    a dict goes through unchanged. *)
Theorem from_json_filter_total (self : MealPlan.t) :
  (MealPlan.meal_plan_data self <> Some EmptyString ->
   from_json_filter (column_value (MealPlan.meal_plan_data self))
   = match MealPlan.get_meal_plan self with
     | Py.Ok v => (v, [])
     | Py.Raise e => (Py.VDict [], ["JSON parsing error: " ++ Py.str_exn e])
     end)
  /\ (MealPlan.shopping_list self <> Some EmptyString ->
      from_json_filter (column_value (MealPlan.shopping_list self))
      = match MealPlan.get_shopping_list self with
        | Py.Ok v => (v, [])
        | Py.Raise e => (Py.VDict [], ["JSON parsing error: " ++ Py.str_exn e])
        end)
  /\ (forall items, from_json_filter (Py.VDict items) = (Py.VDict items, [])).
Proof.
  unfold MealPlan.get_meal_plan, MealPlan.get_shopping_list.
  split; [|split; [|reflexivity]].
  - destruct (MealPlan.meal_plan_data self) as [[|c s]|]; cbn;
      [intros H; now elim H| |reflexivity].
    intros _. destruct (Py.loads (String c s)); reflexivity.
  - destruct (MealPlan.shopping_list self) as [[|c s]|]; cbn;
      [intros H; now elim H| |reflexivity].
    intros _. destruct (Py.loads (String c s)); reflexivity.
Qed.

(** ** [list_meal_plans] *)

Lemma insert_desc_perm (p : MealPlan.t) (l : list MealPlan.t) :
  Permutation (insert_desc p l) (p :: l).
Proof.
  induction l as [|q l IH]; cbn [insert_desc]; [reflexivity|].
  destruct (MealPlan.created_at p) as [a|]; [|reflexivity].
  destruct (MealPlan.created_at q) as [b|]; [|reflexivity].
  destruct (a <? b)%Z; [|reflexivity].
  rewrite IH. apply perm_swap.
Qed.

Lemma order_by_created_desc_perm (l : list MealPlan.t) :
  Permutation (order_by_created_desc l) l.
Proof.
  induction l as [|p l IH]; cbn; [reflexivity|].
  rewrite insert_desc_perm. now constructor.
Qed.

Lemma not_older_trans (a b c : MealPlan.t) :
  not_older a b -> not_older b c -> not_older a c.
Proof.
  unfold not_older.
  destruct (MealPlan.created_at a), (MealPlan.created_at b),
    (MealPlan.created_at c); try tauto. lia.
Qed.

Lemma insert_desc_sorted (p : MealPlan.t) (l : list MealPlan.t) :
  MealPlan.created_at p <> None ->
  timestamped l ->
  StronglySorted not_older l ->
  StronglySorted not_older (insert_desc p l).
Proof.
  intros Hp Hl Hs. induction Hs as [|q l Hs IH Hq]; cbn [insert_desc].
  - constructor; constructor.
  - inversion Hl as [|? ? Hq' Hl']; subst.
    destruct (MealPlan.created_at p) as [a|] eqn:Ha; [|now elim Hp].
    destruct (MealPlan.created_at q) as [b|] eqn:Hb; [|now elim Hq'].
    destruct (a <? b)%Z eqn:Hab.
    + constructor; [now apply IH|].
      apply Forall_forall. intros x Hx.
      apply (Permutation_in _ (insert_desc_perm p l)) in Hx.
      destruct Hx as [<-|Hx].
      * unfold not_older. rewrite Ha, Hb. lia.
      * rewrite Forall_forall in Hq. now apply Hq.
    + assert (Hpq : not_older p q)
        by (unfold not_older; rewrite Ha, Hb; lia).
      constructor; [now constructor|].
      constructor; [exact Hpq|].
      apply Forall_forall. intros x Hx. rewrite Forall_forall in Hq.
      exact (not_older_trans _ _ _ Hpq (Hq x Hx)).
Qed.

Lemma order_by_created_desc_sorted (l : list MealPlan.t) :
  timestamped l -> StronglySorted not_older (order_by_created_desc l).
Proof.
  induction l as [|p l IH]; cbn; [constructor|].
  intros Hl. inversion Hl as [|? ? Hp Hl']; subst.
  apply insert_desc_sorted; [exact Hp| |now apply IH].
  apply Forall_forall. intros x Hx.
  apply (Permutation_in _ (order_by_created_desc_perm l)) in Hx.
  unfold timestamped in Hl'. rewrite Forall_forall in Hl'. now apply Hl'.
Qed.

(** X2. The list page shows the requesting user's plans, all of them and
    each once, and no plan of anybody else; when every stored plan has
    its creation time, the newest comes first.  The request changes
    nothing. *)
Theorem list_meal_plans_own_newest_first (rq : Request) (d : db.DB) (uid : Z) :
  current_user rq = Some uid ->
  exists plans,
    serve list_meal_plans rq d
    = (Render "meal_plan/list.html" [("plans", CPlans plans)], [], d)
    /\ Permutation plans (filter (plan_of uid) (db.meal_plan d))
    /\ (forall p, In p plans
                  <-> In p (db.meal_plan d) /\ MealPlan.user_id p = uid)
    /\ (timestamped (db.meal_plan d) -> StronglySorted not_older plans).
Proof.
  intros Hu.
  exists (order_by_created_desc (filter (plan_of uid) (db.meal_plan d))).
  split; [unfold list_meal_plans; unfold_view; now rewrite Hu|].
  split; [apply order_by_created_desc_perm|]. split.
  - intros p. split.
    + intros Hp.
      apply (Permutation_in _ (order_by_created_desc_perm _)) in Hp.
      apply filter_In in Hp as [Hin Hp]. split; [exact Hin|].
      now apply Z.eqb_eq.
    + intros [Hin Hp].
      apply (Permutation_in _ (Permutation_sym (order_by_created_desc_perm _))).
      apply filter_In. split; [exact Hin|]. now apply Z.eqb_eq.
  - intros Ht. apply order_by_created_desc_sorted.
    apply Forall_forall. intros x Hx. apply filter_In in Hx as [Hx _].
    unfold timestamped in Ht. rewrite Forall_forall in Ht. now apply Ht.
Qed.

(** ** [meal_preferences] *)

Lemma filter_map_fixed {A} (q : A -> bool) (f : A -> A) (l : list A) :
  (forall x, In x l -> q (f x) = q x /\ (q x = true -> f x = x)) ->
  filter q (map f l) = filter q l.
Proof.
  induction l as [|a l IH]; cbn [map filter]; [reflexivity|].
  intros H. destruct (H a (or_introl eq_refl)) as [Hq Hfix].
  rewrite Hq, IH by (intros x Hx; apply H; now right).
  destruct (q a); [now rewrite Hfix|reflexivity].
Qed.

Lemma update_row_other (now : Z) (p' p x : MealPreference.t)
    (rows : list MealPreference.t) :
  NoDup (map MealPreference.id rows) ->
  In p rows -> In x rows ->
  MealPreference.id p' = MealPreference.id p ->
  x <> p ->
  db.update_row now p' x = x.
Proof.
  intros Hnd Hp Hx Hid Hne. unfold db.update_row.
  destruct (db.opt_Z_eqb (MealPreference.id x) (MealPreference.id p'))
    eqn:Heq; [|reflexivity].
  apply db_facts.opt_Z_eqb_eq in Heq. exfalso. apply Hne.
  apply (db_facts.NoDup_map_eq MealPreference.id rows); congruence.
Qed.

(** X3. Whatever a user submits to the preferences page, and however the
    request ends, the preference rows of the other users, the meal plans
    and the other tables are as they were. *)
Theorem meal_preferences_leaves_others (rq : Request) (d : db.DB) (uid : Z) :
  current_user rq = Some uid ->
  well_keyed MealPreference.id (db.meal_preference d) ->
  of_others uid (db.meal_preference (snd (serve meal_preferences rq d)))
  = of_others uid (db.meal_preference d)
  /\ db.meal_plan (snd (serve meal_preferences rq d)) = db.meal_plan d
  /\ db.other_tables (snd (serve meal_preferences rq d)) = db.other_tables d.
Proof.
  intros Hu [Hnd Hkeyed]. rewrite routes_facts.serve_meal_preferences, Hu.
  destruct (validate_on_submit rq); [|repeat split].
  destruct (ingredient_columns (form rq)) as [columns|]; [|repeat split].
  destruct (db_fault rq); [repeat split|].
  cbn [snd].
  destruct (routes_facts.submitted_tables rq uid columns d)
    as (Hrows & Hplans & Hothers).
  split; [|split; assumption].
  cbn zeta in Hrows. rewrite Hrows. clear Hrows Hplans Hothers.
  unfold of_others.
  destruct (hd_error _) as [p|] eqn:Hfound.
  - apply db_facts.hd_filter in Hfound as [Hin Hp].
    apply routes_facts.for_meal_key in Hp.
    unfold pref_key in Hp. injection Hp as Howner _.
    cbn [assign MealPreference.id].
    destruct (MealPreference.id p) as [i|] eqn:Hid;
      [|exfalso; apply Hkeyed; rewrite <- Hid; now apply in_map].
    apply filter_map_fixed. intros x Hx.
    destruct (db.opt_Z_eqb (MealPreference.id x) (Some i)) eqn:Heq.
    + apply db_facts.opt_Z_eqb_eq in Heq.
      assert (x = p) as ->
        by (apply (db_facts.NoDup_map_eq MealPreference.id
                     (db.meal_preference d)); congruence).
      assert (Hmine : owned_by uid p = true) by now apply Z.eqb_eq.
      split; [|rewrite Hmine; discriminate].
      unfold db.update_row. cbn [assign MealPreference.id].
      rewrite Hid, (proj2 (db_facts.opt_Z_eqb_eq _ _) eq_refl).
      destruct (db.same_columns _ p); reflexivity.
    + unfold db.update_row. cbn [assign MealPreference.id].
      rewrite Hid, Heq. auto.
  - rewrite filter_app. cbn [filter].
    assert (Hmine : forall now f a b rows,
      owned_by uid (db.insert_preference now
                      (assign f a b (MealPreference.new uid)) rows) = true)
      by (intros; apply Z.eqb_refl).
    rewrite Hmine. apply app_nil_r.
Qed.

(** X4. When the commit of a valid submission fails, the session is rolled
    back and nothing is stored; the user is shown the page with one fixed
    message, and the text of the exception goes to the log only. *)
Theorem meal_preferences_commit_failure
    (rq : Request) (d : db.DB) (uid : Z) (columns : string * string)
    (e : Py.exn) :
  current_user rq = Some uid ->
  validate_on_submit rq = true ->
  ingredient_columns (form rq) = Py.Ok columns ->
  db_fault rq = Some e ->
  meal_preferences rq (initial d)
  = (Py.Ok (preferences_page rq uid d),
     mkSt d db.empty_session
          [("Error updating meal preferences. Please try again.", "error")]
          ["Error updating meal preferences: " ++ Py.str_exn e]
          1).
Proof.
  intros Hu Hv Hcol He.
  unfold meal_preferences, meal_preferences_submit. unfold_view.
  rewrite Hu, Hv. unfold ingredient_columns in Hcol.
  destruct (Py.dumps _) as [ej|]; [|discriminate]. cbn [Py.rbind] in Hcol.
  destruct (Py.dumps _) as [aj|]; [|discriminate]. cbn [Py.rbind] in Hcol.
  destruct (hd_error _) as [p|].
  - cbn [assign MealPreference.id].
    destruct (MealPreference.id p) as [i|]; cbn [truthy_id];
      [destruct (negb (i =? 0)%Z)|];
      cbn [store session flashes log commits]; rewrite He; reflexivity.
  - cbn [assign MealPreference.id MealPreference.new truthy_id
         store session flashes log commits].
    rewrite He. reflexivity.
Qed.

Lemma DB_eq (a b : db.DB) :
  db.meal_preference a = db.meal_preference b ->
  db.meal_plan a = db.meal_plan b ->
  db.other_tables a = db.other_tables b ->
  a = b.
Proof. destruct a, b; cbn; intros; subst; reflexivity. Qed.

Lemma opt_str_eqb_refl (a : option string) : db.opt_str_eqb a a = true.
Proof. now apply db_facts.opt_str_eqb_eq. Qed.

Lemma opt_Z_eqb_refl (a : option Z) : db.opt_Z_eqb a a = true.
Proof. now apply db_facts.opt_Z_eqb_eq. Qed.

Lemma same_columns_touch (now : Z) (f : MealPreferenceForm.t) (a b : string)
    (x y : MealPreference.t) :
  db.same_columns (assign f a b x) (db.touch now (assign f a b y)) = true.
Proof.
  unfold db.same_columns. cbn.
  now rewrite !opt_str_eqb_refl, !opt_Z_eqb_refl, !String.eqb_refl.
Qed.

Lemma same_columns_inserted (now : Z) (f : MealPreferenceForm.t) (a b : string)
    (x y : MealPreference.t) (rows : list MealPreference.t) :
  db.same_columns (assign f a b x)
                  (db.insert_preference now (assign f a b y) rows) = true.
Proof.
  unfold db.same_columns. cbn.
  now rewrite !opt_str_eqb_refl, !opt_Z_eqb_refl, !String.eqb_refl.
Qed.

Lemma filter_map_pres {A} (q : A -> bool) (g : A -> A) (l : list A) :
  (forall x, In x l -> q (g x) = q x) ->
  filter q (map g l) = map g (filter q l).
Proof.
  induction l as [|a l IH]; cbn [map filter]; [reflexivity|].
  intros H. rewrite (H a (or_introl eq_refl)).
  rewrite IH by (intros x Hx; apply H; now right).
  destruct (q a); reflexivity.
Qed.

Lemma hd_error_map {A B} (g : A -> B) (l : list A) :
  hd_error (map g l) = option_map g (hd_error l).
Proof. destruct l; reflexivity. Qed.

Lemma map_fixed {A} (g : A -> A) (l : list A) :
  (forall x, In x l -> g x = x) -> map g l = l.
Proof.
  induction l as [|a l IH]; cbn [map]; [reflexivity|].
  intros H. rewrite (H a (or_introl eq_refl)), IH; [reflexivity|].
  intros x Hx. apply H. now right.
Qed.

(** Submitting again what was just stored finds the row and leaves it. *)
Lemma submitted_again (rq rq2 : Request) (uid : Z)
    (columns : string * string) (d : db.DB) :
  well_keyed MealPreference.id (db.meal_preference d) ->
  form rq2 = form rq ->
  submitted rq2 uid columns (submitted rq uid columns d)
  = submitted rq uid columns d.
Proof.
  intros [Hnd Hkeyed] Hform.
  destruct (routes_facts.submitted_tables rq uid columns d)
    as (Hrows & Hplans & Hothers).
  destruct (routes_facts.submitted_tables rq2 uid columns
              (submitted rq uid columns d)) as (Hrows2 & Hplans2 & Hothers2).
  apply DB_eq; [|assumption|assumption].
  clear Hplans Hothers Hplans2 Hothers2.
  cbn zeta in Hrows, Hrows2. rewrite Hrows2. clear Hrows2. rewrite Hform.
  set (f := form rq) in *. set (mt := MealPreferenceForm.meal_type f) in *.
  set (rows := db.meal_preference d) in *.
  destruct (hd_error (filter (for_meal uid mt) rows)) as [p|] eqn:Hfound.
  - (* the row was updated; it is found again and already holds the columns *)
    destruct (db_facts.hd_filter _ _ _ Hfound) as [Hin Hp].
    cbn [assign MealPreference.id] in Hrows.
    destruct (MealPreference.id p) as [i|] eqn:Hid;
      [|exfalso; apply Hkeyed; rewrite <- Hid; now apply in_map].
    set (p1 := assign f (fst columns) (snd columns) p) in *.
    set (g := db.update_row (utcnow rq) p1) in *.
    assert (Hg : forall x, In x rows -> x <> p -> g x = x).
    { intros x Hx Hne. unfold g.
      apply (update_row_other _ _ p x rows); auto. }
    assert (Hgp : g p = p /\ db.same_columns p1 p = true
                  \/ g p = db.touch (utcnow rq) p1).
    { assert (Hid1 : MealPreference.id p1 = MealPreference.id p)
        by reflexivity.
      unfold g, db.update_row. rewrite Hid1, opt_Z_eqb_refl.
      destruct (db.same_columns p1 p); [left|right]; auto. }
    assert (Hgid : MealPreference.id (g p) = Some i)
      by (destruct Hgp as [[-> _]| ->]; [exact Hid|exact Hid]).
    assert (Hgkey : for_meal uid mt (g p) = true).
    { destruct Hgp as [[-> _]| ->]; [exact Hp|].
      apply routes_facts.for_meal_key. apply routes_facts.for_meal_key in Hp.
      unfold pref_key in *. injection Hp as Hu _. cbn. now rewrite Hu. }
    assert (Hpres : forall x, In x rows ->
                      for_meal uid mt (g x) = for_meal uid mt x).
    { intros x Hx.
      destruct (db.opt_Z_eqb (MealPreference.id x) (Some i)) eqn:Heq.
      - apply db_facts.opt_Z_eqb_eq in Heq.
        assert (x = p) as ->
          by (apply (db_facts.NoDup_map_eq MealPreference.id rows);
              congruence).
        now rewrite Hgkey, Hp.
      - rewrite Hg; [reflexivity|assumption|].
        intros ->. rewrite Hid, opt_Z_eqb_refl in Heq. discriminate. }
    rewrite Hrows, (filter_map_pres _ _ _ Hpres), hd_error_map.
    rewrite Hfound. cbn [option_map assign MealPreference.id]. rewrite Hgid.
    apply map_fixed. intros y Hy.
    apply in_map_iff in Hy as (x & <- & Hx).
    destruct (db.opt_Z_eqb (MealPreference.id x) (Some i)) eqn:Heq.
    + apply db_facts.opt_Z_eqb_eq in Heq.
      assert (x = p) as ->
        by (apply (db_facts.NoDup_map_eq MealPreference.id rows);
            congruence).
      unfold db.update_row at 1. cbn [assign MealPreference.id].
      rewrite Hgid, opt_Z_eqb_refl.
      destruct Hgp as [[Hq Hsame]|Hq]; rewrite Hq.
      * fold p1. now rewrite Hsame.
      * unfold p1. now rewrite same_columns_touch.
    + assert (Hne : x <> p)
        by (intros ->; rewrite Hid, opt_Z_eqb_refl in Heq; discriminate).
      rewrite (Hg x Hx Hne).
      unfold db.update_row. cbn [assign MealPreference.id].
      now rewrite Hgid, Heq.
  - (* a row was added; it is found and already holds the columns *)
    rewrite Hrows. clear Hrows.
    set (ins := db.insert_preference (utcnow rq)
                  (assign f (fst columns) (snd columns)
                          (MealPreference.new uid)) rows).
    assert (Hnone : filter (for_meal uid mt) rows = [])
      by (destruct (filter (for_meal uid mt) rows); [reflexivity|discriminate]).
    assert (Hins : for_meal uid mt ins = true).
    { apply routes_facts.for_meal_key. reflexivity. }
    assert (Hinsid : MealPreference.id ins
                     = Some (db.next_id MealPreference.id rows))
      by reflexivity.
    rewrite filter_app, Hnone. cbn [filter app]. rewrite Hins.
    cbn [hd_error assign MealPreference.id]. rewrite Hinsid.
    rewrite map_app. cbn [map]. f_equal.
    + apply map_fixed. intros x Hx. unfold db.update_row.
      cbn [assign MealPreference.id]. rewrite Hinsid.
      destruct (db.opt_Z_eqb (MealPreference.id x)
                  (Some (db.next_id MealPreference.id rows))) eqn:Heq;
        [|reflexivity].
      apply db_facts.opt_Z_eqb_eq in Heq. exfalso.
      apply (db_facts.next_id_fresh MealPreference.id rows).
      rewrite <- Heq. now apply in_map.
    + f_equal. unfold db.update_row.
      cbn [assign MealPreference.id].
      rewrite Hinsid, opt_Z_eqb_refl.
      unfold ins. now rewrite same_columns_inserted.
Qed.

(** X5. Submitting the same form again, after it was accepted, is accepted
    again and changes nothing in the database, whenever the second
    commit goes through. *)
Theorem meal_preferences_resubmission
    (rq rq2 : Request) (d d' : db.DB) (fl : list (string * string)) :
  well_keyed MealPreference.id (db.meal_preference d) ->
  serve meal_preferences rq d = (Redirect "meal_preferences" None, fl, d') ->
  current_user rq2 = current_user rq ->
  method rq2 = method rq ->
  form rq2 = form rq ->
  db_fault rq2 = None ->
  serve meal_preferences rq2 d' = (Redirect "meal_preferences" None, fl, d').
Proof.
  intros Hkeyed Hfirst Hu Hm Hf Hfault.
  rewrite routes_facts.serve_meal_preferences in *.
  assert (Hv : validate_on_submit rq2 = validate_on_submit rq)
    by (unfold validate_on_submit; now rewrite Hm, Hf).
  rewrite Hu, Hv, Hf, Hfault.
  destruct (current_user rq) as [uid|]; [|discriminate].
  destruct (validate_on_submit rq); [|discriminate].
  destruct (ingredient_columns (form rq)) as [columns|]; [|discriminate].
  destruct (db_fault rq); [discriminate|].
  injection Hfirst as <- <-.
  now rewrite submitted_again.
Qed.

(** ** [generate_new_meal_plan] and [view_meal_plan] *)

Lemma digit_range (c : ascii) (x : Z) :
  Py.digit c = Some x -> (0 <= x <= 9)%Z.
Proof.
  unfold Py.digit.
  destruct ((48 <=? Py.code c) && (Py.code c <=? 57))%N eqn:H; [|discriminate].
  intros E. injection E as <-.
  apply andb_prop in H as [H1 H2].
  apply N.leb_le in H1. apply N.leb_le in H2. lia.
Qed.

Lemma digit_in_range (lo hi : Z) (c : ascii) (x : Z) :
  Py.digit_in lo hi c = Some x -> (lo <= x <= hi)%Z.
Proof.
  unfold Py.digit_in. destruct (Py.digit c) as [d|]; [|discriminate].
  destruct ((lo <=? d) && (d <=? hi))%Z eqn:H; [|discriminate].
  intros E. injection E as <-. lia.
Qed.

Lemma two_chars_in (f g : ascii -> option Z) (s : string) (v : Z)
    (r : string) :
  In (v, r) (Py.two_chars f g s) ->
  exists a b x y, f a = Some x /\ g b = Some y /\ v = (10 * x + y)%Z.
Proof.
  unfold Py.two_chars. destruct s as [|a [|b s]]; try contradiction.
  destruct (f a) as [x|] eqn:Hf; [|contradiction].
  destruct (g b) as [y|] eqn:Hg; [|contradiction].
  intros [E|[]]. injection E as <- _. eauto 8.
Qed.

Lemma one_char_in (f : ascii -> option Z) (s : string) (v : Z) (r : string) :
  In (v, r) (Py.one_char f s) -> exists a, f a = Some v.
Proof.
  unfold Py.one_char. destruct s as [|a s]; [contradiction|].
  destruct (f a) as [x|] eqn:Hf; [|contradiction].
  intros [E|[]]. injection E as <- _. eauto.
Qed.

Lemma alts_m_range (s : string) (m : Z) (r : string) :
  In (m, r) (Py.alts_m s) -> (1 <= m <= 12)%Z.
Proof.
  unfold Py.alts_m. intros H.
  repeat (apply in_app_or in H as [H|H]).
  - apply two_chars_in in H as (a & b & x & y & Hx & Hy & ->).
    apply digit_in_range in Hx, Hy. lia.
  - apply two_chars_in in H as (a & b & x & y & Hx & Hy & ->).
    apply digit_in_range in Hx, Hy. lia.
  - apply one_char_in in H as (a & Hx). apply digit_in_range in Hx. lia.
Qed.

Lemma alts_d_range (s : string) (dd : Z) (r : string) :
  In (dd, r) (Py.alts_d s) -> (1 <= dd <= 31)%Z.
Proof.
  unfold Py.alts_d. intros H.
  repeat (apply in_app_or in H as [H|H]).
  - apply two_chars_in in H as (a & b & x & y & Hx & Hy & ->).
    apply digit_in_range in Hx, Hy. lia.
  - apply two_chars_in in H as (a & b & x & y & Hx & Hy & ->).
    apply digit_in_range in Hx. apply digit_range in Hy. lia.
  - apply two_chars_in in H as (a & b & x & y & Hx & Hy & ->).
    apply digit_in_range in Hx, Hy. lia.
  - apply two_chars_in in H as (a & b & x & y & Hx & Hy & ->).
    apply digit_in_range in Hy. unfold Py.blank in Hx.
    destruct (Ascii.eqb a " "); [|discriminate]. injection Hx as <-. lia.
  - apply one_char_in in H as (a & Hx). apply digit_in_range in Hx. lia.
Qed.

Lemma first_then_dash_in (alts : list (Z * string)) (x : Z) (r' : string) :
  Py.first_then_dash alts = Some (x, r') -> exists r, In (x, r) alts.
Proof.
  induction alts as [|[y r] alts IH]; cbn [Py.first_then_dash];
    [discriminate|].
  destruct (Py.expect_dash r).
  - intros E. injection E as <- _. exists r. now left.
  - intros E. destruct (IH E) as [r0 Hr]. exists r0. now right.
Qed.

Lemma match_Y_range (s : string) (y : Z) (r : string) :
  Py.match_Y s = Some (y, r) -> (0 <= y <= 9999)%Z.
Proof.
  unfold Py.match_Y. destruct s as [|a [|b [|c [|e s]]]]; try discriminate.
  destruct (Py.digit a) as [x1|] eqn:H1; [|discriminate].
  destruct (Py.digit b) as [x2|] eqn:H2; [|discriminate].
  destruct (Py.digit c) as [x3|] eqn:H3; [|discriminate].
  destruct (Py.digit e) as [x4|] eqn:H4; [|discriminate].
  intros E.
  assert (Ey : (1000 * x1 + 100 * x2 + 10 * x3 + x4)%Z = y) by congruence.
  apply digit_range in H1, H2, H3, H4. lia.
Qed.

(** What [strptime] accepts is a date of the calendar. *)
Lemma strptime_date_calendar (s : string) (d : Py.date) :
  Py.strptime_date s = Py.Ok d -> calendar_date d.
Proof.
  unfold Py.strptime_date.
  destruct (Py.match_Y s) as [[y r1]|] eqn:HY; [|discriminate].
  destruct (Py.expect_dash r1) as [r2|]; [|discriminate].
  destruct (Py.first_then_dash (Py.alts_m r2)) as [[m r3]|] eqn:Hm;
    [|discriminate].
  destruct (Py.alts_d r3) as [|[dd rest] t] eqn:Hd; [discriminate|].
  destruct (Py.nonempty rest); [discriminate|].
  destruct (y =? 0)%Z eqn:Hy0; [discriminate|].
  destruct (dd <=? Py.days_in_month y m)%Z eqn:Hdim; [|discriminate].
  intros E. injection E as <-.
  apply match_Y_range in HY.
  apply first_then_dash_in in Hm as [r Hm]. apply alts_m_range in Hm.
  assert (Hdd : (1 <= dd <= 31)%Z)
    by (apply (alts_d_range r3 dd rest); rewrite Hd; now left).
  apply Z.eqb_neq in Hy0. apply Z.leb_le in Hdim.
  unfold calendar_date. cbn [Py.year Py.month Py.day]. lia.
Qed.

Lemma entry_date_calendar (entry : Py.value) (d : Py.date) :
  entry_date entry = Py.Ok d -> calendar_date d.
Proof.
  unfold entry_date.
  destruct (Py.getitem_key entry "date") as [v|]; [|discriminate].
  cbn [Py.rbind]. destruct v; try discriminate.
  apply strptime_date_calendar.
Qed.

(** What a successful generation stored, read off the stages. *)
Lemma generated_row (rq : Request) (d d' : db.DB) (plan_id : option Z)
    (fl : list (string * string)) :
  serve generate_new_meal_plan rq d
  = (Redirect "view_meal_plan" plan_id, fl, d') ->
  exists uid preferences data lst plan_json list_json start stop,
    current_user rq = Some uid
    /\ hd_error (filter (owned_by uid) (db.meal_preference d))
       = Some preferences
    /\ generate_meal_plan rq preferences = Py.Ok data
    /\ generate_shopping_list rq data = Py.Ok lst
    /\ first_date data = Py.Ok start
    /\ last_date data = Py.Ok stop
    /\ Py.dumps data = Py.Ok plan_json
    /\ Py.dumps lst = Py.Ok list_json
    /\ db_fault rq = None
    /\ plan_id = Some (db.next_id MealPlan.id (db.meal_plan d))
    /\ d' = add_plan d
              (MealPlan.mk plan_id uid start stop (Some plan_json)
                           (Some list_json) (Some (utcnow rq))).
Proof.
  rewrite routes_facts.serve_generate.
  destruct (current_user rq) as [uid|]; [|discriminate].
  destruct (hd_error _) as [preferences|] eqn:Hpref; [|discriminate].
  destruct (staged rq uid preferences) as [plan|e] eqn:Hst; [|discriminate].
  destruct (db_fault rq) as [e|]; [discriminate|].
  cbn zeta. intros H. injection H as <- _ <-.
  unfold staged in Hst.
  destruct (generate_meal_plan rq preferences) as [data|] eqn:Hgen;
    [|discriminate].
  cbn [Py.rbind] in Hst.
  destruct (generate_shopping_list rq data) as [lst|] eqn:Hlst;
    [|discriminate].
  cbn [Py.rbind] in Hst.
  destruct (first_date data) as [start|] eqn:Hstart; [|discriminate].
  destruct (last_date data) as [stop|] eqn:Hstop; [|discriminate].
  cbn [Py.rbind] in Hst.
  destruct (Py.dumps data) as [pj|] eqn:Hpj; [|discriminate].
  destruct (Py.dumps lst) as [lj|] eqn:Hlj; [|discriminate].
  cbn [Py.rbind] in Hst. injection Hst as <-.
  exists uid, preferences, data, lst, pj, lj, start, stop.
  repeat split; assumption.
Qed.

(** X6. A plan that gets stored carries two dates of the calendar: years
    1 to 9999, months 1 to 12, and a day the month has in that year. *)
Theorem generated_plan_calendar_dates
    (rq : Request) (d d' : db.DB) (plan_id : option Z)
    (fl : list (string * string)) :
  serve generate_new_meal_plan rq d
  = (Redirect "view_meal_plan" plan_id, fl, d') ->
  exists row,
    d' = add_plan d row
    /\ calendar_date (MealPlan.start_date row)
    /\ calendar_date (MealPlan.end_date row).
Proof.
  intros H.
  destruct (generated_row _ _ _ _ _ H)
    as (uid & preferences & data & lst & pj & lj & start & stop
        & _ & _ & _ & _ & Hfirst & Hlast & _ & _ & _ & _ & ->).
  eexists. split; [reflexivity|]. cbn [MealPlan.start_date MealPlan.end_date].
  apply routes_facts.first_date_entry in Hfirst as (x & l & _ & Hx).
  apply routes_facts.last_date_entry in Hlast as (y & l' & _ & Hy).
  split; eauto using entry_date_calendar.
Qed.

(** X7. The redirect of a successful generation leads to the plan just
    stored: [view_meal_plan] under the returned id renders, for the user
    who generated it, the row that holds the serialised plan of the
    planner, and answers 404 to everybody else. *)
Theorem generated_plan_is_viewable
    (rq : Request) (d d' : db.DB) (plan_id : Z)
    (fl : list (string * string)) :
  serve generate_new_meal_plan rq d
  = (Redirect "view_meal_plan" (Some plan_id), fl, d') ->
  exists uid preferences data plan_json row,
    current_user rq = Some uid
    /\ hd_error (filter (owned_by uid) (db.meal_preference d))
       = Some preferences
    /\ generate_meal_plan rq preferences = Py.Ok data
    /\ Py.dumps data = Py.Ok plan_json
    /\ MealPlan.meal_plan_data row = Some plan_json
    /\ MealPlan.id row = Some plan_id
    /\ MealPlan.user_id row = uid
    /\ (forall rq2,
          current_user rq2 = Some uid ->
          serve (view_meal_plan plan_id) rq2 d'
          = (Render "meal_plan/view.html" [("plan", CPlan row)], [], d'))
    /\ (forall rq2 other,
          current_user rq2 = Some other -> other <> uid ->
          serve (view_meal_plan plan_id) rq2 d' = (Abort 404, [], d')).
Proof.
  intros H.
  destruct (generated_row _ _ _ _ _ H)
    as (uid & preferences & data & lst & pj & lj & start & stop
        & Hu & Hpref & Hgen & _ & _ & _ & Hpj & _ & _ & Hid & ->).
  injection Hid as ->.
  set (row := MealPlan.mk _ uid start stop (Some pj) (Some lj) _).
  exists uid, preferences, data, pj, row.
  repeat (split; [first [assumption|reflexivity]|]).
  assert (Hold : forall who,
    filter (plan_with_id (db.next_id MealPlan.id (db.meal_plan d)) who)
           (db.meal_plan d) = []).
  { intros who. apply db_facts.filter_none. intros x Hx. unfold plan_with_id.
    destruct (db.opt_Z_eqb (MealPlan.id x) _) eqn:Heq; [|reflexivity].
    apply db_facts.opt_Z_eqb_eq in Heq. exfalso.
    apply (db_facts.next_id_fresh MealPlan.id (db.meal_plan d)).
    rewrite <- Heq. now apply in_map. }
  split.
  - intros rq2 Hu2. unfold view_meal_plan. unfold_view. rewrite Hu2.
    cbn [add_plan db.meal_plan]. rewrite filter_app, Hold. cbn [filter app].
    unfold plan_with_id at 1, plan_of. cbn [row MealPlan.id MealPlan.user_id].
    now rewrite opt_Z_eqb_refl, Z.eqb_refl.
  - intros rq2 other Hu2 Hne. unfold view_meal_plan. unfold_view. rewrite Hu2.
    cbn [add_plan db.meal_plan]. rewrite filter_app, Hold. cbn [filter app].
    unfold plan_with_id at 1, plan_of. cbn [row MealPlan.id MealPlan.user_id].
    rewrite opt_Z_eqb_refl.
    assert (Hneq : (uid =? other)%Z = false) by (apply Z.eqb_neq; congruence).
    now rewrite Hneq.
Qed.

(** ** What changes the meal tables *)

Lemma mem_post (m : string) :
  MealPreferenceForm.mem m ["POST"] = true -> m = "POST".
Proof.
  unfold MealPreferenceForm.mem. cbn [existsb]. rewrite orb_false_r.
  apply String.eqb_eq.
Qed.

Lemma submit_method (rq : Request) :
  MealPreferenceForm.mem (method rq) ["GET"; "HEAD"; "POST"] = true ->
  validate_on_submit rq = true ->
  method rq = "POST" /\ MealPreferenceForm.validate (form rq) = true.
Proof.
  unfold validate_on_submit, MealPreferenceForm.mem. cbn [existsb].
  intros Hm Hv. apply andb_prop in Hv as [Hs Hv]. split; [|exact Hv].
  destruct (String.eqb_spec (method rq) "POST") as [E|_]; [exact E|].
  destruct (String.eqb_spec (method rq) "GET") as [E|_];
    [rewrite E in Hs; discriminate|].
  destruct (String.eqb_spec (method rq) "HEAD") as [E|_];
    [rewrite E in Hs; discriminate|].
  discriminate.
Qed.

(** X8. The [MealPlan] table changes only through an authenticated POST to
    the generation route by a user who has a preference row, when every
    stage and the commit succeed; the [MealPreference] table changes only
    through an authenticated POST of a valid form to the preferences
    route, when the commit succeeds.  No other route, method or outcome
    changes either table. *)
Theorem meal_tables_change_only_by (e : endpoint) (rq : Request) (d : db.DB) :
  (db.meal_plan (snd (handle e rq d)) <> db.meal_plan d ->
   e = ep_generate_new_meal_plan
   /\ method rq = "POST"
   /\ db_fault rq = None
   /\ exists uid preferences plan,
        current_user rq = Some uid
        /\ hd_error (filter (owned_by uid) (db.meal_preference d))
           = Some preferences
        /\ staged rq uid preferences = Py.Ok plan)
  /\ (db.meal_preference (snd (handle e rq d)) <> db.meal_preference d ->
      e = ep_meal_preferences
      /\ method rq = "POST"
      /\ db_fault rq = None
      /\ MealPreferenceForm.validate (form rq) = true
      /\ exists uid, current_user rq = Some uid).
Proof.
  unfold handle.
  destruct (MealPreferenceForm.mem (method rq) (methods e)) eqn:Hmem;
    [|destruct (String.eqb (method rq) "OPTIONS");
      split; intros H; now elim H].
  destruct e; cbn [view_of methods] in *;
    try (split; intros H; now elim H).
  - (* meal_preferences *)
    rewrite routes_facts.serve_meal_preferences.
    destruct (current_user rq) as [uid|];
      [|split; intros H; now elim H].
    destruct (validate_on_submit rq) eqn:Hv;
      [|split; intros H; now elim H].
    destruct (ingredient_columns (form rq)) as [columns|];
      [|split; intros H; now elim H].
    destruct (db_fault rq); [split; intros H; now elim H|].
    cbn [snd].
    destruct (routes_facts.submitted_tables rq uid columns d)
      as (_ & Hplans & _).
    split; [intros H; now elim H|]. intros _.
    destruct (submit_method rq Hmem Hv) as [Hpost Hvalid].
    repeat split; eauto.
  - (* generate_new_meal_plan *)
    rewrite routes_facts.serve_generate.
    destruct (current_user rq) as [uid|];
      [|split; intros H; now elim H].
    destruct (hd_error _) as [preferences|] eqn:Hpref;
      [|split; intros H; now elim H].
    destruct (staged rq uid preferences) as [plan|] eqn:Hst;
      [|split; intros H; now elim H].
    destruct (db_fault rq); [split; intros H; now elim H|].
    split; [|intros H; now elim H]. intros _.
    apply mem_post in Hmem.
    split; [reflexivity|]. split; [exact Hmem|]. split; [reflexivity|].
    exists uid, preferences, plan. auto.
  - (* view_meal_plan *)
    unfold view_meal_plan. unfold_view.
    destruct (current_user rq); [|split; intros H; now elim H].
    destruct (filter _ _); split; intros H; now elim H.
  - (* list_meal_plans *)
    unfold list_meal_plans. unfold_view.
    destruct (current_user rq); split; intros H; now elim H.
Qed.

(** ** What an accepted submission stores *)

Lemma valid_choice_in (choices : list string) (data : option string) :
  MealPreferenceForm.valid_choice choices data = true ->
  exists s, data = Some s /\ In s choices.
Proof.
  unfold MealPreferenceForm.valid_choice, MealPreferenceForm.mem.
  destruct data as [s|]; [|discriminate].
  intros H. apply existsb_exists in H as (x & Hx & Heq).
  apply String.eqb_eq in Heq. subst. eauto.
Qed.

(** X9. An accepted submission stores a meal type that is one of the four
    choices, a cuisine that is one of the nine, and a time of five
    characters: each fits its column, [String(20)], [String(50)] and
    [String(5)]. *)
Theorem accepted_submission_fits_columns
    (rq : Request) (d d' : db.DB) (fl : list (string * string)) :
  serve meal_preferences rq d = (Redirect "meal_preferences" None, fl, d') ->
  exists row meal cuisine time,
    In row (db.meal_preference d')
    /\ MealPreference.meal_type row = Some meal
    /\ In meal MealPreferenceForm.meal_type_choices
    /\ MealPreference.preferred_cuisine row = Some cuisine
    /\ In cuisine MealPreferenceForm.preferred_cuisine_choices
    /\ MealPreference.preferred_time row = Some time
    /\ String.length time = 5%nat
    /\ fits 20 (MealPreference.meal_type row)
    /\ fits 50 (MealPreference.preferred_cuisine row)
    /\ fits 5 (MealPreference.preferred_time row).
Proof.
  rewrite routes_facts.serve_meal_preferences.
  destruct (current_user rq) as [uid|]; [|discriminate].
  destruct (validate_on_submit rq) eqn:Hv; [|discriminate].
  destruct (ingredient_columns (form rq)) as [columns|]; [|discriminate].
  destruct (db_fault rq); [discriminate|].
  intros H. injection H as _ <-.
  destruct (routes_facts.submitted_row rq uid columns d) as (row & Hin & Hst).
  unfold stores in Hst.
  destruct Hst as (_ & Hmt & Htime & _ & _ & _ & _ & _ & _ & Hcu).
  unfold validate_on_submit in Hv. apply andb_prop in Hv as [_ Hv].
  unfold MealPreferenceForm.validate in Hv.
  repeat match goal with
         | K : (_ && _)%bool = true |- _ => apply andb_prop in K as [? ?]
         end.
  match goal with
  | K : MealPreferenceForm.valid_choice
          MealPreferenceForm.meal_type_choices _ = true |- _ =>
      apply valid_choice_in in K as (meal & Emeal & Hmeal)
  end.
  match goal with
  | K : MealPreferenceForm.valid_choice
          MealPreferenceForm.preferred_cuisine_choices _ = true |- _ =>
      apply valid_choice_in in K as (cuisine & Ecu & Hcuisine)
  end.
  match goal with
  | K : MealPreferenceForm.DataRequired_time _ = true |- _ =>
      unfold MealPreferenceForm.DataRequired_time in K;
      destruct (MealPreferenceForm.preferred_time (form rq)) as [t|];
      [clear K|discriminate K]
  end.
  rewrite Emeal in Hmt. rewrite Ecu in Hcu. cbn [option_map] in Htime.
  exists row, meal, cuisine, (Py.strftime_HM t).
  rewrite Hmt, Hcu, Htime. cbn [fits].
  repeat (split; [first [assumption|reflexivity]|]).
  split; [|split; [|apply Nat.le_refl]].
  - cbn in Hmeal. intuition (subst; cbn; lia).
  - cbn in Hcuisine. intuition (subst; cbn; lia).
Qed.

End WithJson.

End more_facts.

(* ===================================================================== *)
(** * Facts about the configuration *)
(* ===================================================================== *)

Module app_facts.

Import app.

Lemma prefix_split (p s : string) :
  String.prefix p s = true -> s = p ++ skip (String.length p) s.
Proof.
  revert s. induction p as [|a p IH]; intros s; [reflexivity|].
  destruct s as [|b s]; cbn; [discriminate|].
  destruct (Ascii.ascii_dec a b) as [<-|]; [|discriminate].
  intros H. now rewrite <- IH.
Qed.

Lemma skip_append (p s : string) : skip (String.length p) (p ++ s) = s.
Proof. induction p as [|a p IH]; cbn; [reflexivity|exact IH]. Qed.

Lemma prefix_append (p s : string) : String.prefix p (p ++ s) = true.
Proof.
  induction p as [|a p IH]; cbn; [now destruct s|].
  destruct (Ascii.ascii_dec a a); cbv iota; [exact IH|contradiction].
Qed.

(** X10. [create_app] refuses to start without a non-empty SESSION_SECRET
    and, that given, without a non-empty DATABASE_URL.  Otherwise the
    database URI is the URL, with a leading [postgres://] rewritten once
    to [postgresql://] and everything after it kept as it is; the URI
    never starts with [postgres://], and a URL that does not is taken
    unchanged. *)
Theorem create_app_database_uri (environ : string -> option string) :
  (set_and_not_empty (environ "SESSION_SECRET") = None ->
   create_app_config environ
   = RuntimeError "SESSION_SECRET environment variable is required!")
  /\ (forall secret,
        set_and_not_empty (environ "SESSION_SECRET") = Some secret ->
        set_and_not_empty (environ "DATABASE_URL") = None ->
        create_app_config environ
        = RuntimeError "DATABASE_URL environment variable is required!")
  /\ (forall secret url,
        set_and_not_empty (environ "SESSION_SECRET") = Some secret ->
        set_and_not_empty (environ "DATABASE_URL") = Some url ->
        exists uri,
          create_app_config environ = Configured (mkConfig secret uri false)
          /\ String.prefix "postgres://" uri = false
          /\ (forall rest, url = "postgres://" ++ rest ->
                           uri = "postgresql://" ++ rest)
          /\ (String.prefix "postgres://" url = false -> uri = url)).
Proof.
  unfold create_app_config. split; [|split].
  - intros ->. reflexivity.
  - intros secret -> ->. reflexivity.
  - intros secret url -> ->.
    destruct (String.prefix "postgres://" url) eqn:Hp.
    + pose proof (prefix_split _ _ Hp) as Hurl.
      set (rest := skip (String.length "postgres://") url) in *.
      exists ("postgresql://" ++ rest). rewrite Hurl.
      assert (Hrep : replace_first "postgres://" "postgresql://"
                       ("postgres://" ++ rest) = "postgresql://" ++ rest).
      { change ("postgres://" ++ rest)
          with (String "p" ("ostgres://" ++ rest)).
        cbn [replace_first].
        change (String "p" ("ostgres://" ++ rest))
          with ("postgres://" ++ rest).
        now rewrite prefix_append, skip_append. }
      rewrite Hrep. split; [reflexivity|]. split.
      * reflexivity.
      * split; [|discriminate].
        intros rest' E.
        apply (f_equal (skip (String.length "postgres://"))) in E.
        rewrite !skip_append in E. now rewrite <- E.
    + exists url. split; [reflexivity|]. split; [exact Hp|].
      split; [|reflexivity].
      intros rest E. rewrite E, prefix_append in Hp. discriminate.
Qed.

End app_facts.

(* ===================================================================== *)
(** * Facts about the accounts, plans and workouts *)
(* ===================================================================== *)

Module site_facts.

Import site site_routes site_notions.

Section WithJson.
Context {json : Py.Json}.

Ltac unfold_site :=
  unfold serve, initial, login_required, current_user, try_except, bind, ret,
    lift, ask, flash, logger_error, query_first, query_all, session_add,
    session_commit, session_rollback, login_user, logout_user;
  cbn [store pending flashes log logged_in].

Lemma anonymous_current (rq : Request) (d : Tables) :
  anonymous rq d ->
  match user_id rq with
  | Some id => load_user id d
  | None => None
  end = None.
Proof. unfold anonymous. destruct (user_id rq); auto. Qed.

(** ** [register] *)

(** What [register] answers and leaves behind. *)
Lemma serve_register (rq : Request) (d : Tables) :
  anonymous rq d ->
  serve register rq d =
  if is_submitted rq && RegistrationForm.validate rq then
    match form_get "username" (form rq), form_get "email" (form rq),
          form_get "password" (form rq) with
    | Some username, Some email, Some password =>
        match hd_error (filter (named username) (user d)) with
        | Some _ =>
            (Render "register.html" [("form", CForm)],
             mkSt d []
               [("Username already exists. Please choose a different one.",
                 "error")] [] (user_id rq))
        | None =>
            match hd_error (filter (with_email email) (user d)) with
            | Some _ =>
                (Render "register.html" [("form", CForm)],
                 mkSt d []
                   [("Email already registered. Please use a different email.",
                     "error")] [] (user_id rq))
            | None =>
                match db_fault rq with
                | Some e =>
                    (Render "register.html" [("form", CForm)],
                     mkSt d []
                       [("An error occurred during registration. Please try again.",
                         "error")]
                       ["Registration error: " ++ Py.str_exn e] (user_id rq))
                | None =>
                    let u :=
                      User.mk (Some (db.next_id User.id (user d))) username
                        email (Some (generate_password_hash rq password))
                        (Some false) None (Some (utcnow rq)) in
                    (Redirect "questionnaire",
                     mkSt (mkTables (user d ++ [u]) (wellness_profile d)
                             (wellness_plan d) (workout_log d)
                             (exercise_progress d))
                       []
                       [("Registration successful! Welcome to AI Wellness Planner.",
                         "success")] [] (User.id u))
                end
            end
        end
    | _, _, _ =>
        (Render "register.html" [("form", CForm)],
         mkSt d []
           [("An error occurred during registration. Please try again.",
             "error")]
           ["Registration error: "
            ++ Py.str_exn (AttributeError "NoneType" "encode")] (user_id rq))
    end
  else (Render "register.html" [("form", CForm)], idle rq d).
Proof.
  intros Hanon. apply anonymous_current in Hanon.
  unfold register, register_submit. unfold_site. rewrite Hanon.
  destruct (is_submitted rq && RegistrationForm.validate rq); [|reflexivity].
  destruct (form_get "username" (form rq)) as [username|]; [|reflexivity].
  destruct (form_get "email" (form rq)) as [email|]; [|reflexivity].
  destruct (form_get "password" (form rq)) as [password|]; [|reflexivity].
  cbn [store pending flashes log logged_in].
  destruct (hd_error (filter (named username) (user d))); [reflexivity|].
  cbn [store pending flashes log logged_in].
  destruct (hd_error (filter (with_email email) (user d))); [reflexivity|].
  cbn [store pending flashes log logged_in].
  destruct (db_fault rq); reflexivity.
Qed.

Lemma serve_register_logged_in (rq : Request) (d : Tables) (id : Z)
    (u : User.t) :
  user_id rq = Some id -> load_user id d = Some u ->
  serve register rq d = (Redirect "dashboard", idle rq d).
Proof.
  intros Hid Hload. unfold register, idle. unfold_site.
  now rewrite Hid, Hload.
Qed.

Lemma not_named (username : string) (users : list User.t) :
  hd_error (filter (named username) users) = None ->
  ~ In username (map User.username users).
Proof.
  intros Hnone Hin. apply in_map_iff in Hin as (x & Hx & Hin).
  pose proof (db_facts.hd_filter_none _ _ x Hnone Hin) as H.
  unfold named in H. rewrite Hx, String.eqb_refl in H. discriminate.
Qed.

Lemma not_with_email (email : string) (users : list User.t) :
  hd_error (filter (with_email email) users) = None ->
  ~ In email (map User.email users).
Proof.
  intros Hnone Hin. apply in_map_iff in Hin as (x & Hx & Hin).
  pose proof (db_facts.hd_filter_none _ _ x Hnone Hin) as H.
  unfold with_email in H. rewrite Hx, String.eqb_refl in H. discriminate.
Qed.

(** X11. [register] keeps user names and e-mail addresses unique without
    help from the database: from a table without duplicates it leads to
    one without duplicates, in which the accounts that existed are
    unchanged; the other tables are not touched. *)
Theorem register_keeps_accounts_unique (rq : Request) (d : Tables) :
  NoDup (map User.username (user d)) ->
  NoDup (map User.email (user d)) ->
  NoDup (map User.username (user (store (snd (serve register rq d)))))
  /\ NoDup (map User.email (user (store (snd (serve register rq d)))))
  /\ (exists added,
        user (store (snd (serve register rq d))) = (user d ++ added)%list)
  /\ same_but_users (store (snd (serve register rq d))) d.
Proof.
  intros Hnames Hmails.
  assert (Hsame : forall resp fl lg who,
    let st := mkSt d [] fl lg who in
    NoDup (map User.username (user (store (snd (resp : response, st)))))
    /\ NoDup (map User.email (user (store (snd (resp, st)))))
    /\ (exists added,
          user (store (snd (resp, st))) = (user d ++ added)%list)
    /\ same_but_users (store (snd (resp, st))) d).
  { intros. cbn. repeat split; try assumption.
    exists []. now rewrite app_nil_r. }
  destruct (user_id rq) as [id|] eqn:Hid;
    [destruct (load_user id d) as [u|] eqn:Hload|].
  - rewrite (serve_register_logged_in rq d id u Hid Hload). apply Hsame.
  - rewrite serve_register by (unfold anonymous; now rewrite Hid).
    destruct (is_submitted rq && RegistrationForm.validate rq);
      [|apply Hsame].
    destruct (form_get "username" (form rq)) as [username|]; [|apply Hsame].
    destruct (form_get "email" (form rq)) as [email|]; [|apply Hsame].
    destruct (form_get "password" (form rq)) as [password|]; [|apply Hsame].
    destruct (hd_error (filter (named username) (user d))) eqn:Hn;
      [apply Hsame|].
    destruct (hd_error (filter (with_email email) (user d))) eqn:He;
      [apply Hsame|].
    destruct (db_fault rq); [apply Hsame|].
    cbn. rewrite !map_app. cbn [map User.username User.email].
    repeat split.
    + apply db_facts.NoDup_snoc; [exact Hnames|now apply not_named].
    + apply db_facts.NoDup_snoc; [exact Hmails|now apply not_with_email].
    + eexists. reflexivity.
  - rewrite serve_register by (unfold anonymous; now rewrite Hid).
    destruct (is_submitted rq && RegistrationForm.validate rq);
      [|apply Hsame].
    destruct (form_get "username" (form rq)) as [username|]; [|apply Hsame].
    destruct (form_get "email" (form rq)) as [email|]; [|apply Hsame].
    destruct (form_get "password" (form rq)) as [password|]; [|apply Hsame].
    destruct (hd_error (filter (named username) (user d))) eqn:Hn;
      [apply Hsame|].
    destruct (hd_error (filter (with_email email) (user d))) eqn:He;
      [apply Hsame|].
    destruct (db_fault rq); [apply Hsame|].
    cbn. rewrite !map_app. cbn [map User.username User.email].
    repeat split.
    + apply db_facts.NoDup_snoc; [exact Hnames|now apply not_named].
    + apply db_facts.NoDup_snoc; [exact Hmails|now apply not_with_email].
    + eexists. reflexivity.
Qed.

Lemma Length_bounds (min : nat) (max : option nat) (s : string) :
  Length min max (Some s) = true ->
  (min <= String.length s)%nat
  /\ match max with
     | Some m => (String.length s <= m)%nat
     | None => True
     end.
Proof.
  unfold Length. intros H. apply andb_prop in H as [H1 H2].
  apply Nat.leb_le in H1. split; [exact H1|].
  destruct max; [now apply Nat.leb_le|exact I].
Qed.

(** What a registration that succeeded went through and left behind. *)
Lemma register_stored (rq : Request) (d : Tables) (st : St) :
  serve register rq d = (Redirect "questionnaire", st) ->
  exists username email password,
    form_get "username" (form rq) = Some username
    /\ form_get "email" (form rq) = Some email
    /\ form_get "password" (form rq) = Some password
    /\ RegistrationForm.validate rq = true
    /\ hd_error (filter (named username) (user d)) = None
    /\ hd_error (filter (with_email email) (user d)) = None
    /\ st = mkSt (mkTables
                    (user d
                     ++ [User.mk (Some (db.next_id User.id (user d)))
                           username email
                           (Some (generate_password_hash rq password))
                           (Some false) None (Some (utcnow rq))])
                    (wellness_profile d) (wellness_plan d) (workout_log d)
                    (exercise_progress d))
                 []
                 [("Registration successful! Welcome to AI Wellness Planner.",
                   "success")] []
                 (Some (db.next_id User.id (user d))).
Proof.
  destruct (user_id rq) as [id|] eqn:Hid;
    [destruct (load_user id d) as [u0|] eqn:Hload|].
  1: { rewrite (serve_register_logged_in rq d id u0 Hid Hload).
       discriminate. }
  all: rewrite serve_register by (unfold anonymous; now rewrite Hid).
  all: destruct (is_submitted rq && RegistrationForm.validate rq) eqn:Hv;
    [|discriminate].
  all: destruct (form_get "username" (form rq)) as [username|] eqn:Eu;
    [|discriminate].
  all: destruct (form_get "email" (form rq)) as [email|] eqn:Ee;
    [|destruct (form_get "password" (form rq)); discriminate].
  all: destruct (form_get "password" (form rq)) as [password|] eqn:Ep;
    [|discriminate].
  all: destruct (hd_error (filter (named username) (user d))) eqn:Hn;
    [discriminate|].
  all: destruct (hd_error (filter (with_email email) (user d))) eqn:He;
    [discriminate|].
  all: destruct (db_fault rq); [discriminate|].
  all: cbn zeta; intros H; injection H as <-.
  all: apply andb_prop in Hv as [_ Hv].
  all: do 3 eexists; repeat (split; [first [reflexivity|eassumption]|]).
  all: reflexivity.
Qed.

(** X12. A registration that succeeds stores one new account: the submitted
    user name, of 3 to 50 characters and carried by no earlier account;
    the submitted e-mail address, accepted by the validator and carried
    by no earlier account; the hash of the submitted password, which has
    at least 6 characters and was typed twice, never the password
    itself; no subscription.  The new user is logged in. *)
Theorem register_success (rq : Request) (d : Tables) (st : St) :
  serve register rq d = (Redirect "questionnaire", st) ->
  exists username email password u,
    form_get "username" (form rq) = Some username
    /\ form_get "email" (form rq) = Some email
    /\ form_get "password" (form rq) = Some password
    /\ form_get "confirm_password" (form rq) = Some password
    /\ user (store st) = (user d ++ [u])%list
    /\ User.username u = username
    /\ User.email u = email
    /\ User.password_hash u = Some (generate_password_hash rq password)
    /\ User.subscription_active u = Some false
    /\ User.id u = Some (db.next_id User.id (user d))
    /\ logged_in st = User.id u
    /\ (3 <= String.length username <= 50)%nat
    /\ (6 <= String.length password)%nat
    /\ valid_email rq email = true
    /\ ~ In username (map User.username (user d))
    /\ ~ In email (map User.email (user d)).
Proof.
  intros H.
  destruct (register_stored rq d st H)
    as (username & email & password & Eu & Ee & Ep & Hv & Hn & He & ->).
  unfold RegistrationForm.validate in Hv. rewrite Eu, Ee, Ep in Hv.
  repeat match goal with
         | K : (_ && _)%bool = true |- _ => apply andb_prop in K as [? ?]
         end.
  match goal with
  | K : db.opt_str_eqb _ _ = true |- _ =>
      apply db_facts.opt_str_eqb_eq in K; rename K into Hconfirm
  end.
  match goal with
  | K : Length 3 _ _ = true |- _ => apply Length_bounds in K as [Hu1 Hu2]
  end.
  match goal with
  | K : Length 6 _ _ = true |- _ => apply Length_bounds in K as [Hp1 _]
  end.
  do 4 eexists.
  cbn [store user logged_in User.username User.email User.password_hash
       User.subscription_active User.id].
  repeat (split; [first [reflexivity|eassumption|lia]|]).
  split; [now apply not_named|now apply not_with_email].
Qed.

(** ** [login] and [logout] *)

(** What [login] answers to a submitted form and leaves behind. *)
Lemma serve_login (rq : Request) (d : Tables) (username password : string) :
  anonymous rq d ->
  is_submitted rq && LoginForm.validate rq = true ->
  form_get "username" (form rq) = Some username ->
  form_get "password" (form rq) = Some password ->
  serve login rq d =
  match hd_error (filter (named username) (user d)) with
  | Some u =>
      match User.password_hash u with
      | Some h =>
          if check_password_hash rq h password
          then (Redirect "dashboard",
                mkSt d [] [("Login successful!", "success")] [] (User.id u))
          else (Render "login.html" [("form", CForm)],
                mkSt d [] [("Invalid username or password", "error")] []
                     (user_id rq))
      | None => (Abort 500, idle rq d)
      end
  | None =>
      (Render "login.html" [("form", CForm)],
       mkSt d [] [("Invalid username or password", "error")] []
            (user_id rq))
  end.
Proof.
  intros Hanon Hv Hu Hp. apply anonymous_current in Hanon.
  unfold login, check_password. unfold_site. rewrite Hanon, Hv, Hu, Hp.
  cbn [store pending flashes log logged_in].
  destruct (hd_error _) as [u|]; [|reflexivity].
  cbn [store pending flashes log logged_in].
  destruct (User.password_hash u) as [h|]; [|reflexivity].
  destruct (check_password_hash rq h password); reflexivity.
Qed.

(** X13. A login attempt with a user name that no account carries and one
    with a wrong password for an existing account get the same answer:
    the login page again, the one message "Invalid username or
    password", nobody logged in and nothing stored.  The attempt
    succeeds exactly when the first account of that name accepts the
    password; that user is then logged in. *)
Theorem login_outcomes (rq : Request) (d : Tables) (username password : string) :
  anonymous rq d ->
  is_submitted rq && LoginForm.validate rq = true ->
  form_get "username" (form rq) = Some username ->
  form_get "password" (form rq) = Some password ->
  (hd_error (filter (named username) (user d)) = None
   \/ (exists u h,
         hd_error (filter (named username) (user d)) = Some u
         /\ User.password_hash u = Some h
         /\ check_password_hash rq h password = false) ->
   serve login rq d
   = (Render "login.html" [("form", CForm)],
      mkSt d [] [("Invalid username or password", "error")] []
           (user_id rq)))
  /\ (forall u h,
        hd_error (filter (named username) (user d)) = Some u ->
        User.password_hash u = Some h ->
        check_password_hash rq h password = true ->
        serve login rq d
        = (Redirect "dashboard",
           mkSt d [] [("Login successful!", "success")] [] (User.id u)))
  /\ (forall st,
        serve login rq d = (Redirect "dashboard", st) ->
        exists u h,
          hd_error (filter (named username) (user d)) = Some u
          /\ User.password_hash u = Some h
          /\ check_password_hash rq h password = true
          /\ logged_in st = User.id u
          /\ store st = d).
Proof.
  intros Hanon Hv Hu Hp.
  rewrite (serve_login rq d username password Hanon Hv Hu Hp).
  split; [|split].
  - intros [->|(u & h & -> & -> & ->)]; reflexivity.
  - intros u h -> -> ->. reflexivity.
  - intros st.
    destruct (hd_error _) as [u|]; [|discriminate].
    destruct (User.password_hash u) as [h|] eqn:Hh; [|discriminate].
    destruct (check_password_hash rq h password) eqn:Hc; [|discriminate].
    intros H. injection H as <-. exists u, h. auto.
Qed.

(** X14. After a registration that succeeded, a later login with the same
    user name and password, by somebody not logged in, logs that user
    in, provided the password check accepts the hash that was made of
    the password. *)
Theorem register_then_login
    (rq rq2 : Request) (d : Tables) (st : St) (username password : string) :
  serve register rq d = (Redirect "questionnaire", st) ->
  form_get "username" (form rq) = Some username ->
  form_get "password" (form rq) = Some password ->
  user_id rq2 = None ->
  is_submitted rq2 && LoginForm.validate rq2 = true ->
  form_get "username" (form rq2) = Some username ->
  form_get "password" (form rq2) = Some password ->
  check_password_hash rq2 (generate_password_hash rq password) password = true ->
  serve login rq2 (store st)
  = (Redirect "dashboard",
     mkSt (store st) [] [("Login successful!", "success")] [] (logged_in st)).
Proof.
  intros Hreg Eu Ep Hanon2 Hv2 Eu2 Ep2 Hcheck.
  destruct (register_stored rq d st Hreg)
    as (username' & email & password' & Eu' & _ & Ep' & _ & Hn & _ & ->).
  rewrite Eu in Eu'. injection Eu' as <-.
  rewrite Ep in Ep'. injection Ep' as <-.
  assert (Hanon : anonymous rq2
                    (store (mkSt
                      (mkTables
                        (user d
                         ++ [User.mk (Some (db.next_id User.id (user d)))
                               username email
                               (Some (generate_password_hash rq password))
                               (Some false) None (Some (utcnow rq))])
                        (wellness_profile d) (wellness_plan d)
                        (workout_log d) (exercise_progress d))
                      []
                      [("Registration successful! Welcome to AI Wellness Planner.",
                        "success")] []
                      (Some (db.next_id User.id (user d))))))
    by (unfold anonymous; now rewrite Hanon2).
  rewrite (serve_login rq2 _ username password Hanon Hv2 Eu2 Ep2).
  cbn [store user logged_in]. rewrite filter_app.
  rewrite (db_facts.filter_none (named username) (user d)).
  - cbn [app filter]. unfold named at 1. cbn [User.username].
    rewrite String.eqb_refl. cbn [hd_error User.password_hash User.id].
    now rewrite Hcheck.
  - intros x Hx. exact (db_facts.hd_filter_none _ _ x Hn Hx).
Qed.

(** [logout] ends the session of a logged-in user and stores nothing. *)
Lemma serve_logout (rq : Request) (d : Tables) (id : Z) (u : User.t) :
  user_id rq = Some id -> load_user id d = Some u ->
  serve logout rq d = (Redirect "index", mkSt d [] [] [] None).
Proof.
  intros Hid Hload. unfold logout. unfold_site. now rewrite Hid, Hload.
Qed.

(** ** [generate_plan] *)






(** ** [plan] *)

Lemma datetime_leb_total (a b : datetime) :
  datetime_leb a b = true \/ datetime_leb b a = true.
Proof.
  unfold datetime_leb, Py.date_leb.
  destruct a as [[y1 m1 d1] t1], b as [[y2 m2 d2] t2]. cbn. lia.
Qed.

Lemma datetime_leb_trans (a b c : datetime) :
  datetime_leb a b = true -> datetime_leb b c = true ->
  datetime_leb a c = true.
Proof.
  unfold datetime_leb, Py.date_leb.
  destruct a as [[y1 m1 d1] t1], b as [[y2 m2 d2] t2], c as [[y3 m3 d3] t3].
  cbn. lia.
Qed.

Lemma key_leb_total (a b : option datetime) :
  key_leb a b = true \/ key_leb b a = true.
Proof.
  destruct a as [x|], b as [y|]; cbn; auto. apply datetime_leb_total.
Qed.

Lemma key_leb_trans (a b c : option datetime) :
  key_leb a b = true -> key_leb b c = true -> key_leb a c = true.
Proof.
  destruct a as [x|], b as [y|], c as [z|]; cbn; auto; try discriminate.
  apply datetime_leb_trans.
Qed.

Lemma insert_by_perm {A} (key : A -> option datetime) (x : A) (l : list A) :
  Permutation (insert_by key x l) (x :: l).
Proof.
  induction l as [|y l IH]; cbn [insert_by]; [reflexivity|].
  destruct (key_leb (key y) (key x)); [reflexivity|].
  rewrite IH. apply perm_swap.
Qed.

Lemma order_desc_perm {A} (key : A -> option datetime) (l : list A) :
  Permutation (order_desc key l) l.
Proof.
  induction l as [|x l IH]; cbn; [reflexivity|].
  rewrite insert_by_perm. now constructor.
Qed.

Lemma insert_by_sorted {A} (key : A -> option datetime) (x : A) (l : list A) :
  StronglySorted (newer key) l ->
  StronglySorted (newer key) (insert_by key x l).
Proof.
  intros Hs. induction Hs as [|y l Hs IH Hy]; cbn [insert_by].
  - constructor; constructor.
  - destruct (key_leb (key y) (key x)) eqn:Hyx.
    + constructor; [now constructor|].
      constructor; [exact Hyx|].
      apply Forall_forall. intros z Hz. rewrite Forall_forall in Hy.
      unfold newer in *. exact (key_leb_trans _ _ _ (Hy z Hz) Hyx).
    + constructor; [exact IH|].
      apply Forall_forall. intros z Hz.
      apply (Permutation_in _ (insert_by_perm key x l)) in Hz.
      destruct Hz as [Hz|Hz].
      * subst z. unfold newer.
        destruct (key_leb_total (key y) (key x)) as [H|H];
          [congruence|exact H].
      * rewrite Forall_forall in Hy. now apply Hy.
Qed.

Lemma order_desc_sorted {A} (key : A -> option datetime) (l : list A) :
  StronglySorted (newer key) (order_desc key l).
Proof.
  induction l as [|x l IH]; cbn; [constructor|].
  now apply insert_by_sorted.
Qed.

Lemma newer_refl {A} (key : A -> option datetime) (x : A) : newer key x x.
Proof.
  unfold newer. destruct (key_leb_total (key x) (key x)); assumption.
Qed.

Lemma order_desc_head {A} (key : A -> option datetime) (l : list A) (x : A)
    (t : list A) :
  order_desc key l = x :: t ->
  In x l /\ forall y, In y l -> newer key x y.
Proof.
  intros H. pose proof (order_desc_sorted key l) as Hs.
  pose proof (order_desc_perm key l) as Hp. rewrite H in Hs, Hp.
  split; [apply (Permutation_in _ Hp); now left|].
  intros y Hy. apply (Permutation_in _ (Permutation_sym Hp)) in Hy.
  destruct Hy as [<-|Hy]; [apply newer_refl|].
  inversion Hs as [|? ? _ Hall]; subst. rewrite Forall_forall in Hall.
  now apply Hall.
Qed.

(** X17. The plan page never changes the database.  To a user without a plan
    it answers with a redirect to the dashboard; otherwise it shows one
    plan of that user, and none of the user's plans is newer.  The two
    columns are shown decoded, or both as an empty dict when one of them
    does not decode. *)
Theorem plan_page_latest (rq : Request) (d : Tables) (uid : Z) (u : User.t) :
  user_id rq = Some uid ->
  load_user uid d = Some u ->
  store (snd (serve plan rq d)) = d
  /\ (filter (fun p => Z.eqb (WellnessPlan.user_id p) uid) (wellness_plan d)
      = [] ->
      serve plan rq d
      = (Redirect "dashboard",
         mkSt d [] [("No wellness plan found. Please generate one.", "info")]
              [] (Some uid)))
  /\ (filter (fun p => Z.eqb (WellnessPlan.user_id p) uid) (wellness_plan d)
      <> [] ->
      exists latest,
        In latest (wellness_plan d)
        /\ WellnessPlan.user_id latest = uid
        /\ (forall q, In q (wellness_plan d) ->
                      WellnessPlan.user_id q = uid ->
                      newer WellnessPlan.created_at latest q)
        /\ fst (serve plan rq d)
           = Render "plan.html"
               [("plan", CShownPlan latest (fst (shown_columns latest))
                                    (snd (shown_columns latest)))]
        /\ flashes (snd (serve plan rq d)) = []).
Proof.
  intros Hid Hload. unfold plan. unfold_site. rewrite Hid, Hload.
  set (mine := filter (fun p => Z.eqb (WellnessPlan.user_id p) uid)
                      (wellness_plan d)).
  destruct (order_desc WellnessPlan.created_at mine) as [|latest t] eqn:Hord.
  - assert (Hnil : mine = []).
    { pose proof (order_desc_perm WellnessPlan.created_at mine) as Hp.
      rewrite Hord in Hp. now apply Permutation_nil. }
    split; [reflexivity|]. split; [reflexivity|]. intros H. now elim H.
  - destruct (order_desc_head _ _ _ _ Hord) as [Hin Hnewest].
    apply filter_In in Hin as [Hin Hmine]. apply Z.eqb_eq in Hmine.
    assert (Hall : forall q, In q (wellness_plan d) ->
                             WellnessPlan.user_id q = uid ->
                             newer WellnessPlan.created_at latest q).
    { intros q Hq Hu. apply Hnewest. apply filter_In. split; [exact Hq|].
      now apply Z.eqb_eq. }
    split; [|split].
    + destruct (decoded (WellnessPlan.meal_plan latest));
        [destruct (decoded (WellnessPlan.workout_plan latest))|]; reflexivity.
    + intros H. fold mine in H. rewrite H in Hord. discriminate Hord.
    + intros _. exists latest. unfold shown_columns.
      destruct (decoded (WellnessPlan.meal_plan latest));
        [destruct (decoded (WellnessPlan.workout_plan latest))|];
        cbn [fst snd store flashes]; repeat split; auto.
Qed.

(** ** [workout_progress] *)

Lemma has_key_In (name : option string) (data : list (option string * series)) :
  has_key name data = true <-> In name (map fst data).
Proof.
  unfold has_key. rewrite existsb_exists. split.
  - intros [kv [Hin Heq]]. apply db_facts.opt_str_eqb_eq in Heq. subst name.
    now apply in_map.
  - intros Hin. apply in_map_iff in Hin as [kv [Heq Hin]]. exists kv.
    split; [exact Hin|]. now apply db_facts.opt_str_eqb_eq.
Qed.

Lemma append_point_keys (name : option string) (date : string)
    (weight : option double) (reps_ : option Z)
    (data : list (option string * series)) :
  map fst (append_point name date weight reps_ data) = map fst data.
Proof.
  unfold append_point. rewrite map_map. apply map_ext. intros kv.
  now destruct (db.opt_str_eqb (fst kv) name).
Qed.

Lemma append_point_In (name : option string) (date : string)
    (weight : option double) (reps_ : option Z)
    (data : list (option string * series)) (n : option string) (s' : series) :
  In (n, s') (append_point name date weight reps_ data) ->
  exists s,
    In (n, s) data
    /\ ((n = name
         /\ s' = mkseries (dates s ++ [date]) (weights s ++ [weight])
                          (reps s ++ [reps_]))
        \/ (n <> name /\ s' = s)).
Proof.
  unfold append_point. intros Hin.
  apply in_map_iff in Hin as [[k s] [Heq Hin]]. cbn [fst snd] in Heq.
  destruct (db.opt_str_eqb k name) eqn:Hk.
  - apply db_facts.opt_str_eqb_eq in Hk. injection Heq as <- <-.
    exists s. split; [exact Hin|]. left. now split.
  - injection Heq as <- <-. exists s. split; [exact Hin|]. right.
    split; [|reflexivity]. intros ->.
    rewrite (proj2 (db_facts.opt_str_eqb_eq name name) eq_refl) in Hk.
    discriminate Hk.
Qed.

Lemma rows_named_snoc (name : option string) (done : list ExerciseProgress.t)
    (e : ExerciseProgress.t) :
  rows_named name (done ++ [e])
  = (rows_named name done
     ++ (if db.opt_str_eqb (ExerciseProgress.exercise_name e) name
         then [e] else []))%list.
Proof. unfold rows_named. now rewrite filter_app. Qed.

Lemma rows_named_absent (name : option string)
    (done : list ExerciseProgress.t) :
  ~ In name (map ExerciseProgress.exercise_name done) ->
  rows_named name done = [].
Proof.
  unfold rows_named. induction done as [|e done IH]; cbn; [reflexivity|].
  intros Hno. destruct (db.opt_str_eqb _ name) eqn:Hk.
  - apply db_facts.opt_str_eqb_eq in Hk. elim Hno. now left.
  - apply IH. intros Hin. apply Hno. now right.
Qed.

(** One turn of the loop keeps the grouping. *)
Lemma add_exercise_grouping (done : list ExerciseProgress.t)
    (data data' : list (option string * series)) (e : ExerciseProgress.t) :
  grouping done data ->
  add_exercise data e = Py.Ok data' ->
  grouping (done ++ [e]) data'.
Proof.
  intros [Hnd [Hkeys Hser]] Hadd. unfold add_exercise in Hadd.
  set (name := ExerciseProgress.exercise_name e) in *.
  destruct (ExerciseProgress.recorded_at e) as [t|] eqn:Ht;
    [|discriminate Hadd].
  injection Hadd as <-.
  set (data1 := if has_key name data then data
                else (data ++ [(name, mkseries [] [] [])])%list).
  assert (H1 : NoDup (map fst data1)
               /\ (forall n, In n (map fst data1)
                             <-> In n (map fst data) \/ n = name)
               /\ (forall n s, In (n, s) data1 -> series_of done n s)).
  { unfold data1. destruct (has_key name data) eqn:Hhas.
    - apply has_key_In in Hhas. split; [exact Hnd|]. split; [|exact Hser].
      intros n. split; [now left|]. intros [H| ->]; assumption.
    - assert (Hno : ~ In name (map fst data)).
      { intros Hin. apply has_key_In in Hin. congruence. }
      split; [|split].
      + rewrite map_app. cbn [map fst].
        apply NoDup_app; [exact Hnd| |].
        * constructor; [intros []|constructor].
        * intros x Hx [Hx'|[]]. subst x. now apply Hno.
      + intros n. rewrite map_app, in_app_iff. cbn [map fst In].
        split; intros [H|H]; auto.
        * destruct H as [<-|[]]. now right.
      + intros n s Hin. apply in_app_iff in Hin as [Hin|[Heq|[]]];
          [now apply Hser|].
        injection Heq as <- <-. unfold series_of.
        rewrite rows_named_absent; [now cbn|].
        intros Hin. apply Hkeys in Hin. now apply Hno. }
  destruct H1 as [Hnd1 [Hkeys1 Hser1]].
  split; [|split].
  - now rewrite append_point_keys.
  - intros n. rewrite append_point_keys, Hkeys1, map_app, in_app_iff, Hkeys.
    cbn [map In]. fold name. intuition.
  - intros n s' Hin. apply append_point_In in Hin as [s [Hin Hcase]].
    destruct (Hser1 n s Hin) as [Hd [Hw Hr]].
    unfold series_of. rewrite rows_named_snoc. fold name.
    destruct Hcase as [[-> ->]|[Hne ->]].
    + rewrite (proj2 (db_facts.opt_str_eqb_eq name name) eq_refl).
      cbn [dates weights reps]. rewrite !map_app, Hd, Hw, Hr.
      cbn [map]. rewrite Ht. cbn [option_map]. now repeat split.
    + destruct (db.opt_str_eqb name n) eqn:Hk.
      * apply db_facts.opt_str_eqb_eq in Hk. now elim Hne.
      * rewrite !app_nil_r. now repeat split.
Qed.

Lemma progress_loop_grouping (rest done : list ExerciseProgress.t)
    (data final : list (option string * series)) :
  grouping done data ->
  progress_loop rest data = Py.Ok final ->
  grouping (done ++ rest) final.
Proof.
  revert done data. induction rest as [|e rest IH]; intros done data Hg Hloop.
  - cbn in Hloop. injection Hloop as <-. now rewrite app_nil_r.
  - cbn [progress_loop] in Hloop.
    destruct (add_exercise data e) as [data'|x] eqn:Hadd;
      [|discriminate Hloop].
    cbn [Py.rbind] in Hloop.
    replace (done ++ e :: rest)%list with ((done ++ [e]) ++ rest)%list
      by now rewrite <- app_assoc.
    apply (IH _ data'); [|exact Hloop].
    now apply (add_exercise_grouping done data).
Qed.

Lemma progress_loop_dated (rest : list ExerciseProgress.t)
    (data : list (option string * series)) :
  Forall (fun e => ExerciseProgress.recorded_at e <> None) rest ->
  exists final, progress_loop rest data = Py.Ok final.
Proof.
  intros Hall. revert data.
  induction Hall as [|e rest He Hall IH]; intros data.
  - now exists data.
  - cbn [progress_loop]. unfold add_exercise.
    destruct (ExerciseProgress.recorded_at e) as [t|]; [|now elim He].
    cbn [Py.rbind]. apply IH.
Qed.

(** X18. The loop of the progress page groups the rows by exercise name: when
    every row has its [recorded_at], the result has one key per exercise
    name that occurs, and the series of a name holds the dates, weights
    and reps of exactly the rows of that name, one point per row and in
    the order of the rows. *)
Theorem progress_data_groups_rows (exercises : list ExerciseProgress.t) :
  Forall (fun e => ExerciseProgress.recorded_at e <> None) exercises ->
  exists data,
    progress_loop exercises [] = Py.Ok data
    /\ NoDup (map fst data)
    /\ (forall name,
          In name (map fst data)
          <-> In name (map ExerciseProgress.exercise_name exercises))
    /\ (forall name s,
          In (name, s) data ->
          map Some (dates s)
          = map (fun e => option_map strftime_Ymd
                            (ExerciseProgress.recorded_at e))
                (rows_named name exercises)
          /\ weights s
             = map ExerciseProgress.weight (rows_named name exercises)
          /\ reps s = map ExerciseProgress.reps (rows_named name exercises)).
Proof.
  intros Hall. destruct (progress_loop_dated exercises [] Hall) as [data Hloop].
  exists data. split; [exact Hloop|].
  assert (Hempty : grouping [] []).
  { split; [constructor|]. split; [intros name; reflexivity|].
    intros name s []. }
  exact (progress_loop_grouping exercises [] [] data Hempty Hloop).
Qed.

Lemma firstn_In {A} (n : nat) (l : list A) (x : A) :
  In x (firstn n l) -> In x l.
Proof.
  intros H. rewrite <- (firstn_skipn n l). apply in_or_app. now left.
Qed.

Lemma sorted_app {A} (R : A -> A -> Prop) (l1 l2 : list A) :
  StronglySorted R (l1 ++ l2) ->
  StronglySorted R l1 /\ (forall a b, In a l1 -> In b l2 -> R a b).
Proof.
  induction l1 as [|x l1 IH]; cbn [app]; intros Hs.
  - split; [constructor|]. intros a b [].
  - inversion Hs as [|? ? Hs' Hall]; subst.
    destruct (IH Hs') as [Hs1 Hcross]. rewrite Forall_forall in Hall.
    split.
    + constructor; [exact Hs1|]. apply Forall_forall. intros y Hy.
      apply Hall. apply in_or_app. now left.
    + intros a b [<-|Ha] Hb; [|now apply Hcross].
      apply Hall. apply in_or_app. now right.
Qed.

(** X19. The progress page of a logged-in user whose considered rows are all
    dated changes nothing and shows at most ten workouts, all of them the
    user's own, newest first, no workout left out being newer than one
    shown; its chart data is the grouping by exercise name of the user's
    fifty newest progress rows. *)
Theorem workout_progress_page (rq : Request) (d : Tables) (uid : Z)
    (u : User.t) :
  user_id rq = Some uid ->
  load_user uid d = Some u ->
  let logs :=
    filter (fun l => Z.eqb (WorkoutLog.user_id l) uid) (workout_log d) in
  let exercises :=
    firstn 50
      (order_desc ExerciseProgress.recorded_at
         (filter (fun p => Z.eqb (ExerciseProgress.user_id p) uid)
                 (exercise_progress d))) in
  Forall (fun e => ExerciseProgress.recorded_at e <> None) exercises ->
  exists workouts data,
    serve workout_progress rq d
    = (Render "workout/progress.html"
         [("workouts", CWorkouts workouts); ("progress_data", CProgress data)],
       mkSt d [] [] [] (Some uid))
    /\ (List.length workouts <= 10)%nat
    /\ (forall l, In l workouts ->
                  In l (workout_log d) /\ WorkoutLog.user_id l = uid)
    /\ StronglySorted (newer WorkoutLog.completed_at) workouts
    /\ (forall l w, In l logs -> ~ In l workouts -> In w workouts ->
                    newer WorkoutLog.completed_at w l)
    /\ (forall e, In e exercises ->
                  In e (exercise_progress d)
                  /\ ExerciseProgress.user_id e = uid)
    /\ grouping exercises data.
Proof.
  intros Hid Hload logs exercises Hdated.
  destruct (progress_loop_dated exercises [] Hdated) as [data Hloop].
  set (sorted := order_desc WorkoutLog.completed_at logs).
  exists (firstn 10 sorted), data.
  pose proof (order_desc_sorted WorkoutLog.completed_at logs) as Hs.
  pose proof (order_desc_perm WorkoutLog.completed_at logs) as Hp.
  fold sorted in Hs, Hp. rewrite <- (firstn_skipn 10 sorted) in Hs.
  apply sorted_app in Hs as [Hs Hcross].
  split; [|split; [|split; [|split; [|split; [|split]]]]].
  - unfold workout_progress. unfold_site. rewrite Hid, Hload.
    fold logs. fold sorted. fold exercises. rewrite Hloop. reflexivity.
  - apply firstn_le_length.
  - intros l Hl. apply firstn_In in Hl.
    apply (Permutation_in _ Hp) in Hl. unfold logs in Hl.
    apply filter_In in Hl as [Hl Hu]. split; [exact Hl|].
    now apply Z.eqb_eq.
  - exact Hs.
  - intros l w Hl Hout Hw. apply Hcross; [exact Hw|].
    apply (Permutation_in _ (Permutation_sym Hp)) in Hl.
    rewrite <- (firstn_skipn 10 sorted) in Hl.
    apply in_app_or in Hl as [Hl|Hl]; [now elim Hout|exact Hl].
  - intros e He. unfold exercises in He. apply firstn_In in He.
    apply (Permutation_in _ (order_desc_perm _ _)) in He.
    apply filter_In in He as [He Hu]. split; [exact He|].
    now apply Z.eqb_eq.
  - assert (Hempty : grouping [] []).
    { split; [constructor|]. split; [intros name; reflexivity|].
      intros name s []. }
    exact (progress_loop_grouping exercises [] [] data Hempty Hloop).
Qed.

(** ** [log_workout] *)

Lemma log_exercise_adds (uid : Z) (exercise : string) (rq : Request)
    (st : St) :
  exists r st',
    log_exercise uid exercise rq st = (r, st')
    /\ store st' = store st /\ flashes st' = flashes st
    /\ log st' = log st /\ logged_in st' = logged_in st
    /\ (r = Py.Ok tt ->
        exists ps,
          pending st' = (pending st ++ map AProgress ps)%list
          /\ Forall (fresh_progress uid) ps
          /\ map ExerciseProgress.exercise_name ps
             = map Some (filter (has_figures rq) [exercise])).
Proof.
  unfold log_exercise, bind, ask, lift, session_add, ret.
  cbn [filter]. unfold has_figures.
  destruct (filled (form_get ("weight_" ++ exercise) (form rq))
            && filled (form_get ("reps_" ++ exercise) (form rq)))%bool.
  - destruct (float_field rq ("weight_" ++ exercise)) as [w|e];
      [|do 2 eexists; repeat split; discriminate].
    destruct (int_field rq ("reps_" ++ exercise)) as [r|e];
      [|do 2 eexists; repeat split; discriminate].
    destruct (int_field_or_1 rq ("sets_" ++ exercise)) as [n|e];
      [|do 2 eexists; repeat split; discriminate].
    do 2 eexists. split; [reflexivity|]. cbn [store flashes log logged_in pending].
    repeat split.
    intros _.
    exists [ExerciseProgress.mk None uid (Some exercise) (Some w) (Some r)
                                (Some n) None].
    split; [reflexivity|]. split; [|reflexivity].
    constructor; [now repeat split|constructor].
  - do 2 eexists. split; [reflexivity|]. repeat split.
    intros _. exists []. split; [now rewrite app_nil_r|].
    split; [constructor|reflexivity].
Qed.

Lemma for_each_log_exercise (uid : Z) (exercises : list string)
    (rq : Request) (st : St) :
  exists r st',
    for_each (log_exercise uid) exercises rq st = (r, st')
    /\ store st' = store st /\ flashes st' = flashes st
    /\ log st' = log st /\ logged_in st' = logged_in st
    /\ (r = Py.Ok tt ->
        exists ps,
          pending st' = (pending st ++ map AProgress ps)%list
          /\ Forall (fresh_progress uid) ps
          /\ map ExerciseProgress.exercise_name ps
             = map Some (filter (has_figures rq) exercises)).
Proof.
  revert st. induction exercises as [|x exercises IH]; intros st.
  - exists (Py.Ok tt), st. cbn. repeat split. intros _. exists [].
    split; [now rewrite app_nil_r|]. split; [constructor|reflexivity].
  - cbn [for_each]. unfold bind at 1.
    destruct (log_exercise_adds uid x rq st)
      as [r1 [st1 [E1 [Hs1 [Hf1 [Hl1 [Hu1 Hp1]]]]]]].
    rewrite E1. destruct r1 as [[]|e].
    + destruct (IH st1) as [r2 [st2 [E2 [Hs2 [Hf2 [Hl2 [Hu2 Hp2]]]]]]].
      exists r2, st2. split; [exact E2|].
      split; [congruence|]. split; [congruence|]. split; [congruence|].
      split; [congruence|].
      intros Hok. destruct (Hp1 eq_refl) as [ps1 [P1 [F1 N1]]].
      destruct (Hp2 Hok) as [ps2 [P2 [F2 N2]]].
      exists (ps1 ++ ps2)%list. split; [|split].
      * now rewrite P2, P1, map_app, app_assoc.
      * apply Forall_app. now split.
      * rewrite map_app, N1, N2. cbn [filter].
        destruct (has_figures rq x); reflexivity.
    + exists (Py.Raise e), st1. repeat split; auto. discriminate.
Qed.

Lemma flush_progress (now : datetime) (uid : Z)
    (ps : list ExerciseProgress.t) (d : Tables) :
  Forall (fresh_progress uid) ps ->
  exists ps',
    fst (flush now (map AProgress ps) d)
    = mkTables (user d) (wellness_profile d) (wellness_plan d)
               (workout_log d) (exercise_progress d ++ ps')
    /\ map ExerciseProgress.exercise_name ps'
       = map ExerciseProgress.exercise_name ps
    /\ Forall (fun p => ExerciseProgress.user_id p = uid
                        /\ ExerciseProgress.recorded_at p = Some now) ps'.
Proof.
  intros Hall. revert d. induction Hall as [|p ps Hp Hall IH]; intros d.
  - exists []. cbn. rewrite app_nil_r. destruct d. repeat split. constructor.
  - cbn [map flush insert].
    match goal with
    | |- context [flush now (map AProgress ps) ?d1] =>
        destruct (IH d1) as [ps' [E [N F]]];
        destruct (flush now (map AProgress ps) d1) as [d2 out]
    end.
    cbn [fst] in E. subst d2.
    cbn [user wellness_profile wellness_plan workout_log exercise_progress
         fst].
    eexists (_ :: ps'). split; [now rewrite <- app_assoc|].
    destruct Hp as [_ [Hu Hr]].
    split; [cbn [map ExerciseProgress.exercise_name]; now rewrite N|].
    constructor; [|exact F].
    cbn [ExerciseProgress.user_id ExerciseProgress.recorded_at].
    rewrite Hr. now split.
Qed.

(** X20. A posted workout is stored whole or not at all.  Either the request
    is answered with a redirect to the form and the fixed error message,
    and the database is as before; or one row is added to the workout
    log, and one progress row for each listed exercise that came with a
    weight and a number of reps, all of them the user's and stamped with
    the time of the commit, and nothing else changes. *)
Theorem log_workout_all_or_nothing (rq : Request) (d : Tables) (uid : Z)
    (u : User.t) :
  user_id rq = Some uid ->
  load_user uid d = Some u ->
  method rq = "POST" ->
  (serve log_workout rq d
   = (Redirect "log_workout",
      mkSt d [] [("Error logging workout. Please try again.", "error")] []
           (Some uid)))
  \/ (exists l ps,
        serve log_workout rq d
        = (Redirect "workout_progress",
           mkSt (mkTables (user d) (wellness_profile d) (wellness_plan d)
                          (workout_log d ++ [l]) (exercise_progress d ++ ps))
                [] [("Workout logged successfully!", "success")] []
                (Some uid))
        /\ db_fault rq = None
        /\ WorkoutLog.user_id l = uid
        /\ WorkoutLog.id l = Some (db.next_id WorkoutLog.id (workout_log d))
        /\ WorkoutLog.completed_at l = Some (utcnow rq)
        /\ WorkoutLog.workout_type l = form_get "workout_type" (form rq)
        /\ map ExerciseProgress.exercise_name ps
           = map Some (filter (has_figures rq)
                              (form_getlist "exercises[]" (form rq)))
        /\ Forall (fun p => ExerciseProgress.user_id p = uid
                            /\ ExerciseProgress.recorded_at p
                               = Some (utcnow rq)) ps).
Proof.
  intros Hid Hload Hpost. unfold log_workout. unfold_site.
  rewrite Hid, Hload, Hpost. cbn [String.eqb Ascii.eqb Bool.eqb].
  destruct (int_field rq "duration") as [duration|e]; [|now left].
  destruct (Py.dumps _) as [exercises_json|e]; [|now left].
  destruct (int_field rq "calories_burned") as [calories|e]; [|now left].
  match goal with
  | |- context [for_each (log_exercise uid) ?l rq ?st] =>
      destruct (for_each_log_exercise uid l rq st)
        as [r [st1 [E [Hs [Hf [Hl [Hu Hp]]]]]]]
  end.
  rewrite E. cbn [store pending flashes log logged_in] in Hs, Hf, Hl, Hu, Hp.
  destruct r as [[]|e].
  - destruct (Hp eq_refl) as [ps [P [F N]]].
    destruct (db_fault rq) as [e|] eqn:Hfault.
    + left. now rewrite Hs, Hf, Hl, Hu.
    + right. rewrite P. cbn [app flush insert].
      match goal with
      | |- context [flush (utcnow rq) (map AProgress ps) ?d1] =>
          destruct (flush_progress (utcnow rq) uid ps d1 F)
            as [ps' [E' [N' F']]];
          destruct (flush (utcnow rq) (map AProgress ps) d1) as [d2 out]
      end.
      cbn [fst] in E'. subst d2.
      cbn [user wellness_profile wellness_plan workout_log exercise_progress
           store flashes log logged_in] in *.
      eexists _, ps'. rewrite Hs, Hf, Hl, Hu.
      split; [reflexivity|].
      cbn [WorkoutLog.user_id WorkoutLog.id WorkoutLog.completed_at
           WorkoutLog.workout_type or_now].
      repeat split; auto. now rewrite N'.
  - left. now rewrite Hs, Hf, Hl, Hu.
Qed.

(** ** [ingredient_recipes] *)

(** X21. A posted list of ingredients never changes the database.  When the
    field is missing or blank the generator is not consulted: the answer
    is a redirect to the form with a warning.  Otherwise the generator
    gets the comma-separated items, each non-empty and without white
    space at its ends, and the first profile of the user; what it returns
    is shown, and when it raises the page is shown without recipes, the
    detail is logged and the user sees the fixed message. *)
Theorem ingredient_recipes_outcomes (rq : Request) (d : Tables) (uid : Z)
    (u : User.t) :
  user_id rq = Some uid ->
  load_user uid d = Some u ->
  method rq = "POST" ->
  let ingredients :=
    Py.strip (routes.or_empty (form_get "ingredients" (form rq))) in
  let items := routes.ingredients_list ingredients in
  let profile :=
    hd_error (filter (fun p => Z.eqb (WellnessProfile.user_id p) uid)
                     (wellness_profile d)) in
  store (snd (serve ingredient_recipes rq d)) = d
  /\ Forall notions.trimmed items
  /\ (ingredients = EmptyString ->
      serve ingredient_recipes rq d
      = (Redirect "ingredient_recipes",
         mkSt d [] [("Please enter at least one ingredient", "warning")] []
              (Some uid)))
  /\ (ingredients <> EmptyString ->
      serve ingredient_recipes rq d
      = match generate_recipes_from_ingredients rq items profile with
        | Py.Ok recipes =>
            (Render "meal_plan/ingredient_recipes.html"
               [("recipes", CRecipes (Some recipes))],
             mkSt d [] [] [] (Some uid))
        | Py.Raise e =>
            (Render "meal_plan/ingredient_recipes.html"
               [("recipes", CRecipes None)],
             mkSt d []
                  [("Error generating recipes. Please try again.", "error")]
                  [("Error generating recipes: " ++ Py.str_exn e)%string]
                  (Some uid))
        end).
Proof.
  intros Hid Hload Hpost ingredients items profile.
  assert (Hserve :
    serve ingredient_recipes rq d
    = if Py.nonempty ingredients
      then match generate_recipes_from_ingredients rq items profile with
           | Py.Ok recipes =>
               (Render "meal_plan/ingredient_recipes.html"
                  [("recipes", CRecipes (Some recipes))],
                mkSt d [] [] [] (Some uid))
           | Py.Raise e =>
               (Render "meal_plan/ingredient_recipes.html"
                  [("recipes", CRecipes None)],
                mkSt d []
                     [("Error generating recipes. Please try again.", "error")]
                     [("Error generating recipes: " ++ Py.str_exn e)%string]
                     (Some uid))
           end
      else (Redirect "ingredient_recipes",
            mkSt d [] [("Please enter at least one ingredient", "warning")] []
                 (Some uid))).
  { unfold ingredient_recipes. unfold_site. rewrite Hid, Hload, Hpost.
    cbn [String.eqb Ascii.eqb Bool.eqb]. fold ingredients.
    destruct (Py.nonempty ingredients); [|reflexivity].
    cbn [store pending flashes log logged_in]. fold profile. fold items.
    destruct (generate_recipes_from_ingredients rq items profile);
      reflexivity. }
  split; [|split; [|split]].
  - rewrite Hserve. destruct (Py.nonempty ingredients); [|reflexivity].
    destruct (generate_recipes_from_ingredients rq items profile);
      reflexivity.
  - apply routes_facts.ingredients_list_trimmed.
  - intros Hblank. rewrite Hserve, Hblank. reflexivity.
  - intros Hfilled. rewrite Hserve.
    destruct ingredients as [|c rest]; [now elim Hfilled|reflexivity].
Qed.

(** ** The routes that only read *)



End WithJson.

End site_facts.

(* ===================================================================== *)
(** * The further properties at sample requests *)
(* ===================================================================== *)

Module more_checks.

Import models forms flask routes notions more_notions templates app samples
  more_samples more_facts app_facts.

#[local] Existing Instance sample_json.

Lemma from_json_filter_total_witness :
  MealPlan.meal_plan_data (plan_row 1 1) <> Some EmptyString
  /\ from_json_filter (column_value (MealPlan.meal_plan_data (plan_row 1 1)))
     = (Py.VDict [], []).
Proof.
  assert (Hcol : MealPlan.meal_plan_data (plan_row 1 1) <> Some EmptyString)
    by discriminate.
  split; [exact Hcol|].
  exact (proj1 (from_json_filter_total (plan_row 1 1)) Hcol).
Defined.

Lemma list_meal_plans_own_newest_first_witness :
  current_user get_as_owner = Some 1%Z
  /\ exists plans,
       serve list_meal_plans get_as_owner one_user_db
       = (Render "meal_plan/list.html" [("plans", CPlans plans)], [],
          one_user_db)
       /\ Permutation plans (filter (plan_of 1) (db.meal_plan one_user_db)).
Proof.
  split; [reflexivity|].
  destruct (list_meal_plans_own_newest_first get_as_owner one_user_db 1
              eq_refl) as (plans & Hserved & Hperm & _).
  exists plans. split; assumption.
Defined.

Lemma meal_preferences_leaves_others_witness :
  well_keyed MealPreference.id (db.meal_preference two_user_db)
  /\ of_others 1 (db.meal_preference
                    (snd (serve meal_preferences (submit 700) two_user_db)))
     = [dinner_row 2 2].
Proof.
  assert (Hkeyed : well_keyed MealPreference.id
                     (db.meal_preference two_user_db)).
  { split.
    - repeat constructor; simpl; intuition discriminate.
    - simpl. intuition discriminate. }
  split; [exact Hkeyed|].
  exact (proj1 (meal_preferences_leaves_others (submit 700) two_user_db 1
                  eq_refl Hkeyed)).
Defined.

Lemma meal_preferences_commit_failure_witness :
  db_fault submit_failing = Some (Py.Exception "server closed the connection")
  /\ meal_preferences submit_failing (initial one_user_db)
     = (Py.Ok (preferences_page submit_failing 1 one_user_db),
        mkSt one_user_db db.empty_session
          [("Error updating meal preferences. Please try again.", "error")]
          ["Error updating meal preferences: server closed the connection"]
          1).
Proof.
  split; [reflexivity|].
  eapply (meal_preferences_commit_failure submit_failing one_user_db 1 _
            (Py.Exception "server closed the connection"));
    reflexivity.
Defined.

Lemma meal_preferences_resubmission_witness :
  serve meal_preferences (submit 700)
        (snd (serve meal_preferences (submit 700) one_user_db))
  = (Redirect "meal_preferences" None,
     [("Meal preferences updated successfully!", "success")],
     snd (serve meal_preferences (submit 700) one_user_db)).
Proof.
  assert (Hkeyed : well_keyed MealPreference.id
                     (db.meal_preference one_user_db)).
  { split; [repeat constructor; simpl; tauto|].
    simpl. intros [H|[]]. discriminate H. }
  assert (Hserved :
    serve meal_preferences (submit 700) one_user_db
    = (Redirect "meal_preferences" None,
       [("Meal preferences updated successfully!", "success")],
       snd (serve meal_preferences (submit 700) one_user_db)))
    by (vm_compute; reflexivity).
  exact (meal_preferences_resubmission (submit 700) (submit 700) one_user_db
           _ _ Hkeyed Hserved eq_refl eq_refl eq_refl eq_refl).
Defined.

Lemma generated_plan_calendar_dates_witness :
  exists row,
    snd (serve generate_new_meal_plan
           (generate ["2024-02-28"; "2024-02-29"]) one_user_db)
    = add_plan one_user_db row
    /\ calendar_date (MealPlan.start_date row)
    /\ calendar_date (MealPlan.end_date row).
Proof.
  assert (Hserved :
    serve generate_new_meal_plan
          (generate ["2024-02-28"; "2024-02-29"]) one_user_db
    = (Redirect "view_meal_plan" (Some 2%Z),
       snd (fst (serve generate_new_meal_plan
                   (generate ["2024-02-28"; "2024-02-29"]) one_user_db)),
       snd (serve generate_new_meal_plan
              (generate ["2024-02-28"; "2024-02-29"]) one_user_db)))
    by (vm_compute; reflexivity).
  exact (generated_plan_calendar_dates _ _ _ _ _ Hserved).
Defined.

Lemma generated_plan_is_viewable_witness :
  exists row,
    MealPlan.id row = Some 2%Z
    /\ serve (view_meal_plan 2) get_as_owner
             (snd (serve generate_new_meal_plan
                     (generate ["2024-01-01"; "2024-01-03"]) one_user_db))
       = (Render "meal_plan/view.html" [("plan", CPlan row)], [],
          snd (serve generate_new_meal_plan
                 (generate ["2024-01-01"; "2024-01-03"]) one_user_db))
    /\ serve (view_meal_plan 2) get_as_other
             (snd (serve generate_new_meal_plan
                     (generate ["2024-01-01"; "2024-01-03"]) one_user_db))
       = (Abort 404, [],
          snd (serve generate_new_meal_plan
                 (generate ["2024-01-01"; "2024-01-03"]) one_user_db)).
Proof.
  assert (Hserved :
    serve generate_new_meal_plan
          (generate ["2024-01-01"; "2024-01-03"]) one_user_db
    = (Redirect "view_meal_plan" (Some 2%Z),
       snd (fst (serve generate_new_meal_plan
                   (generate ["2024-01-01"; "2024-01-03"]) one_user_db)),
       snd (serve generate_new_meal_plan
              (generate ["2024-01-01"; "2024-01-03"]) one_user_db)))
    by (vm_compute; reflexivity).
  destruct (generated_plan_is_viewable _ _ _ _ _ Hserved)
    as (uid & preferences & data & plan_json & row & Huid & _ & _ & _ & _
        & Hid & _ & Hown & Hother).
  assert (Hone : uid = 1%Z) by (cbv in Huid; congruence).
  subst uid. exists row. split; [exact Hid|]. split.
  - apply Hown. reflexivity.
  - apply (Hother get_as_other 2%Z); [reflexivity|lia].
Defined.

Lemma meal_tables_change_only_by_witness :
  db.meal_plan (snd (handle ep_generate_new_meal_plan
                       (generate ["2024-01-01"; "2024-01-03"]) one_user_db))
  <> db.meal_plan one_user_db
  /\ method (generate ["2024-01-01"; "2024-01-03"]) = "POST"
  /\ db_fault (generate ["2024-01-01"; "2024-01-03"]) = None.
Proof.
  assert (Hchanged :
    db.meal_plan (snd (handle ep_generate_new_meal_plan
                         (generate ["2024-01-01"; "2024-01-03"]) one_user_db))
    <> db.meal_plan one_user_db)
    by (vm_compute; discriminate).
  split; [exact Hchanged|].
  destruct (proj1 (meal_tables_change_only_by _ _ _) Hchanged)
    as (_ & Hmethod & Hfault & _).
  split; assumption.
Defined.

Lemma accepted_submission_fits_columns_witness :
  exists row,
    In row (db.meal_preference
              (snd (serve meal_preferences (submit 700) one_user_db)))
    /\ fits 20 (MealPreference.meal_type row)
    /\ fits 50 (MealPreference.preferred_cuisine row)
    /\ fits 5 (MealPreference.preferred_time row).
Proof.
  assert (Hserved :
    serve meal_preferences (submit 700) one_user_db
    = (Redirect "meal_preferences" None,
       [("Meal preferences updated successfully!", "success")],
       snd (serve meal_preferences (submit 700) one_user_db)))
    by (vm_compute; reflexivity).
  destruct (accepted_submission_fits_columns _ _ _ _ Hserved)
    as (row & meal & cuisine & time & Hin & _ & _ & _ & _ & _ & _
        & Hm & Hc & Ht).
  exists row. split; [exact Hin|]. split; [exact Hm|]. split; assumption.
Defined.

Lemma create_app_database_uri_witness :
  set_and_not_empty (environ "DATABASE_URL")
  = Some "postgres://app@db.example.org/hrf"
  /\ create_app_config environ
     = Configured (mkConfig "0f3a" "postgresql://app@db.example.org/hrf" false).
Proof.
  split; [reflexivity|].
  destruct (proj2 (proj2 (create_app_database_uri environ))
              "0f3a" "postgres://app@db.example.org/hrf" eq_refl eq_refl)
    as (uri & Hconfig & _ & Hrewritten & _).
  rewrite Hconfig. now rewrite (Hrewritten "app@db.example.org/hrf" eq_refl).
Defined.

End more_checks.

Module site_checks.

Import site site_routes site_notions site_samples site_facts.

#[local] Existing Instance samples.sample_json.

Lemma register_keeps_accounts_unique_witness :
  NoDup (map User.username (user tables))
  /\ NoDup (map User.email (user tables))
  /\ NoDup (map User.username
              (user (store (snd (serve register registration tables)))))
  /\ NoDup (map User.email
              (user (store (snd (serve register registration tables))))).
Proof.
  assert (Hnames : NoDup (map User.username (user tables)))
    by (repeat constructor; simpl; tauto).
  assert (Hmails : NoDup (map User.email (user tables)))
    by (repeat constructor; simpl; tauto).
  split; [exact Hnames|]. split; [exact Hmails|].
  destruct (register_keeps_accounts_unique registration tables Hnames Hmails)
    as (Hn & Hm & _).
  split; assumption.
Defined.

Lemma register_success_witness :
  exists u,
    user (store (snd (serve register registration tables)))
    = (user tables ++ [u])%list
    /\ User.username u = "bob"
    /\ User.subscription_active u = Some false
    /\ User.id u = Some 2%Z.
Proof.
  assert (Hserved :
    serve register registration tables
    = (Redirect "questionnaire", snd (serve register registration tables)))
    by (vm_compute; reflexivity).
  destruct (register_success _ _ _ Hserved)
    as (username & email & password & u & Hname & _ & _ & _ & Hstored
        & Hu & _ & _ & Hsub & Hid & _).
  assert (Hbob : username = "bob") by (cbv in Hname; congruence).
  exists u. split; [exact Hstored|]. split; [congruence|].
  split; [exact Hsub|exact Hid].
Defined.

Lemma login_outcomes_witness :
  anonymous (signing_in "alice" "correct horse") tables
  /\ serve login (signing_in "alice" "correct horse") tables
     = (Redirect "dashboard",
        mkSt tables [] [("Login successful!", "success")] [] (Some 1%Z)).
Proof.
  assert (Hanon : anonymous (signing_in "alice" "correct horse") tables)
    by exact I.
  split; [exact Hanon|].
  exact (proj1 (proj2 (login_outcomes (signing_in "alice" "correct horse")
                         tables "alice" "correct horse" Hanon
                         eq_refl eq_refl eq_refl))
           alice (hash "correct horse") eq_refl eq_refl eq_refl).
Defined.

Lemma register_then_login_witness :
  serve login (signing_in "bob" "tr0ub4dor")
        (store (snd (serve register registration tables)))
  = (Redirect "dashboard",
     mkSt (store (snd (serve register registration tables))) []
          [("Login successful!", "success")] [] (Some 2%Z)).
Proof.
  assert (Hserved :
    serve register registration tables
    = (Redirect "questionnaire", snd (serve register registration tables)))
    by (vm_compute; reflexivity).
  exact (register_then_login registration (signing_in "bob" "tr0ub4dor")
           tables _ "bob" "tr0ub4dor" Hserved
           eq_refl eq_refl eq_refl eq_refl eq_refl eq_refl eq_refl).
Defined.



Lemma plan_page_latest_witness :
  load_user 1 tables = Some alice
  /\ store (snd (serve plan browsing tables)) = tables
  /\ exists latest,
       In latest (wellness_plan tables)
       /\ (forall q, In q (wellness_plan tables) ->
                     WellnessPlan.user_id q = 1%Z ->
                     newer WellnessPlan.created_at latest q).
Proof.
  assert (Hplans :
    filter (fun p => Z.eqb (WellnessPlan.user_id p) 1) (wellness_plan tables)
    <> []) by discriminate.
  split; [reflexivity|].
  destruct (plan_page_latest browsing tables 1 alice eq_refl eq_refl)
    as (Hstore & _ & Hshown).
  split; [exact Hstore|].
  destruct (Hshown Hplans) as (latest & Hin & _ & Hnewest & _).
  exists latest. split; assumption.
Defined.

Lemma progress_data_groups_rows_witness :
  Forall (fun e => ExerciseProgress.recorded_at e <> None)
         (exercise_progress tables)
  /\ exists data,
       progress_loop (exercise_progress tables) [] = Py.Ok data
       /\ NoDup (map fst data)
       /\ (forall name,
             In name (map fst data)
             <-> In name (map ExerciseProgress.exercise_name
                              (exercise_progress tables))).
Proof.
  assert (Hdated : Forall (fun e => ExerciseProgress.recorded_at e <> None)
                          (exercise_progress tables))
    by (repeat constructor; discriminate).
  split; [exact Hdated|].
  destruct (progress_data_groups_rows (exercise_progress tables) Hdated)
    as (data & Hloop & Hkeys & Hnames & _).
  exists data. split; [exact Hloop|]. split; assumption.
Defined.

Lemma workout_progress_page_witness :
  exists workouts data,
    serve workout_progress browsing tables
    = (Render "workout/progress.html"
         [("workouts", CWorkouts workouts); ("progress_data", CProgress data)],
       mkSt tables [] [] [] (Some 1%Z))
    /\ (List.length workouts <= 10)%nat
    /\ StronglySorted (newer WorkoutLog.completed_at) workouts.
Proof.
  assert (Hdated :
    Forall (fun e => ExerciseProgress.recorded_at e <> None)
           (firstn 50
              (order_desc ExerciseProgress.recorded_at
                 (filter (fun p => Z.eqb (ExerciseProgress.user_id p) 1)
                         (exercise_progress tables)))))
    by (repeat constructor; discriminate).
  destruct (workout_progress_page browsing tables 1 alice eq_refl eq_refl
              Hdated)
    as (workouts & data & Hserved & Hlimit & _ & Hsorted & _).
  exists workouts, data. split; [exact Hserved|]. split; assumption.
Defined.

Lemma log_workout_all_or_nothing_witness :
  method logging_workout = "POST"
  /\ exists l ps,
       store (snd (serve log_workout logging_workout tables))
       = mkTables (user tables) (wellness_profile tables)
                  (wellness_plan tables) (workout_log tables ++ [l])
                  (exercise_progress tables ++ ps)
       /\ map ExerciseProgress.exercise_name ps = [Some "squat"].
Proof.
  split; [reflexivity|].
  destruct (log_workout_all_or_nothing logging_workout tables 1 alice
              eq_refl eq_refl eq_refl)
    as [Hfailed|(l & ps & Hserved & _ & _ & _ & _ & _ & Hnames & _)].
  - exfalso. apply (f_equal fst) in Hfailed. vm_compute in Hfailed.
    discriminate Hfailed.
  - exists l, ps. split; [now rewrite Hserved|exact Hnames].
Defined.

Lemma ingredient_recipes_outcomes_witness :
  method (recipes_for " eggs, ,milk ") = "POST"
  /\ store (snd (serve ingredient_recipes (recipes_for " eggs, ,milk ")
                       tables))
     = tables
  /\ Forall notions.trimmed
            (routes.ingredients_list
               (Py.strip (routes.or_empty
                            (form_get "ingredients"
                               (form (recipes_for " eggs, ,milk ")))))).
Proof.
  split; [reflexivity|].
  destruct (ingredient_recipes_outcomes (recipes_for " eggs, ,milk ") tables
              1 alice eq_refl eq_refl eq_refl)
    as (Hstore & Hitems & _).
  split; assumption.
Defined.


End site_checks.
